(** * Aemeath desktop pet: pointer acquisition and behaviour state machine

    A shallow embedding of [src/aemeath/config.py], [pet.py], [cursor.py] and
    the game loop of [app.py], followed by the properties established for
    them.

    Modelling conventions.
    - Python [float] and [int] values that take part in arithmetic are exact
      rationals ([Q]); comparisons are the boolean tests the code performs.
      Rounding, infinities and NaN are outside the model.  Division is the
      total division of [Q]: every division of the modelled code has a
      divisor that its guard or the configuration keeps away from zero
      ([dist > speed >= 0] in [_move_toward], [raw_mag > 3.0] in the fusion
      filter, a non-empty [GIF_IDLE], a non-zero device-pixel ratio).
    - [math.hypot], [math.cos], [math.sin] and [math.pi] belong to the math
      library, not to this program: they are the interface [Libm].  Every
      property is proved for an arbitrary implementation of that interface;
      [Libm_Q] is an executable one, exact wherever the result is rational.
    - The process-global generator of the [random] module is an explicit
      supply of draws threaded through the code ([rand.M]).
    - Module-level constants of [config.py], which [adapt_to_screen]
      reassigns at run time, are a record passed to the code reading them.
    - Attribute assignment on [self] is a setter on an immutable record.
    - A Python call that may raise returns [py.result]; [try ... except
      Exception] is [py.try_except]. *)

From Stdlib Require Import ZArith QArith Qminmax Qround Lqa.
From Stdlib Require Import List String Ascii Bool Lia.
Import ListNotations.

Open Scope Q_scope.

(** ** Python-level helpers *)

Module py.

(** The exception classes the modelled code raises.  All of them derive from
    [Exception], so [except Exception] catches every value of this type. *)
Inductive exn : Type :=
| KeyError (key : string)
| RuntimeError (msg : string)
| ValueError (msg : string)
| OSError (errno : Z)
| AttributeError (name : string)
| ImportError (name : string).

Inductive result (A : Type) : Type :=
| Returns (a : A)
| Raises (e : exn).
Arguments Returns {A} a.
Arguments Raises {A} e.

Definition bind {A B} (c : result A) (k : A -> result B) : result B :=
  match c with
  | Returns a => k a
  | Raises e => Raises e
  end.

(** [try: body  except Exception: handler]. *)
Definition try_except {A} (body : result A) (handler : exn -> result A) : result A :=
  match body with
  | Returns a => Returns a
  | Raises e => handler e
  end.

(** Truth value of an optional string, as in [if os.environ.get(k):]. *)
Definition truthy (v : option string) : bool :=
  match v with
  | None => false
  | Some s => negb (String.eqb s EmptyString)
  end.

(** [a < b] and [a > b] on numbers. *)
Definition ltb (a b : Q) : bool := negb (Qle_bool b a).
Definition gtb (a b : Q) : bool := ltb b a.
Definition leb (a b : Q) : bool := Qle_bool a b.
(** [a != b] on numbers. *)
Definition neb (a b : Q) : bool := negb (Qeq_bool a b).

End py.

Notation "x <- c1 ;;; c2" := (py.bind c1 (fun x => c2))
  (at level 61, c1 at next level, right associativity).

(** ** The math library interface *)

Class Libm : Type := {
  hypot : Q -> Q -> Q;
  cos : Q -> Q;
  sin : Q -> Q;
  pi : Q
}.

(** An executable implementation.  [hypot] takes integer square roots of the
    numerator and denominator of [x*x + y*y], which is exact whenever that sum
    is the square of a rational (in particular when one argument is zero);
    [cos] and [sin] are Taylor polynomials, exact at [0]. *)
Definition Qsqrt (q : Q) : Q :=
  let r := Qred q in
  Qmake (Z.sqrt (Qnum r)) (Z.to_pos (Z.sqrt (Zpos (Qden r)))).

Definition Libm_Q : Libm := {|
  hypot := fun x y => Qsqrt (x * x + y * y);
  cos := fun a => Qred (1 - a * a / 2 + a * a * a * a / 24);
  sin := fun a => Qred (a - a * a * a / 6 + a * a * a * a * a / 120);
  pi := 355 # 113
|}.

(** ** [config.py] *)

Module config.

(** File paths of the animations, relative to the assets directory. *)
Definition Gif : Type := string.

Record t : Type := mk {
  GIF_MOVE : Gif;
  GIF_DRAG : Gif;
  GIF_SEAL : Gif;
  GIF_IDLE : list Gif;
  GIF_IDLE2 : Gif;
  MOVE_SPEED : Q;
  WANDER_SPEED : Q;
  NEAR_DISTANCE : Q;
  FAR_DISTANCE : Q;
  WANDER_DURATION_MIN : Z;
  WANDER_DURATION_MAX : Z;
  WANDER_RADIUS : Q;
  WANDER_DIR_CHANGE_MIN : Z;
  WANDER_DIR_CHANGE_MAX : Z;
  IDLE_MIN_DURATION : Z;
  IDLE_MAX_DURATION : Z;
  MOUSE_MOVE_THRESHOLD : Q;
  MOUSE_IDLE_T1 : Z;
  MOUSE_IDLE_T2 : Z;
  IDLE2_RAMP_DURATION : Z;
  SEAL_WANDER_RADIUS : Q;
  SPRITE_SCALE : Q;
  REFERENCE_SCREEN_HEIGHT : Z;
  TICK_INTERVAL : Z
}.

(** The values the module is loaded with. *)
Definition base : t := {|
  GIF_MOVE := "gifs/move.gif"%string;
  GIF_DRAG := "gifs/drag.gif"%string;
  GIF_SEAL := "gifs/seal.gif"%string;
  GIF_IDLE := ["gifs/idle1.gif"; "gifs/idle2.gif"; "gifs/idle3.gif";
               "gifs/idle4.gif"; "gifs/idle5.gif"]%string;
  GIF_IDLE2 := "gifs/idle2.gif"%string;
  MOVE_SPEED := 4.0;
  WANDER_SPEED := 1.5;
  NEAR_DISTANCE := 80.0;
  FAR_DISTANCE := 250.0;
  WANDER_DURATION_MIN := 2000;
  WANDER_DURATION_MAX := 4000;
  WANDER_RADIUS := 80.0;
  WANDER_DIR_CHANGE_MIN := 500;
  WANDER_DIR_CHANGE_MAX := 1500;
  IDLE_MIN_DURATION := 2000;
  IDLE_MAX_DURATION := 6000;
  MOUSE_MOVE_THRESHOLD := 5.0;
  MOUSE_IDLE_T1 := 30000;
  MOUSE_IDLE_T2 := 120000;
  IDLE2_RAMP_DURATION := 60000;
  SEAL_WANDER_RADIUS := 120.0;
  SPRITE_SCALE := 0.35;
  REFERENCE_SCREEN_HEIGHT := 1280;
  TICK_INTERVAL := 33
|}.

(** [adapt_to_screen]: every entry of [_BASE_VALUES] is reassigned to its base
    value times [screen_height / REFERENCE_SCREEN_HEIGHT]; the other constants
    keep their current value. *)
Definition adapt_to_screen (screen_height : Z) (c : t) : t :=
  let ratio := inject_Z screen_height / inject_Z (REFERENCE_SCREEN_HEIGHT c) in
  {|
    GIF_MOVE := GIF_MOVE c;
    GIF_DRAG := GIF_DRAG c;
    GIF_SEAL := GIF_SEAL c;
    GIF_IDLE := GIF_IDLE c;
    GIF_IDLE2 := GIF_IDLE2 c;
    MOVE_SPEED := MOVE_SPEED base * ratio;
    WANDER_SPEED := WANDER_SPEED base * ratio;
    NEAR_DISTANCE := NEAR_DISTANCE base * ratio;
    FAR_DISTANCE := FAR_DISTANCE base * ratio;
    WANDER_DURATION_MIN := WANDER_DURATION_MIN c;
    WANDER_DURATION_MAX := WANDER_DURATION_MAX c;
    WANDER_RADIUS := WANDER_RADIUS base * ratio;
    WANDER_DIR_CHANGE_MIN := WANDER_DIR_CHANGE_MIN c;
    WANDER_DIR_CHANGE_MAX := WANDER_DIR_CHANGE_MAX c;
    IDLE_MIN_DURATION := IDLE_MIN_DURATION c;
    IDLE_MAX_DURATION := IDLE_MAX_DURATION c;
    MOUSE_MOVE_THRESHOLD := MOUSE_MOVE_THRESHOLD base * ratio;
    MOUSE_IDLE_T1 := MOUSE_IDLE_T1 c;
    MOUSE_IDLE_T2 := MOUSE_IDLE_T2 c;
    IDLE2_RAMP_DURATION := IDLE2_RAMP_DURATION c;
    SEAL_WANDER_RADIUS := SEAL_WANDER_RADIUS base * ratio;
    SPRITE_SCALE := SPRITE_SCALE base * ratio;
    REFERENCE_SCREEN_HEIGHT := REFERENCE_SCREEN_HEIGHT c;
    TICK_INTERVAL := TICK_INTERVAL c
  |}.

End config.

(** ** The [random] module *)

Module rand.

(** The generator state: the draws [random.random()] will return, in order.
    Each draw of a real generator lies in [[0, 1)]. *)
Definition Rng : Type := nat -> Q.

Definition M (A : Type) : Type := Rng -> A * Rng.

Definition ret {A} (a : A) : M A := fun g => (a, g).

Definition bind {A B} (c : M A) (k : A -> M B) : M B :=
  fun g => let (a, g') := c g in k a g'.

(** [random.random()]. *)
Definition random : M Q := fun g => (g 0%nat, fun n => g (S n)).

(** [random.uniform(a, b)] is [a + (b - a) * random()]. *)
Definition uniform (a b : Q) : M Q :=
  bind random (fun u => ret (a + (b - a) * u)).

(** [random.randint(a, b)] for [a <= b]: an integer of [[a, b]], here the one
    selected by the next draw.  On an empty range, [b < a], the function of
    the library raises [ValueError] instead of returning; a caller whose
    range can be empty states when ([app._show_seal_raises]). *)
Definition randint (a b : Z) : M Z :=
  bind random (fun u => ret (a + Qfloor (u * inject_Z (b - a + 1)))%Z).

(** [random.choice(seq)]: the element selected by the next draw. *)
Definition choice {A} (seq : list A) (default : A) : M A :=
  bind random (fun u =>
    ret (nth (Z.to_nat (Qfloor (u * inject_Z (Z.of_nat (List.length seq))))) seq default)).

End rand.

Notation "x <~ c1 ;; c2" := (rand.bind c1 (fun x => c2))
  (at level 61, c1 at next level, right associativity).

(** ** [pet.py] *)

Module pet.

Inductive PetState : Type :=
| CHASING
| WANDERING
| IDLING
| DRAGGING
| SEAL_MODE.

Definition PetState_eqb (a b : PetState) : bool :=
  match a, b with
  | CHASING, CHASING | WANDERING, WANDERING | IDLING, IDLING
  | DRAGGING, DRAGGING | SEAL_MODE, SEAL_MODE => true
  | _, _ => false
  end.

Definition Gif : Type := config.Gif.

(** The attributes of a [Pet] instance. *)
Record Pet : Type := mkPet {
  x : Q;
  y : Q;
  state : PetState;
  _prev_state : PetState;
  _mouse_x : Q;
  _mouse_y : Q;
  _last_mouse_x : Q;
  _last_mouse_y : Q;
  _mouse_idle_start_ms : Q;
  _mouse_idle_time : Q;
  _mouse_pressed : bool;
  _wander_anchor_x : Q;
  _wander_anchor_y : Q;
  _wander_target_x : Q;
  _wander_target_y : Q;
  _wander_end_time : Q;
  _wander_dir_change_time : Q;
  _idle_end_time : Q;
  _idle_anchor_mouse_x : Q;
  _idle_anchor_mouse_y : Q;
  _seal_active : bool;
  _seal_x : Q;
  _seal_y : Q;
  _seal_wander_target_x : Q;
  _seal_wander_target_y : Q;
  _seal_wander_dir_time : Q;
  current_gif : Gif;
  flipped : bool;
  seal_should_appear : bool;
  seal_should_disappear : bool;
  move_speed : Q;
  wander_speed : Q
}.

(** Attribute assignment [self.f = v]. *)
Definition set_x (v : Q) (p : Pet) : Pet :=
  mkPet v (y p) (state p) (_prev_state p) (_mouse_x p) (_mouse_y p) (_last_mouse_x p)
    (_last_mouse_y p) (_mouse_idle_start_ms p) (_mouse_idle_time p) (_mouse_pressed p)
    (_wander_anchor_x p) (_wander_anchor_y p) (_wander_target_x p) (_wander_target_y p)
    (_wander_end_time p) (_wander_dir_change_time p) (_idle_end_time p) (_idle_anchor_mouse_x p)
    (_idle_anchor_mouse_y p) (_seal_active p) (_seal_x p) (_seal_y p) (_seal_wander_target_x p)
    (_seal_wander_target_y p) (_seal_wander_dir_time p) (current_gif p) (flipped p)
    (seal_should_appear p) (seal_should_disappear p) (move_speed p) (wander_speed p).
Definition set_y (v : Q) (p : Pet) : Pet :=
  mkPet (x p) v (state p) (_prev_state p) (_mouse_x p) (_mouse_y p) (_last_mouse_x p)
    (_last_mouse_y p) (_mouse_idle_start_ms p) (_mouse_idle_time p) (_mouse_pressed p)
    (_wander_anchor_x p) (_wander_anchor_y p) (_wander_target_x p) (_wander_target_y p)
    (_wander_end_time p) (_wander_dir_change_time p) (_idle_end_time p) (_idle_anchor_mouse_x p)
    (_idle_anchor_mouse_y p) (_seal_active p) (_seal_x p) (_seal_y p) (_seal_wander_target_x p)
    (_seal_wander_target_y p) (_seal_wander_dir_time p) (current_gif p) (flipped p)
    (seal_should_appear p) (seal_should_disappear p) (move_speed p) (wander_speed p).
Definition set_state (v : PetState) (p : Pet) : Pet :=
  mkPet (x p) (y p) v (_prev_state p) (_mouse_x p) (_mouse_y p) (_last_mouse_x p) (_last_mouse_y
    p) (_mouse_idle_start_ms p) (_mouse_idle_time p) (_mouse_pressed p) (_wander_anchor_x p)
    (_wander_anchor_y p) (_wander_target_x p) (_wander_target_y p) (_wander_end_time p)
    (_wander_dir_change_time p) (_idle_end_time p) (_idle_anchor_mouse_x p)
    (_idle_anchor_mouse_y p) (_seal_active p) (_seal_x p) (_seal_y p) (_seal_wander_target_x p)
    (_seal_wander_target_y p) (_seal_wander_dir_time p) (current_gif p) (flipped p)
    (seal_should_appear p) (seal_should_disappear p) (move_speed p) (wander_speed p).
Definition set_prev_state (v : PetState) (p : Pet) : Pet :=
  mkPet (x p) (y p) (state p) v (_mouse_x p) (_mouse_y p) (_last_mouse_x p) (_last_mouse_y p)
    (_mouse_idle_start_ms p) (_mouse_idle_time p) (_mouse_pressed p) (_wander_anchor_x p)
    (_wander_anchor_y p) (_wander_target_x p) (_wander_target_y p) (_wander_end_time p)
    (_wander_dir_change_time p) (_idle_end_time p) (_idle_anchor_mouse_x p)
    (_idle_anchor_mouse_y p) (_seal_active p) (_seal_x p) (_seal_y p) (_seal_wander_target_x p)
    (_seal_wander_target_y p) (_seal_wander_dir_time p) (current_gif p) (flipped p)
    (seal_should_appear p) (seal_should_disappear p) (move_speed p) (wander_speed p).
Definition set_mouse_x (v : Q) (p : Pet) : Pet :=
  mkPet (x p) (y p) (state p) (_prev_state p) v (_mouse_y p) (_last_mouse_x p) (_last_mouse_y p)
    (_mouse_idle_start_ms p) (_mouse_idle_time p) (_mouse_pressed p) (_wander_anchor_x p)
    (_wander_anchor_y p) (_wander_target_x p) (_wander_target_y p) (_wander_end_time p)
    (_wander_dir_change_time p) (_idle_end_time p) (_idle_anchor_mouse_x p)
    (_idle_anchor_mouse_y p) (_seal_active p) (_seal_x p) (_seal_y p) (_seal_wander_target_x p)
    (_seal_wander_target_y p) (_seal_wander_dir_time p) (current_gif p) (flipped p)
    (seal_should_appear p) (seal_should_disappear p) (move_speed p) (wander_speed p).
Definition set_mouse_y (v : Q) (p : Pet) : Pet :=
  mkPet (x p) (y p) (state p) (_prev_state p) (_mouse_x p) v (_last_mouse_x p) (_last_mouse_y p)
    (_mouse_idle_start_ms p) (_mouse_idle_time p) (_mouse_pressed p) (_wander_anchor_x p)
    (_wander_anchor_y p) (_wander_target_x p) (_wander_target_y p) (_wander_end_time p)
    (_wander_dir_change_time p) (_idle_end_time p) (_idle_anchor_mouse_x p)
    (_idle_anchor_mouse_y p) (_seal_active p) (_seal_x p) (_seal_y p) (_seal_wander_target_x p)
    (_seal_wander_target_y p) (_seal_wander_dir_time p) (current_gif p) (flipped p)
    (seal_should_appear p) (seal_should_disappear p) (move_speed p) (wander_speed p).
Definition set_last_mouse_x (v : Q) (p : Pet) : Pet :=
  mkPet (x p) (y p) (state p) (_prev_state p) (_mouse_x p) (_mouse_y p) v (_last_mouse_y p)
    (_mouse_idle_start_ms p) (_mouse_idle_time p) (_mouse_pressed p) (_wander_anchor_x p)
    (_wander_anchor_y p) (_wander_target_x p) (_wander_target_y p) (_wander_end_time p)
    (_wander_dir_change_time p) (_idle_end_time p) (_idle_anchor_mouse_x p)
    (_idle_anchor_mouse_y p) (_seal_active p) (_seal_x p) (_seal_y p) (_seal_wander_target_x p)
    (_seal_wander_target_y p) (_seal_wander_dir_time p) (current_gif p) (flipped p)
    (seal_should_appear p) (seal_should_disappear p) (move_speed p) (wander_speed p).
Definition set_last_mouse_y (v : Q) (p : Pet) : Pet :=
  mkPet (x p) (y p) (state p) (_prev_state p) (_mouse_x p) (_mouse_y p) (_last_mouse_x p) v
    (_mouse_idle_start_ms p) (_mouse_idle_time p) (_mouse_pressed p) (_wander_anchor_x p)
    (_wander_anchor_y p) (_wander_target_x p) (_wander_target_y p) (_wander_end_time p)
    (_wander_dir_change_time p) (_idle_end_time p) (_idle_anchor_mouse_x p)
    (_idle_anchor_mouse_y p) (_seal_active p) (_seal_x p) (_seal_y p) (_seal_wander_target_x p)
    (_seal_wander_target_y p) (_seal_wander_dir_time p) (current_gif p) (flipped p)
    (seal_should_appear p) (seal_should_disappear p) (move_speed p) (wander_speed p).
Definition set_mouse_idle_start_ms (v : Q) (p : Pet) : Pet :=
  mkPet (x p) (y p) (state p) (_prev_state p) (_mouse_x p) (_mouse_y p) (_last_mouse_x p)
    (_last_mouse_y p) v (_mouse_idle_time p) (_mouse_pressed p) (_wander_anchor_x p)
    (_wander_anchor_y p) (_wander_target_x p) (_wander_target_y p) (_wander_end_time p)
    (_wander_dir_change_time p) (_idle_end_time p) (_idle_anchor_mouse_x p)
    (_idle_anchor_mouse_y p) (_seal_active p) (_seal_x p) (_seal_y p) (_seal_wander_target_x p)
    (_seal_wander_target_y p) (_seal_wander_dir_time p) (current_gif p) (flipped p)
    (seal_should_appear p) (seal_should_disappear p) (move_speed p) (wander_speed p).
Definition set_mouse_idle_time (v : Q) (p : Pet) : Pet :=
  mkPet (x p) (y p) (state p) (_prev_state p) (_mouse_x p) (_mouse_y p) (_last_mouse_x p)
    (_last_mouse_y p) (_mouse_idle_start_ms p) v (_mouse_pressed p) (_wander_anchor_x p)
    (_wander_anchor_y p) (_wander_target_x p) (_wander_target_y p) (_wander_end_time p)
    (_wander_dir_change_time p) (_idle_end_time p) (_idle_anchor_mouse_x p)
    (_idle_anchor_mouse_y p) (_seal_active p) (_seal_x p) (_seal_y p) (_seal_wander_target_x p)
    (_seal_wander_target_y p) (_seal_wander_dir_time p) (current_gif p) (flipped p)
    (seal_should_appear p) (seal_should_disappear p) (move_speed p) (wander_speed p).
Definition set_mouse_pressed (v : bool) (p : Pet) : Pet :=
  mkPet (x p) (y p) (state p) (_prev_state p) (_mouse_x p) (_mouse_y p) (_last_mouse_x p)
    (_last_mouse_y p) (_mouse_idle_start_ms p) (_mouse_idle_time p) v (_wander_anchor_x p)
    (_wander_anchor_y p) (_wander_target_x p) (_wander_target_y p) (_wander_end_time p)
    (_wander_dir_change_time p) (_idle_end_time p) (_idle_anchor_mouse_x p)
    (_idle_anchor_mouse_y p) (_seal_active p) (_seal_x p) (_seal_y p) (_seal_wander_target_x p)
    (_seal_wander_target_y p) (_seal_wander_dir_time p) (current_gif p) (flipped p)
    (seal_should_appear p) (seal_should_disappear p) (move_speed p) (wander_speed p).
Definition set_wander_anchor_x (v : Q) (p : Pet) : Pet :=
  mkPet (x p) (y p) (state p) (_prev_state p) (_mouse_x p) (_mouse_y p) (_last_mouse_x p)
    (_last_mouse_y p) (_mouse_idle_start_ms p) (_mouse_idle_time p) (_mouse_pressed p) v
    (_wander_anchor_y p) (_wander_target_x p) (_wander_target_y p) (_wander_end_time p)
    (_wander_dir_change_time p) (_idle_end_time p) (_idle_anchor_mouse_x p)
    (_idle_anchor_mouse_y p) (_seal_active p) (_seal_x p) (_seal_y p) (_seal_wander_target_x p)
    (_seal_wander_target_y p) (_seal_wander_dir_time p) (current_gif p) (flipped p)
    (seal_should_appear p) (seal_should_disappear p) (move_speed p) (wander_speed p).
Definition set_wander_anchor_y (v : Q) (p : Pet) : Pet :=
  mkPet (x p) (y p) (state p) (_prev_state p) (_mouse_x p) (_mouse_y p) (_last_mouse_x p)
    (_last_mouse_y p) (_mouse_idle_start_ms p) (_mouse_idle_time p) (_mouse_pressed p)
    (_wander_anchor_x p) v (_wander_target_x p) (_wander_target_y p) (_wander_end_time p)
    (_wander_dir_change_time p) (_idle_end_time p) (_idle_anchor_mouse_x p)
    (_idle_anchor_mouse_y p) (_seal_active p) (_seal_x p) (_seal_y p) (_seal_wander_target_x p)
    (_seal_wander_target_y p) (_seal_wander_dir_time p) (current_gif p) (flipped p)
    (seal_should_appear p) (seal_should_disappear p) (move_speed p) (wander_speed p).
Definition set_wander_target_x (v : Q) (p : Pet) : Pet :=
  mkPet (x p) (y p) (state p) (_prev_state p) (_mouse_x p) (_mouse_y p) (_last_mouse_x p)
    (_last_mouse_y p) (_mouse_idle_start_ms p) (_mouse_idle_time p) (_mouse_pressed p)
    (_wander_anchor_x p) (_wander_anchor_y p) v (_wander_target_y p) (_wander_end_time p)
    (_wander_dir_change_time p) (_idle_end_time p) (_idle_anchor_mouse_x p)
    (_idle_anchor_mouse_y p) (_seal_active p) (_seal_x p) (_seal_y p) (_seal_wander_target_x p)
    (_seal_wander_target_y p) (_seal_wander_dir_time p) (current_gif p) (flipped p)
    (seal_should_appear p) (seal_should_disappear p) (move_speed p) (wander_speed p).
Definition set_wander_target_y (v : Q) (p : Pet) : Pet :=
  mkPet (x p) (y p) (state p) (_prev_state p) (_mouse_x p) (_mouse_y p) (_last_mouse_x p)
    (_last_mouse_y p) (_mouse_idle_start_ms p) (_mouse_idle_time p) (_mouse_pressed p)
    (_wander_anchor_x p) (_wander_anchor_y p) (_wander_target_x p) v (_wander_end_time p)
    (_wander_dir_change_time p) (_idle_end_time p) (_idle_anchor_mouse_x p)
    (_idle_anchor_mouse_y p) (_seal_active p) (_seal_x p) (_seal_y p) (_seal_wander_target_x p)
    (_seal_wander_target_y p) (_seal_wander_dir_time p) (current_gif p) (flipped p)
    (seal_should_appear p) (seal_should_disappear p) (move_speed p) (wander_speed p).
Definition set_wander_end_time (v : Q) (p : Pet) : Pet :=
  mkPet (x p) (y p) (state p) (_prev_state p) (_mouse_x p) (_mouse_y p) (_last_mouse_x p)
    (_last_mouse_y p) (_mouse_idle_start_ms p) (_mouse_idle_time p) (_mouse_pressed p)
    (_wander_anchor_x p) (_wander_anchor_y p) (_wander_target_x p) (_wander_target_y p) v
    (_wander_dir_change_time p) (_idle_end_time p) (_idle_anchor_mouse_x p)
    (_idle_anchor_mouse_y p) (_seal_active p) (_seal_x p) (_seal_y p) (_seal_wander_target_x p)
    (_seal_wander_target_y p) (_seal_wander_dir_time p) (current_gif p) (flipped p)
    (seal_should_appear p) (seal_should_disappear p) (move_speed p) (wander_speed p).
Definition set_wander_dir_change_time (v : Q) (p : Pet) : Pet :=
  mkPet (x p) (y p) (state p) (_prev_state p) (_mouse_x p) (_mouse_y p) (_last_mouse_x p)
    (_last_mouse_y p) (_mouse_idle_start_ms p) (_mouse_idle_time p) (_mouse_pressed p)
    (_wander_anchor_x p) (_wander_anchor_y p) (_wander_target_x p) (_wander_target_y p)
    (_wander_end_time p) v (_idle_end_time p) (_idle_anchor_mouse_x p) (_idle_anchor_mouse_y p)
    (_seal_active p) (_seal_x p) (_seal_y p) (_seal_wander_target_x p) (_seal_wander_target_y p)
    (_seal_wander_dir_time p) (current_gif p) (flipped p) (seal_should_appear p)
    (seal_should_disappear p) (move_speed p) (wander_speed p).
Definition set_idle_end_time (v : Q) (p : Pet) : Pet :=
  mkPet (x p) (y p) (state p) (_prev_state p) (_mouse_x p) (_mouse_y p) (_last_mouse_x p)
    (_last_mouse_y p) (_mouse_idle_start_ms p) (_mouse_idle_time p) (_mouse_pressed p)
    (_wander_anchor_x p) (_wander_anchor_y p) (_wander_target_x p) (_wander_target_y p)
    (_wander_end_time p) (_wander_dir_change_time p) v (_idle_anchor_mouse_x p)
    (_idle_anchor_mouse_y p) (_seal_active p) (_seal_x p) (_seal_y p) (_seal_wander_target_x p)
    (_seal_wander_target_y p) (_seal_wander_dir_time p) (current_gif p) (flipped p)
    (seal_should_appear p) (seal_should_disappear p) (move_speed p) (wander_speed p).
Definition set_idle_anchor_mouse_x (v : Q) (p : Pet) : Pet :=
  mkPet (x p) (y p) (state p) (_prev_state p) (_mouse_x p) (_mouse_y p) (_last_mouse_x p)
    (_last_mouse_y p) (_mouse_idle_start_ms p) (_mouse_idle_time p) (_mouse_pressed p)
    (_wander_anchor_x p) (_wander_anchor_y p) (_wander_target_x p) (_wander_target_y p)
    (_wander_end_time p) (_wander_dir_change_time p) (_idle_end_time p) v (_idle_anchor_mouse_y
    p) (_seal_active p) (_seal_x p) (_seal_y p) (_seal_wander_target_x p) (_seal_wander_target_y
    p) (_seal_wander_dir_time p) (current_gif p) (flipped p) (seal_should_appear p)
    (seal_should_disappear p) (move_speed p) (wander_speed p).
Definition set_idle_anchor_mouse_y (v : Q) (p : Pet) : Pet :=
  mkPet (x p) (y p) (state p) (_prev_state p) (_mouse_x p) (_mouse_y p) (_last_mouse_x p)
    (_last_mouse_y p) (_mouse_idle_start_ms p) (_mouse_idle_time p) (_mouse_pressed p)
    (_wander_anchor_x p) (_wander_anchor_y p) (_wander_target_x p) (_wander_target_y p)
    (_wander_end_time p) (_wander_dir_change_time p) (_idle_end_time p) (_idle_anchor_mouse_x p)
    v (_seal_active p) (_seal_x p) (_seal_y p) (_seal_wander_target_x p) (_seal_wander_target_y
    p) (_seal_wander_dir_time p) (current_gif p) (flipped p) (seal_should_appear p)
    (seal_should_disappear p) (move_speed p) (wander_speed p).
Definition set_seal_active (v : bool) (p : Pet) : Pet :=
  mkPet (x p) (y p) (state p) (_prev_state p) (_mouse_x p) (_mouse_y p) (_last_mouse_x p)
    (_last_mouse_y p) (_mouse_idle_start_ms p) (_mouse_idle_time p) (_mouse_pressed p)
    (_wander_anchor_x p) (_wander_anchor_y p) (_wander_target_x p) (_wander_target_y p)
    (_wander_end_time p) (_wander_dir_change_time p) (_idle_end_time p) (_idle_anchor_mouse_x p)
    (_idle_anchor_mouse_y p) v (_seal_x p) (_seal_y p) (_seal_wander_target_x p)
    (_seal_wander_target_y p) (_seal_wander_dir_time p) (current_gif p) (flipped p)
    (seal_should_appear p) (seal_should_disappear p) (move_speed p) (wander_speed p).
Definition set_seal_x (v : Q) (p : Pet) : Pet :=
  mkPet (x p) (y p) (state p) (_prev_state p) (_mouse_x p) (_mouse_y p) (_last_mouse_x p)
    (_last_mouse_y p) (_mouse_idle_start_ms p) (_mouse_idle_time p) (_mouse_pressed p)
    (_wander_anchor_x p) (_wander_anchor_y p) (_wander_target_x p) (_wander_target_y p)
    (_wander_end_time p) (_wander_dir_change_time p) (_idle_end_time p) (_idle_anchor_mouse_x p)
    (_idle_anchor_mouse_y p) (_seal_active p) v (_seal_y p) (_seal_wander_target_x p)
    (_seal_wander_target_y p) (_seal_wander_dir_time p) (current_gif p) (flipped p)
    (seal_should_appear p) (seal_should_disappear p) (move_speed p) (wander_speed p).
Definition set_seal_y (v : Q) (p : Pet) : Pet :=
  mkPet (x p) (y p) (state p) (_prev_state p) (_mouse_x p) (_mouse_y p) (_last_mouse_x p)
    (_last_mouse_y p) (_mouse_idle_start_ms p) (_mouse_idle_time p) (_mouse_pressed p)
    (_wander_anchor_x p) (_wander_anchor_y p) (_wander_target_x p) (_wander_target_y p)
    (_wander_end_time p) (_wander_dir_change_time p) (_idle_end_time p) (_idle_anchor_mouse_x p)
    (_idle_anchor_mouse_y p) (_seal_active p) (_seal_x p) v (_seal_wander_target_x p)
    (_seal_wander_target_y p) (_seal_wander_dir_time p) (current_gif p) (flipped p)
    (seal_should_appear p) (seal_should_disappear p) (move_speed p) (wander_speed p).
Definition set_seal_wander_target_x (v : Q) (p : Pet) : Pet :=
  mkPet (x p) (y p) (state p) (_prev_state p) (_mouse_x p) (_mouse_y p) (_last_mouse_x p)
    (_last_mouse_y p) (_mouse_idle_start_ms p) (_mouse_idle_time p) (_mouse_pressed p)
    (_wander_anchor_x p) (_wander_anchor_y p) (_wander_target_x p) (_wander_target_y p)
    (_wander_end_time p) (_wander_dir_change_time p) (_idle_end_time p) (_idle_anchor_mouse_x p)
    (_idle_anchor_mouse_y p) (_seal_active p) (_seal_x p) (_seal_y p) v (_seal_wander_target_y
    p) (_seal_wander_dir_time p) (current_gif p) (flipped p) (seal_should_appear p)
    (seal_should_disappear p) (move_speed p) (wander_speed p).
Definition set_seal_wander_target_y (v : Q) (p : Pet) : Pet :=
  mkPet (x p) (y p) (state p) (_prev_state p) (_mouse_x p) (_mouse_y p) (_last_mouse_x p)
    (_last_mouse_y p) (_mouse_idle_start_ms p) (_mouse_idle_time p) (_mouse_pressed p)
    (_wander_anchor_x p) (_wander_anchor_y p) (_wander_target_x p) (_wander_target_y p)
    (_wander_end_time p) (_wander_dir_change_time p) (_idle_end_time p) (_idle_anchor_mouse_x p)
    (_idle_anchor_mouse_y p) (_seal_active p) (_seal_x p) (_seal_y p) (_seal_wander_target_x p)
    v (_seal_wander_dir_time p) (current_gif p) (flipped p) (seal_should_appear p)
    (seal_should_disappear p) (move_speed p) (wander_speed p).
Definition set_seal_wander_dir_time (v : Q) (p : Pet) : Pet :=
  mkPet (x p) (y p) (state p) (_prev_state p) (_mouse_x p) (_mouse_y p) (_last_mouse_x p)
    (_last_mouse_y p) (_mouse_idle_start_ms p) (_mouse_idle_time p) (_mouse_pressed p)
    (_wander_anchor_x p) (_wander_anchor_y p) (_wander_target_x p) (_wander_target_y p)
    (_wander_end_time p) (_wander_dir_change_time p) (_idle_end_time p) (_idle_anchor_mouse_x p)
    (_idle_anchor_mouse_y p) (_seal_active p) (_seal_x p) (_seal_y p) (_seal_wander_target_x p)
    (_seal_wander_target_y p) v (current_gif p) (flipped p) (seal_should_appear p)
    (seal_should_disappear p) (move_speed p) (wander_speed p).
Definition set_current_gif (v : Gif) (p : Pet) : Pet :=
  mkPet (x p) (y p) (state p) (_prev_state p) (_mouse_x p) (_mouse_y p) (_last_mouse_x p)
    (_last_mouse_y p) (_mouse_idle_start_ms p) (_mouse_idle_time p) (_mouse_pressed p)
    (_wander_anchor_x p) (_wander_anchor_y p) (_wander_target_x p) (_wander_target_y p)
    (_wander_end_time p) (_wander_dir_change_time p) (_idle_end_time p) (_idle_anchor_mouse_x p)
    (_idle_anchor_mouse_y p) (_seal_active p) (_seal_x p) (_seal_y p) (_seal_wander_target_x p)
    (_seal_wander_target_y p) (_seal_wander_dir_time p) v (flipped p) (seal_should_appear p)
    (seal_should_disappear p) (move_speed p) (wander_speed p).
Definition set_flipped (v : bool) (p : Pet) : Pet :=
  mkPet (x p) (y p) (state p) (_prev_state p) (_mouse_x p) (_mouse_y p) (_last_mouse_x p)
    (_last_mouse_y p) (_mouse_idle_start_ms p) (_mouse_idle_time p) (_mouse_pressed p)
    (_wander_anchor_x p) (_wander_anchor_y p) (_wander_target_x p) (_wander_target_y p)
    (_wander_end_time p) (_wander_dir_change_time p) (_idle_end_time p) (_idle_anchor_mouse_x p)
    (_idle_anchor_mouse_y p) (_seal_active p) (_seal_x p) (_seal_y p) (_seal_wander_target_x p)
    (_seal_wander_target_y p) (_seal_wander_dir_time p) (current_gif p) v (seal_should_appear p)
    (seal_should_disappear p) (move_speed p) (wander_speed p).
Definition set_seal_should_appear (v : bool) (p : Pet) : Pet :=
  mkPet (x p) (y p) (state p) (_prev_state p) (_mouse_x p) (_mouse_y p) (_last_mouse_x p)
    (_last_mouse_y p) (_mouse_idle_start_ms p) (_mouse_idle_time p) (_mouse_pressed p)
    (_wander_anchor_x p) (_wander_anchor_y p) (_wander_target_x p) (_wander_target_y p)
    (_wander_end_time p) (_wander_dir_change_time p) (_idle_end_time p) (_idle_anchor_mouse_x p)
    (_idle_anchor_mouse_y p) (_seal_active p) (_seal_x p) (_seal_y p) (_seal_wander_target_x p)
    (_seal_wander_target_y p) (_seal_wander_dir_time p) (current_gif p) (flipped p) v
    (seal_should_disappear p) (move_speed p) (wander_speed p).
Definition set_seal_should_disappear (v : bool) (p : Pet) : Pet :=
  mkPet (x p) (y p) (state p) (_prev_state p) (_mouse_x p) (_mouse_y p) (_last_mouse_x p)
    (_last_mouse_y p) (_mouse_idle_start_ms p) (_mouse_idle_time p) (_mouse_pressed p)
    (_wander_anchor_x p) (_wander_anchor_y p) (_wander_target_x p) (_wander_target_y p)
    (_wander_end_time p) (_wander_dir_change_time p) (_idle_end_time p) (_idle_anchor_mouse_x p)
    (_idle_anchor_mouse_y p) (_seal_active p) (_seal_x p) (_seal_y p) (_seal_wander_target_x p)
    (_seal_wander_target_y p) (_seal_wander_dir_time p) (current_gif p) (flipped p)
    (seal_should_appear p) v (move_speed p) (wander_speed p).
Definition set_move_speed (v : Q) (p : Pet) : Pet :=
  mkPet (x p) (y p) (state p) (_prev_state p) (_mouse_x p) (_mouse_y p) (_last_mouse_x p)
    (_last_mouse_y p) (_mouse_idle_start_ms p) (_mouse_idle_time p) (_mouse_pressed p)
    (_wander_anchor_x p) (_wander_anchor_y p) (_wander_target_x p) (_wander_target_y p)
    (_wander_end_time p) (_wander_dir_change_time p) (_idle_end_time p) (_idle_anchor_mouse_x p)
    (_idle_anchor_mouse_y p) (_seal_active p) (_seal_x p) (_seal_y p) (_seal_wander_target_x p)
    (_seal_wander_target_y p) (_seal_wander_dir_time p) (current_gif p) (flipped p)
    (seal_should_appear p) (seal_should_disappear p) v (wander_speed p).
Definition set_wander_speed (v : Q) (p : Pet) : Pet :=
  mkPet (x p) (y p) (state p) (_prev_state p) (_mouse_x p) (_mouse_y p) (_last_mouse_x p)
    (_last_mouse_y p) (_mouse_idle_start_ms p) (_mouse_idle_time p) (_mouse_pressed p)
    (_wander_anchor_x p) (_wander_anchor_y p) (_wander_target_x p) (_wander_target_y p)
    (_wander_end_time p) (_wander_dir_change_time p) (_idle_end_time p) (_idle_anchor_mouse_x p)
    (_idle_anchor_mouse_y p) (_seal_active p) (_seal_x p) (_seal_y p) (_seal_wander_target_x p)
    (_seal_wander_target_y p) (_seal_wander_dir_time p) (current_gif p) (flipped p)
    (seal_should_appear p) (seal_should_disappear p) (move_speed p) v.

Section Logic.

Context {L : Libm}.
Variable cfg : config.t.

(** [Pet.__init__(start_x, start_y)]. *)
Definition __init__ (start_x start_y : Q) : Pet := {|
  x := start_x;
  y := start_y;
  state := CHASING;
  _prev_state := CHASING;
  _mouse_x := start_x;
  _mouse_y := start_y;
  _last_mouse_x := start_x;
  _last_mouse_y := start_y;
  _mouse_idle_start_ms := 0.0;
  _mouse_idle_time := 0.0;
  _mouse_pressed := false;
  _wander_anchor_x := start_x;
  _wander_anchor_y := start_y;
  _wander_target_x := start_x;
  _wander_target_y := start_y;
  _wander_end_time := 0.0;
  _wander_dir_change_time := 0.0;
  _idle_end_time := 0.0;
  _idle_anchor_mouse_x := start_x;
  _idle_anchor_mouse_y := start_y;
  _seal_active := false;
  _seal_x := 0.0;
  _seal_y := 0.0;
  _seal_wander_target_x := 0.0;
  _seal_wander_target_y := 0.0;
  _seal_wander_dir_time := 0.0;
  current_gif := config.GIF_MOVE cfg;
  flipped := false;
  seal_should_appear := false;
  seal_should_disappear := false;
  move_speed := config.MOVE_SPEED cfg;
  wander_speed := config.WANDER_SPEED cfg
|}.

(** *** External input *)

(** The test [math.hypot(dx, dy) > config.MOUSE_MOVE_THRESHOLD] of
    [update_mouse], on the displacement since the previous call. *)
Definition moved (p : Pet) (mx my : Q) : bool :=
  let dx := mx - _last_mouse_x p in
  let dy := my - _last_mouse_y p in
  py.gtb (hypot dx dy) (config.MOUSE_MOVE_THRESHOLD cfg).

Definition update_mouse (p : Pet) (mx my : Q) (buttons_pressed : bool) (now_ms : Q)
  : Pet :=
  let p := set_mouse_pressed buttons_pressed p in
  let p :=
    if moved p mx my then
      let p := set_mouse_idle_start_ms now_ms p in
      let p := set_mouse_idle_time 0.0 p in
      (* dismiss seal when user starts moving the mouse again *)
      if _seal_active p then
        set_seal_should_disappear true (set_seal_active false p)
      else p
    else
      set_mouse_idle_time (now_ms - _mouse_idle_start_ms p) p in
  let p := set_last_mouse_x mx p in
  let p := set_last_mouse_y my p in
  let p := set_mouse_x mx p in
  set_mouse_y my p.

Definition set_seal_position (p : Pet) (sx sy : Q) : Pet :=
  set_seal_y sy (set_seal_x sx p).

(** *** Helpers *)

Definition _move_toward (p : Pet) (dx dy dist speed : Q) : Pet :=
  if py.leb dist speed then
    let p := set_x (x p + dx) p in
    set_y (y p + dy) p
  else
    let p := set_x (x p + dx / dist * speed) p in
    set_y (y p + dy / dist * speed) p.

Definition _pick_wander_target (p : Pet) (now_ms : Q) : rand.M Pet :=
  angle <~ rand.uniform 0 (2 * pi) ;;
  r <~ rand.uniform 20 (config.WANDER_RADIUS cfg) ;;
  let p := set_wander_target_x (_wander_anchor_x p + r * cos angle) p in
  let p := set_wander_target_y (_wander_anchor_y p + r * sin angle) p in
  d <~ rand.randint (config.WANDER_DIR_CHANGE_MIN cfg) (config.WANDER_DIR_CHANGE_MAX cfg) ;;
  rand.ret (set_wander_dir_change_time (now_ms + inject_Z d) p).

Definition _init_wander (p : Pet) (now_ms : Q) : rand.M Pet :=
  let p := set_wander_anchor_x (_mouse_x p) p in
  let p := set_wander_anchor_y (_mouse_y p) p in
  d <~ rand.randint (config.WANDER_DURATION_MIN cfg) (config.WANDER_DURATION_MAX cfg) ;;
  let p := set_wander_end_time (now_ms + inject_Z d) p in
  _pick_wander_target p now_ms.

(** The probability the ramp assigns to [GIF_IDLE2] once the mouse has been
    idle for [T1] or longer: the local [idle2_prob] of [_pick_idle_gif]. *)
Definition idle2_prob (n : Z) (mouse_idle_time : Q) : Q :=
  let elapsed := mouse_idle_time - inject_Z (config.MOUSE_IDLE_T1 cfg) in
  let ramp := Qmin (elapsed / inject_Z (config.IDLE2_RAMP_DURATION cfg)) 1.0 in
  let base := 1.0 / inject_Z n in
  base + ramp * (1.0 - base).

(** The local [other_prob] of [_pick_idle_gif]. *)
Definition other_prob (n : Z) (mouse_idle_time : Q) : Q :=
  (1.0 - idle2_prob n mouse_idle_time) / inject_Z (Z.max (n - 1) 1).

(** The loop [for gif in config.GIF_IDLE] of [_pick_idle_gif]: the first
    animation whose cumulative probability exceeds the draw [r], or
    [fallback] when the loop completes. *)
Fixpoint _pick_idle_loop (gifs : list Gif) (p2 po r cumulative : Q) (fallback : Gif)
  : Gif :=
  match gifs with
  | [] => fallback
  | gif :: rest =>
      let prob := if String.eqb gif (config.GIF_IDLE2 cfg) then p2 else po in
      let cumulative := cumulative + prob in
      if py.ltb r cumulative then gif
      else _pick_idle_loop rest p2 po r cumulative fallback
  end.

(** Choose an idle GIF respecting the idle2 probability ramp. *)
Definition _pick_idle_gif (p : Pet) : rand.M Gif :=
  let n := Z.of_nat (List.length (config.GIF_IDLE cfg)) in
  if (n =? 0)%Z then rand.ret (config.GIF_MOVE cfg)
  else if py.ltb (_mouse_idle_time p) (inject_Z (config.MOUSE_IDLE_T1 cfg)) then
    rand.choice (config.GIF_IDLE cfg) (config.GIF_MOVE cfg)
  else
    r <~ rand.random ;;
    rand.ret (_pick_idle_loop (config.GIF_IDLE cfg)
                (idle2_prob n (_mouse_idle_time p)) (other_prob n (_mouse_idle_time p))
                r 0.0 (last (config.GIF_IDLE cfg) (config.GIF_MOVE cfg))).

Definition _init_idle (p : Pet) (now_ms : Q) : rand.M Pet :=
  let p := set_idle_anchor_mouse_x (_mouse_x p) p in
  let p := set_idle_anchor_mouse_y (_mouse_y p) p in
  gif <~ _pick_idle_gif p ;;
  let p := set_current_gif gif p in
  d <~ rand.randint (config.IDLE_MIN_DURATION cfg) (config.IDLE_MAX_DURATION cfg) ;;
  let p := set_idle_end_time (now_ms + inject_Z d) p in
  rand.ret (set_flipped false p).

(** *** State handlers *)

Definition _handle_dragging (p : Pet) (dx dy dist now_ms : Q) : rand.M Pet :=
  let p := set_current_gif (config.GIF_DRAG cfg) p in
  rand.ret (set_flipped false p).

Definition _handle_chasing (p : Pet) (dx dy dist now_ms : Q) : rand.M Pet :=
  if py.ltb dist (config.NEAR_DISTANCE cfg) then
    (* close enough: start wandering *)
    _init_wander (set_state WANDERING p) now_ms
  else
    let p := _move_toward p dx dy dist (move_speed p) in
    let p := set_current_gif (config.GIF_MOVE cfg) p in
    rand.ret (set_flipped (py.ltb dx 0) p).

Definition _handle_wandering (p : Pet) (dx dy dist now_ms : Q) : rand.M Pet :=
  (* mouse went far: chase again *)
  if py.gtb dist (config.FAR_DISTANCE cfg) && negb (_seal_active p) then
    rand.ret (set_state CHASING p)
  (* wander time elapsed: idle *)
  else if py.gtb now_ms (_wander_end_time p) then
    _init_idle (set_state IDLING p) now_ms
  else
    (* keep anchor near the current target (mouse or seal) *)
    let p :=
      if _seal_active p then
        set_wander_anchor_y (_seal_y p) (set_wander_anchor_x (_seal_x p) p)
      else
        set_wander_anchor_y (_mouse_y p) (set_wander_anchor_x (_mouse_x p) p) in
    (* pick a new random direction when the timer fires *)
    p <~ (if py.gtb now_ms (_wander_dir_change_time p)
          then _pick_wander_target p now_ms else rand.ret p) ;;
    (* move toward current wander target *)
    let wx := _wander_target_x p - x p in
    let wy := _wander_target_y p - y p in
    let wdist := hypot wx wy in
    p <~ (if py.ltb wdist (wander_speed p)
          then _pick_wander_target p now_ms
          else rand.ret (_move_toward p wx wy wdist (wander_speed p))) ;;
    let p := set_current_gif (config.GIF_MOVE cfg) p in
    rand.ret (set_flipped (py.ltb wx 0) p).

Definition _handle_idling (p : Pet) (dx dy dist now_ms : Q) : rand.M Pet :=
  (* mouse went far: chase *)
  if py.gtb dist (config.FAR_DISTANCE cfg) && negb (_seal_active p) then
    rand.ret (set_state CHASING p)
  (* mouse moved significantly since we started idling: re-wander *)
  else if negb (_seal_active p)
          && py.gtb (hypot (_mouse_x p - _idle_anchor_mouse_x p)
                           (_mouse_y p - _idle_anchor_mouse_y p))
                    (config.MOUSE_MOVE_THRESHOLD cfg * 10) then
    _init_wander (set_state WANDERING p) now_ms
  (* seal condition: mouse has been idle for a very long time *)
  else if negb (_seal_active p)
          && py.gtb (_mouse_idle_time p) (inject_Z (config.MOUSE_IDLE_T2 cfg)) then
    let p := set_seal_active true p in
    let p := set_seal_should_appear true p in
    let p := set_state SEAL_MODE p in
    rand.ret (set_seal_wander_dir_time 0.0 p)
  else
    (* switch idle gif when timer fires *)
    p <~ (if py.gtb now_ms (_idle_end_time p) then
            gif <~ _pick_idle_gif p ;;
            let p := set_current_gif gif p in
            d <~ rand.randint (config.IDLE_MIN_DURATION cfg)
                              (config.IDLE_MAX_DURATION cfg) ;;
            rand.ret (set_idle_end_time (now_ms + inject_Z d) p)
          else rand.ret p) ;;
    rand.ret (set_flipped false p).

Definition _handle_seal_mode (p : Pet) (dx dy dist now_ms : Q) : rand.M Pet :=
  if negb (_seal_active p) then
    (* seal dismissed (mouse moved): chase cursor *)
    rand.ret (set_state CHASING p)
  else
    let sdx := _seal_x p - x p in
    let sdy := _seal_y p - y p in
    let sdist := hypot sdx sdy in
    if py.gtb sdist (config.NEAR_DISTANCE cfg) then
      (* too far from seal: chase it *)
      let p := _move_toward p sdx sdy sdist (move_speed p) in
      let p := set_current_gif (config.GIF_MOVE cfg) p in
      rand.ret (set_flipped (py.ltb sdx 0) p)
    else
      (* wander around the seal *)
      p <~ (if py.gtb now_ms (_seal_wander_dir_time p) then
              angle <~ rand.uniform 0 (2 * pi) ;;
              r <~ rand.uniform 20 (config.SEAL_WANDER_RADIUS cfg) ;;
              let p := set_seal_wander_target_x (_seal_x p + r * cos angle) p in
              let p := set_seal_wander_target_y (_seal_y p + r * sin angle) p in
              d <~ rand.randint (config.WANDER_DIR_CHANGE_MIN cfg)
                                (config.WANDER_DIR_CHANGE_MAX cfg) ;;
              rand.ret (set_seal_wander_dir_time (now_ms + inject_Z d) p)
            else rand.ret p) ;;
      let wx := _seal_wander_target_x p - x p in
      let wy := _seal_wander_target_y p - y p in
      let wdist := hypot wx wy in
      let p := if py.gtb wdist (wander_speed p)
               then _move_toward p wx wy wdist (wander_speed p) else p in
      let p := set_current_gif (config.GIF_MOVE cfg) p in
      rand.ret (set_flipped (py.ltb wx 0) p).

(** *** Tick *)

(** Drag detection, the first block of [tick] (overrides any state). *)
Definition drag_detection (p : Pet) : Pet :=
  if _mouse_pressed p && negb (PetState_eqb (state p) DRAGGING) then
    let p := set_prev_state (state p) p in
    set_state DRAGGING p
  else if negb (_mouse_pressed p) && PetState_eqb (state p) DRAGGING then
    set_state (_prev_state p) p
  else p.

(** Target choice, the second block of [tick]. *)
Definition target (p : Pet) : Q * Q :=
  if _seal_active p && negb (PetState_eqb (state p) DRAGGING) then
    (_seal_x p, _seal_y p)
  else
    (_mouse_x p, _mouse_y p).

(** The [dist] that [tick] hands to the state handler. *)
Definition target_dist (p : Pet) : Q :=
  let p := drag_detection p in
  hypot (fst (target p) - x p) (snd (target p) - y p).

(** The handler table of [tick]. *)
Definition handler (s : PetState) : Pet -> Q -> Q -> Q -> Q -> rand.M Pet :=
  match s with
  | CHASING => _handle_chasing
  | WANDERING => _handle_wandering
  | IDLING => _handle_idling
  | DRAGGING => _handle_dragging
  | SEAL_MODE => _handle_seal_mode
  end.

(** Advance the state machine by one frame. *)
Definition tick (p : Pet) (now_ms : Q) : rand.M Pet :=
  let p := drag_detection p in
  let '(target_x, target_y) := target p in
  let dx := target_x - x p in
  let dy := target_y - y p in
  let dist := hypot dx dy in
  handler (state p) p dx dy dist now_ms.

End Logic.

End pet.

(** ** [cursor.py] *)

Module cursor.

(** The triple [(x, y, any_button_pressed)] returned by [query]. *)
Definition Sample : Type := (Q * Q * bool)%type.

(** *** What the host presents to the module *)

(** One [XQueryPointer] reply: root coordinates ([c_int]) and the
    modifier-and-button mask ([c_uint]). *)
Record XPointer : Type := mkXPointer {
  root_x : Z;
  root_y : Z;
  mask : Z
}.

(** An X display as seen through libX11. *)
Record XDisplay : Type := mkXDisplay {
  XDisplayWidth : Z;
  XDisplayHeight : Z;
  XQueryPointer : XPointer
}.

(** Outcome of the exchange of [_HyprlandCursor._get_pos] with the IPC socket
    at a path: [connect], [sendall] and [recv] raise [OSError] (a timeout is
    one), [decode] raises [UnicodeDecodeError], a [ValueError]; otherwise the
    decoded, stripped reply. *)
Inductive ipc_outcome : Type :=
| IpcOSError (errno : Z)
| IpcDecodeError
| IpcReply (resp : string).

Record Host : Type := mkHost {
  (* interpreter *)
  sys_platform : string;
  environ : string -> option string;
  (* [float(s.strip())]; [None] when the text is not a number *)
  float_of_str : string -> option Q;
  (* file system and sockets *)
  path_exists : string -> bool;
  hyprland_ipc : string -> ipc_outcome;
  (* GNOME Shell over D-Bus: the [gi] import and session bus, the unpacked
     reply of [Eval] as (success, [x, y, modifiers]), and the [gdbus] run as
     (return code, the three matched numbers if the output parses) *)
  gi_session_bus : option py.exn;
  gnome_eval : py.result (bool * (Q * Q * Z));
  gnome_gdbus : py.result (Z * option (Q * Q * Z));
  (* KWin scripting bridge: the failure of its set-up, if any *)
  kwin_bridge : option py.exn;
  (* raw mouse device and libX11 *)
  mice_readable : bool;
  mice_open : py.result Z;
  find_library_X11 : option string;
  load_library : option py.exn;
  XOpenDisplay : option XDisplay;
  (* Win32 *)
  windll_user32 : bool
}.

(** Bit test [bool(v & m)]. *)
Definition has_bits (v m : Z) : bool := negb (Z.land v m =? 0)%Z.

(** X11 [Button1Mask], also Clutter's [BUTTON1_MASK]. *)
Definition Button1Mask : Z := Z.shiftl 1 8.

(** *** Hyprland *)

Module HyprlandCursor.

(** [resp.split(",")]. *)
Fixpoint split_comma (s : string) : list string :=
  match s with
  | EmptyString => [EmptyString]
  | String c rest =>
      if Ascii.eqb c ","%char then EmptyString :: split_comma rest
      else match split_comma rest with
           | [] => [String c EmptyString]
           | w :: ws => String c w :: ws
           end
  end.

Definition _get_pos (h : Host) (_socket_path : string) : py.result (Q * Q) :=
  match hyprland_ipc h _socket_path with
  | IpcOSError errno => py.Raises (py.OSError errno)
  | IpcDecodeError => py.Raises (py.ValueError "UnicodeDecodeError")
  | IpcReply resp =>
      match split_comma resp with
      | [a; b] =>
          match float_of_str h a, float_of_str h b with
          | Some fx, Some fy => py.Returns (fx, fy)
          | _, _ => py.Raises (py.ValueError "could not convert string to float")
          end
      | _ => py.Raises (py.ValueError "Unexpected cursorpos response")
      end
  end.

(** The candidate scan of [__init__]: the attribute starts as the empty
    string and is reassigned to the first candidate that exists.  The
    attribute is typed so that it could hold [None], the value the guard
    after the scan tests for. *)
Fixpoint scan_candidates (h : Host) (candidates : list string) (_socket_path : option string)
  : option string :=
  match candidates with
  | [] => _socket_path
  | p :: rest =>
      if path_exists h p then Some p
      else scan_candidates h rest _socket_path
  end.

Definition candidates (runtime sig : string) : list string :=
  [ (runtime ++ "/hypr/" ++ sig ++ "/.socket.sock")%string;
    ("/tmp/hypr/" ++ sig ++ "/.socket.sock")%string ].

(** [os.environ.get("XDG_RUNTIME_DIR", "/tmp")]. *)
Definition runtime_dir (h : Host) : string :=
  match environ h "XDG_RUNTIME_DIR" with
  | Some v => v
  | None => "/tmp"%string
  end.

(** [_HyprlandCursor.__init__]: the socket path of the new instance. *)
Definition __init__ (h : Host) : py.result string :=
  sig <- match environ h "HYPRLAND_INSTANCE_SIGNATURE" with
         | Some v => py.Returns v
         | None => py.Raises (py.KeyError "HYPRLAND_INSTANCE_SIGNATURE")
         end ;;;
  let runtime := runtime_dir h in
  match scan_candidates h (candidates runtime sig) (Some EmptyString) with
  | None => py.Raises (py.RuntimeError "Hyprland IPC socket not found")
  | Some _socket_path =>
      (* Verify the socket actually responds. *)
      _ <- _get_pos h _socket_path ;;;
      py.Returns _socket_path
  end.

Definition query (h : Host) (_socket_path : string) : Sample :=
  match _get_pos h _socket_path with
  | py.Returns (fx, fy) =>
      (* Hyprland IPC does not expose button state; default to False. *)
      (fx, fy, false)
  | py.Raises _ => (0.0, 0.0, false)
  end.

End HyprlandCursor.

(** *** GNOME *)

Module GnomeCursor.

Definition _query_gi (h : Host) : py.result Sample :=
  r <- gnome_eval h ;;;
  let '(success, (vx, vy, mods)) := r in
  if negb success then py.Raises (py.RuntimeError "GNOME Shell Eval returned failure")
  else py.Returns (vx, vy, has_bits mods 256 (* 0x100, BUTTON1_MASK *)).

Definition _query_subprocess (h : Host) : py.result Sample :=
  r <- gnome_gdbus h ;;;
  let '(returncode, m) := r in
  if negb (returncode =? 0)%Z then py.Raises (py.RuntimeError "gdbus call failed")
  else match m with
       | None => py.Raises (py.RuntimeError "Cannot parse gdbus output")
       | Some (vx, vy, mods) => py.Returns (vx, vy, has_bits mods 256)
       end.

(** [_GnomeCursor.__init__]: the [_use_gi] flag of the new instance. *)
Definition __init__ (h : Host) : py.result bool :=
  py.try_except
    (_ <- match gi_session_bus h with
          | None => py.Returns tt
          | Some e => py.Raises e
          end ;;;
     _ <- _query_gi h ;;;
     py.Returns true)
    (fun _ =>
       _ <- _query_subprocess h ;;;
       py.Returns false).

Definition query (h : Host) (_use_gi : bool) : Sample :=
  match (if _use_gi then _query_gi h else _query_subprocess h) with
  | py.Returns s => s
  | py.Raises _ => (0.0, 0.0, false)
  end.

End GnomeCursor.

(** *** KDE *)

Module KDECursor.

(** [_KDECursor.__init__]: every step of the bridge set-up (session bus,
    service and object registration, script load, first cursor report) raises
    on failure. *)
Definition __init__ (h : Host) : py.result unit :=
  match kwin_bridge h with
  | None => py.Returns tt
  | Some e => py.Raises e
  end.

(** [parent_x], [parent_y]: the coordinates last reported by the KWin script. *)
Definition query (parent_x parent_y : Q) : Sample := (parent_x, parent_y, false).

End KDECursor.

(** *** Wayland hybrid *)

Module WaylandHybridCursor.

Record t : Type := mk {
  _x : Q;
  _y : Q;
  _last_x11_x : Q;
  _last_x11_y : Q;
  _sensitivity : Q;
  _screen_w : Q;
  _screen_h : Q
}.

Definition __init__ (h : Host) : py.result t :=
  if negb (mice_readable h) then
    py.Raises (py.RuntimeError "/dev/input/mice is not readable")
  else
    _ <- mice_open h ;;;
    match find_library_X11 h with
    | None => py.Raises (py.RuntimeError "libX11 not found")
    | Some _ =>
        match load_library h with
        | Some e => py.Raises e
        | None =>
            match XOpenDisplay h with
            | None => py.Raises (py.RuntimeError "Cannot open X display")
            | Some d =>
                (* Seed with current XQueryPointer position. *)
                let vx := inject_Z (root_x (XQueryPointer d)) in
                let vy := inject_Z (root_y (XQueryPointer d)) in
                py.Returns {|
                  _x := vx;
                  _y := vy;
                  _last_x11_x := vx;
                  _last_x11_y := vy;
                  _sensitivity := 1.0;
                  _screen_w := inject_Z (XDisplayWidth d);
                  _screen_h := inject_Z (XDisplayHeight d)
                |}
            end
        end
    end.

(** The loop of [_read_mice] over the successive results of
    [os.read(self._mice_fd, 3)].  The end of [reads] is the read that raises
    [OSError] because nothing is pending; a result shorter than three bytes
    also ends the loop. *)
Fixpoint _read_mice_loop (reads : list (list Z)) (total_dx total_dy : Z) (btn : bool)
  : Z * Z * bool :=
  match reads with
  | [] => (total_dx, total_dy, btn)
  | data :: rest =>
      match data with
      | [b; dx; dy] =>
          let dx := if has_bits b 16 (* 0x10, X sign bit *) then (dx - 256)%Z else dx in
          let dy := if has_bits b 32 (* 0x20, Y sign bit *) then (dy - 256)%Z else dy in
          _read_mice_loop rest (total_dx + dx)%Z (total_dy - dy)%Z (has_bits b 1)
      | _ => (total_dx, total_dy, btn)
      end
  end.

Definition _read_mice (reads : list (list Z)) : Z * Z * bool :=
  _read_mice_loop reads 0%Z 0%Z false.

Section Query.

Context {L : Libm}.

(** [query], on the pending device reads and the pointer reply of this call. *)
Definition query (self : t) (reads : list (list Z)) (ptr : XPointer) : t * Sample :=
  (* 1. Read raw deltas from /dev/input/mice. *)
  let '(raw_dx, raw_dy, mice_btn) := _read_mice reads in
  (* 2. Read XQueryPointer. *)
  let x11_x := inject_Z (root_x ptr) in
  let x11_y := inject_Z (root_y ptr) in
  let x11_btn := has_bits (mask ptr) Button1Mask in
  (* 3. Did XQueryPointer return a FRESH value? *)
  let x11_dx := x11_x - _last_x11_x self in
  let x11_dy := x11_y - _last_x11_y self in
  let x11_changed := py.neb x11_dx 0.0 || py.neb x11_dy 0.0 in
  let self :=
    if x11_changed then
      (* XQueryPointer is live: use its value directly *)
      let raw_mag := hypot (inject_Z raw_dx) (inject_Z raw_dy) in
      let actual_mag := hypot x11_dx x11_dy in
      {| _x := x11_x;
         _y := x11_y;
         _last_x11_x := x11_x;
         _last_x11_y := x11_y;
         _sensitivity :=
           if py.gtb raw_mag 3.0 then
             let new_ratio := actual_mag / raw_mag in
             0.85 * _sensitivity self + 0.15 * new_ratio
           else _sensitivity self;
         _screen_w := _screen_w self;
         _screen_h := _screen_h self |}
    else
      (* XQueryPointer is stale: extrapolate from raw deltas *)
      if negb (raw_dx =? 0)%Z || negb (raw_dy =? 0)%Z then
        let vx := _x self + inject_Z raw_dx * _sensitivity self in
        let vy := _y self + inject_Z raw_dy * _sensitivity self in
        (* Clamp to screen bounds. *)
        {| _x := Qmax 0.0 (Qmin (_screen_w self - 1) vx);
           _y := Qmax 0.0 (Qmin (_screen_h self - 1) vy);
           _last_x11_x := _last_x11_x self;
           _last_x11_y := _last_x11_y self;
           _sensitivity := _sensitivity self;
           _screen_w := _screen_w self;
           _screen_h := _screen_h self |}
      else self in
  (self, (_x self, _y self, x11_btn || mice_btn)).

End Query.

End WaylandHybridCursor.

(** *** X11 *)

Module X11Cursor.

Definition __init__ (h : Host) : py.result XDisplay :=
  match find_library_X11 h with
  | None => py.Raises (py.RuntimeError "libX11 not found")
  | Some _ =>
      match load_library h with
      | Some e => py.Raises e
      | None =>
          match XOpenDisplay h with
          | None => py.Raises (py.RuntimeError "Cannot open X display")
          | Some d => py.Returns d
          end
      end
  end.

Definition query (ptr : XPointer) : Sample :=
  let pressed := has_bits (mask ptr) Button1Mask in
  (inject_Z (root_x ptr), inject_Z (root_y ptr), pressed).

End X11Cursor.

(** *** Win32 *)

Module Win32Cursor.

Definition VK_LBUTTON : Z := 1.

Definition __init__ (h : Host) : py.result unit :=
  if windll_user32 h then py.Returns tt
  else py.Raises (py.AttributeError "windll").

(** [pt] is what [GetCursorPos] stores; [GetAsyncKeyState] maps a virtual-key
    code to its state word. *)
Definition query (pt : Z * Z) (GetAsyncKeyState : Z -> Z) : Sample :=
  let pressed := has_bits (GetAsyncKeyState VK_LBUTTON) 32768 (* 0x8000 *) in
  (inject_Z (fst pt), inject_Z (snd pt), pressed).

End Win32Cursor.

(** *** Qt fallback *)

Module QtCursor.

(** The flags of [Qt.MouseButton]. *)
Definition NoButton : Z := 0.
Definition LeftButton : Z := 1.
Definition RightButton : Z := 2.
Definition MiddleButton : Z := 4.

(** [pos] is [QCursor.pos()], [buttons] is [QApplication.mouseButtons()]. *)
Definition query (pos : Z * Z) (buttons : Z) : Sample :=
  (inject_Z (fst pos), inject_Z (snd pos), negb (buttons =? NoButton)%Z).

End QtCursor.

(** *** Factory *)

(** The concrete tracker classes. *)
Inductive Class : Type :=
| _Win32Cursor
| _HyprlandCursor
| _GnomeCursor
| _KDECursor
| _WaylandHybridCursor
| _X11Cursor
| _QtCursor.

(** A tracker instance: its class with the attributes its constructor set. *)
Inductive CursorTracker : Type :=
| Win32
| Hyprland (_socket_path : string)
| Gnome (_use_gi : bool)
| KDE
| WaylandHybrid (self : WaylandHybridCursor.t)
| X11 (display : XDisplay)
| Qt.

Definition class_of (t : CursorTracker) : Class :=
  match t with
  | Win32 => _Win32Cursor
  | Hyprland _ => _HyprlandCursor
  | Gnome _ => _GnomeCursor
  | KDE => _KDECursor
  | WaylandHybrid _ => _WaylandHybridCursor
  | X11 _ => _X11Cursor
  | Qt => _QtCursor
  end.

(** The property [needs_dpr_scaling]: [False] in the base class, overridden
    by the two classes that report X11 physical pixels. *)
Definition needs_dpr_scaling (t : CursorTracker) : bool :=
  match t with
  | WaylandHybrid _ | X11 _ => true
  | _ => false
  end.

(** The call [C()].  [_QtCursor] defines no [__init__] and implements the one
    abstract method, so instantiating it runs no code of its own. *)
Definition construct (h : Host) (c : Class) : py.result CursorTracker :=
  match c with
  | _Win32Cursor => _ <- Win32Cursor.__init__ h ;;; py.Returns Win32
  | _HyprlandCursor => p <- HyprlandCursor.__init__ h ;;; py.Returns (Hyprland p)
  | _GnomeCursor => g <- GnomeCursor.__init__ h ;;; py.Returns (Gnome g)
  | _KDECursor => _ <- KDECursor.__init__ h ;;; py.Returns KDE
  | _WaylandHybridCursor => s <- WaylandHybridCursor.__init__ h ;;; py.Returns (WaylandHybrid s)
  | _X11Cursor => d <- X11Cursor.__init__ h ;;; py.Returns (X11 d)
  | _QtCursor => py.Returns Qt
  end.

(** How a statement of the factory ends: control falls through to the next
    statement, the function returns a tracker, or an exception leaves it. *)
Inductive flow : Type :=
| Next
| Return (t : CursorTracker)
| Raise (e : py.exn).

(** The constructor calls made so far, in order, each with whether it
    succeeded. *)
Definition Log : Type := list (Class * bool).

Definition stmt : Type := Log -> Log * flow.

Definition pass : stmt := fun log => (log, Next).

Definition seq (s1 s2 : stmt) : stmt :=
  fun log =>
    match s1 log with
    | (log', Next) => s2 log'
    | r => r
    end.

Definition when (b : bool) (s : stmt) : stmt := if b then s else pass.

(** [return C()]. *)
Definition return_new (h : Host) (c : Class) : stmt :=
  fun log =>
    match construct h c with
    | py.Returns t => (log ++ [(c, true)], Return t)
    | py.Raises e => (log ++ [(c, false)], Raise e)
    end.

(** [try: return C()  except Exception: pass]. *)
Definition try_return_new (h : Host) (c : Class) : stmt :=
  fun log =>
    match construct h c with
    | py.Returns t => (log ++ [(c, true)], Return t)
    | py.Raises _ => (log ++ [(c, false)], Next)
    end.

(** [str.upper()] on text whose letters are ASCII.  The method of the
    library also maps some letters outside ASCII to ASCII capitals (the
    long s to S, the dotless i to I); desktop names that contain such letters
    are outside this model. *)
Definition upper_char (c : ascii) : ascii :=
  let n := nat_of_ascii c in
  if (97 <=? n)%nat && (n <=? 122)%nat then ascii_of_nat (n - 32) else c.

Fixpoint upper (s : string) : string :=
  match s with
  | EmptyString => EmptyString
  | String c rest => String (upper_char c) (upper rest)
  end.

(** [needle in haystack] on strings. *)
Fixpoint contains (needle haystack : string) : bool :=
  String.prefix needle haystack
  || match haystack with
     | EmptyString => false
     | String _ rest => contains needle rest
     end.

(** [any(d in desktop for d in names)]. *)
Definition any_in (names : list string) (desktop : string) : bool :=
  existsb (fun d => contains d desktop) names.

Local Notation "s1 >> s2" := (seq s1 s2) (at level 62, right associativity).

(** Return the best available [CursorTracker] for this platform. *)
Definition create_cursor_tracker (h : Host) : Log * flow :=
  ((if String.eqb (sys_platform h) "win32" then
      try_return_new h _Win32Cursor
    else if String.eqb (sys_platform h) "linux" then
      let is_wayland :=
        py.truthy (environ h "WAYLAND_DISPLAY")
        || match environ h "XDG_SESSION_TYPE" with
           | Some v => String.eqb v "wayland"
           | None => false
           end in
      when is_wayland
        ((* compositor-specific (reliable on Wayland) *)
         when (py.truthy (environ h "HYPRLAND_INSTANCE_SIGNATURE"))
           (try_return_new h _HyprlandCursor) >>
         let desktop :=
           upper match environ h "XDG_CURRENT_DESKTOP" with
                 | Some v => v
                 | None => EmptyString
                 end in
         when (any_in ["GNOME"; "UBUNTU"; "POP"; "UNITY"]%string desktop)
           (try_return_new h _GnomeCursor) >>
         when (any_in ["KDE"; "PLASMA"]%string desktop)
           (try_return_new h _KDECursor) >>
         (* hybrid: XQueryPointer + raw mouse deltas *)
         try_return_new h _WaylandHybridCursor) >>
      (* X11 (native X11 sessions, or XWayland fallback) *)
      try_return_new h _X11Cursor
    else pass) >>
   (* last resort *)
   return_new h _QtCursor) [].

End cursor.

(** ** The game loop of [app.py] *)

Module app.

(** [QRect]: the available geometry of the primary screen. *)
Record Geometry : Type := mkGeometry {
  left : Z;
  top : Z;
  right : Z;
  bottom : Z
}.

(** The part of a [SpriteWidget] the loop reads back: visibility, position of
    the top-left corner and size. *)
Record SpriteWidget : Type := mkSprite {
  isVisible : bool;
  pos_x : Z;
  pos_y : Z;
  width : Z;
  height : Z
}.

(** Position the widget so that its centre is at [(cx, cy)]. *)
Definition move_center_to (w : SpriteWidget) (cx cy : Z) : SpriteWidget :=
  mkSprite (isVisible w) (cx - width w / 2)%Z (cy - height w / 2)%Z (width w) (height w).

(** Return the centre of the widget in screen coordinates. *)
Definition center_pos (w : SpriteWidget) : Q * Q :=
  (inject_Z (pos_x w) + inject_Z (width w) / 2.0,
   inject_Z (pos_y w) + inject_Z (height w) / 2.0).

Definition show (w : SpriteWidget) : SpriteWidget :=
  mkSprite true (pos_x w) (pos_y w) (width w) (height w).

Definition hide (w : SpriteWidget) : SpriteWidget :=
  mkSprite false (pos_x w) (pos_y w) (width w) (height w).

(** The attributes of [AemeathApp] that take part in the pet logic. *)
Record AemeathApp : Type := mkApp {
  _pet : pet.Pet;
  _seal_sprite : SpriteWidget
}.

(** What one timer tick observes: the clock, the reply of the cursor tracker
    with its [needs_dpr_scaling] flag, and the primary screen. *)
Record Frame : Type := mkFrame {
  now_ms : Q;
  sample : cursor.Sample;
  needs_dpr_scaling : bool;
  devicePixelRatio : Q;
  availableGeometry : Geometry
}.

Section Loop.

Context {L : Libm}.
Variable cfg : config.t.

(** [_show_seal] ends in the [ValueError] of [random.randint]: one of its
    two ranges is empty, the geometry being less than 201 pixels wide or
    high. *)
Definition _show_seal_raises (geo : Geometry) : bool :=
  let margin := 100%Z in
  (right geo - margin <? left geo + margin)%Z
  || (bottom geo - margin <? top geo + margin)%Z.

(** [_show_seal] when it returns, that is when [_show_seal_raises] is
    false. *)
Definition _show_seal (w : SpriteWidget) (geo : Geometry) : rand.M SpriteWidget :=
  let margin := 100%Z in
  sx <~ rand.randint (left geo + margin) (right geo - margin) ;;
  sy <~ rand.randint (top geo + margin) (bottom geo - margin) ;;
  rand.ret (show (move_center_to w sx sy)).

Definition _hide_seal (w : SpriteWidget) : SpriteWidget := hide w.

(** The coordinates handed to [update_mouse]: the sample, divided by the
    device-pixel ratio when the tracker reports physical pixels. *)
Definition logical_mouse (f : Frame) : Q * Q :=
  let '(mx, my, _) := sample f in
  let dpr := devicePixelRatio f in
  if needs_dpr_scaling f && (py.neb dpr 0 && py.neb dpr 1.0) then (mx / dpr, my / dpr)
  else (mx, my).

(** The pet as [_tick] hands it to [Pet.tick]: one-shot signals reset, then
    the input fed. *)
Definition feed (a : AemeathApp) (f : Frame) : pet.Pet :=
  (* reset one-shot signals before feeding new input *)
  let p := pet.set_seal_should_appear false (_pet a) in
  let p := pet.set_seal_should_disappear false p in
  (* read inputs (via native cursor tracker) *)
  let '(mx, my) := logical_mouse f in
  let buttons := snd (sample f) in
  pet.update_mouse cfg p mx my buttons (now_ms f).

Definition _tick (a : AemeathApp) (f : Frame) : rand.M AemeathApp :=
  (* advance logic *)
  p <~ pet.tick cfg (feed a f) (now_ms f) ;;
  (* seal events *)
  let geo := availableGeometry f in
  seal <~ (if pet.seal_should_appear p then _show_seal (_seal_sprite a) geo
           else rand.ret (_seal_sprite a)) ;;
  let seal := if pet.seal_should_disappear p then _hide_seal seal else seal in
  let p := if isVisible seal
           then pet.set_seal_position p (fst (center_pos seal)) (snd (center_pos seal))
           else p in
  (* clamp pet position to screen *)
  let margin := 30%Z in
  let p := pet.set_x (Qmax (inject_Z (left geo + margin))
                           (Qmin (inject_Z (right geo - margin)) (pet.x p))) p in
  let p := pet.set_y (Qmax (inject_Z (top geo + margin))
                           (Qmin (inject_Z (bottom geo - margin)) (pet.y p))) p in
  rand.ret (mkApp p seal).

(** [_tick] ends in an exception: the state machine asks for the seal and
    [_show_seal] raises.  The pet has then been advanced by [update_mouse]
    and [Pet.tick], but the seal is not shown, the seal position is not
    handed to the pet and the pet is not clamped.  [_tick] above is the call
    when it returns. *)
Definition _tick_raises (a : AemeathApp) (f : Frame) (g : rand.Rng) : bool :=
  pet.seal_should_appear (fst (pet.tick cfg (feed a f) (now_ms f) g))
  && _show_seal_raises (availableGeometry f).

(** The timer loop: the application after each of the given frames. *)
Fixpoint run (a : AemeathApp) (frames : list Frame) : rand.M (list AemeathApp) :=
  match frames with
  | [] => rand.ret []
  | f :: rest =>
      a' <~ _tick a f ;;
      trace <~ run a' rest ;;
      rand.ret (a' :: trace)
  end.

End Loop.

End app.

(** * Vocabulary of the properties, and scenarios *)

Module factory_spec.

Import cursor.

(** What holds of the log while no constructor has succeeded. *)
Definition all_failed (log : Log) : Prop := Forall (fun e => snd e = false) log.

(** A statement of the factory is well behaved when, started after failed
    attempts only, it either falls through after more failed attempts or
    returns the first instance that could be constructed. *)
Definition well_behaved (h : Host) (s : stmt) : Prop :=
  forall log, all_failed log ->
    (exists log', s log = (log', Next) /\ all_failed log')
    \/ (exists log' t, s log = (log' ++ [(class_of t, true)], Return t)
                       /\ all_failed log'
                       /\ construct h (class_of t) = py.Returns t).

End factory_spec.

Module sample_spec.

(** One complete PS/2 packet as [os.read] returns it: header byte, then the
    X and Y movement bytes. *)
Definition packet_bytes (p : Z * Z * Z) : list Z :=
  let '(b, dx, dy) := p in [b; dx; dy].

(** The left-button bit of the header byte of the last packet of [packets];
    [btn] when there is no packet. *)
Fixpoint last_left_button (packets : list (Z * Z * Z)) (btn : bool) : bool :=
  match packets with
  | [] => btn
  | (b, _, _) :: rest => last_left_button rest (Z.testbit b 0)
  end.

End sample_spec.

Module hybrid_spec.

Import cursor cursor.WaylandHybridCursor.

(** The raw delta [(raw_dx, raw_dy)] a query accumulates from its reads. *)
Definition raw_delta (reads : list (list Z)) : Z * Z := fst (_read_mice reads).

(** The precise source is stale: its reading equals the previous one. *)
Definition stale (self : t) (ptr : XPointer) : Prop :=
  inject_Z (root_x ptr) == _last_x11_x self
  /\ inject_Z (root_y ptr) == _last_x11_y self.

(** The fused position lies within the display bounds. *)
Definition in_bounds (self : t) : Prop :=
  (0 <= _x self /\ _x self <= _screen_w self - 1)
  /\ (0 <= _y self /\ _y self <= _screen_h self - 1).

(** Clamping a coordinate to [[0, size - 1]]. *)
Definition clamp (size v : Q) : Q := Qmax 0.0 (Qmin (size - 1) v).

(** A position advanced by [raw * sensitivity], then clamped to a display of
    [w] by [h] pixels. *)
Definition advance (w h sensitivity : Q) (pos : Q * Q) (raw : Z * Z) : Q * Q :=
  (clamp w (fst pos + inject_Z (fst raw) * sensitivity),
   clamp h (snd pos + inject_Z (snd raw) * sensitivity)).

(** A scripted sequence of queries: the device reads and the pointer reply of
    each. *)
Definition Script : Type := list (list (list Z) * XPointer).

Fixpoint queries {L : Libm} (self : t) (script : Script) : t :=
  match script with
  | [] => self
  | (reads, ptr) :: rest => queries (fst (query self reads ptr)) rest
  end.

(** The sum of the raw deltas of a script. *)
Definition cumulative (script : Script) : Z * Z :=
  fold_left (fun acc step =>
               (fst acc + fst (raw_delta (fst step)),
                snd acc + snd (raw_delta (fst step)))%Z)
            script (0, 0)%Z.

(** The seeded position plus the cumulative raw delta times the sensitivity,
    clamped to the bounds. *)
Definition seed_plus_cumulative (self : t) (script : Script) : Q * Q :=
  advance (_screen_w self) (_screen_h self) (_sensitivity self)
          (_x self, _y self) (cumulative script).

End hybrid_spec.

Module examples.

Import cursor.

(** A display of 1920 by 1080 pixels with the pointer at the left edge. *)
Definition hybrid_at_left_edge : WaylandHybridCursor.t :=
  WaylandHybridCursor.mk 0 500 0 500 1.0 1920 1080.

Definition pointer_at_left_edge : XPointer := mkXPointer 0 500 0.

(** Raw packets: ten counts to the left, ten counts to the right. *)
Definition packet_left : list Z := [24; 246; 0]%Z.
Definition packet_right : list Z := [8; 10; 0]%Z.

(** A fused position beyond the right bound of a 1920-pixel display, as
    left by a pointer reply of [root_x = 2000]. *)
Definition hybrid_outside : WaylandHybridCursor.t :=
  WaylandHybridCursor.mk 2000 500 2000 500 1.0 1920 1080.

Definition pointer_outside : XPointer := mkXPointer 2000 500 0.

(** The tracker seeded at (100, 100), and a fresh pointer reply. *)
Definition hybrid_seeded : WaylandHybridCursor.t :=
  WaylandHybridCursor.mk 100 100 100 100 1.0 1920 1080.

Definition pointer_fresh : XPointer := mkXPointer 105 100 0.

(** Two stale queries at the left edge: the mouse is pushed ten counts
    against the edge, then pulled ten counts back. *)
Definition left_then_right : hybrid_spec.Script :=
  [([packet_left], pointer_at_left_edge); ([packet_right], pointer_at_left_edge)].

End examples.

Module pet_spec.

Import pet.

(** The attributes that carry the control state of the machine: the state,
    the remembered pre-drag state, whether a seal is active, and the two
    one-shot signals. *)
Definition control (p : Pet) : PetState * PetState * bool * bool * bool :=
  (state p, _prev_state p, _seal_active p, seal_should_appear p, seal_should_disappear p).

Section Transition.

Context {L : Libm}.
Variable cfg : config.t.

(** The state in which the handler of [state p] leaves the machine, for the
    target distance [dist] at time [now_ms]; [p] is the pet after drag
    detection. *)
Definition transition (p : Pet) (dist now_ms : Q) : PetState :=
  match state p with
  | CHASING =>
      if py.ltb dist (config.NEAR_DISTANCE cfg) then WANDERING else CHASING
  | WANDERING =>
      if py.gtb dist (config.FAR_DISTANCE cfg) && negb (_seal_active p) then CHASING
      else if py.gtb now_ms (_wander_end_time p) then IDLING
      else WANDERING
  | IDLING =>
      if py.gtb dist (config.FAR_DISTANCE cfg) && negb (_seal_active p) then CHASING
      else if negb (_seal_active p)
              && py.gtb (hypot (_mouse_x p - _idle_anchor_mouse_x p)
                               (_mouse_y p - _idle_anchor_mouse_y p))
                        (config.MOUSE_MOVE_THRESHOLD cfg * 10) then WANDERING
      else if negb (_seal_active p)
              && py.gtb (_mouse_idle_time p) (inject_Z (config.MOUSE_IDLE_T2 cfg))
      then SEAL_MODE
      else IDLING
  | DRAGGING => DRAGGING
  | SEAL_MODE => if negb (_seal_active p) then CHASING else SEAL_MODE
  end.

(** The handler of [state p] spawns the seal. *)
Definition spawns (p : Pet) (dist now_ms : Q) : bool :=
  PetState_eqb (state p) IDLING && PetState_eqb (transition p dist now_ms) SEAL_MODE.

End Transition.

(** A direct flip between chasing and wandering. *)
Definition flip_flop (s s' : PetState) : Prop :=
  (s = CHASING /\ s' = WANDERING) \/ (s = WANDERING /\ s' = CHASING).

(** No two consecutive states of a trace form a flip. *)
Fixpoint no_flip_flop (trace : list PetState) : Prop :=
  match trace with
  | s :: (s' :: _) as rest => ~ flip_flop s s' /\ no_flip_flop rest
  | _ => True
  end.

End pet_spec.

Module app_spec.

Import pet app.

Section Runs.

Context {L : Libm}.
Variable cfg : config.t.

(** The target distance the state machine works with in the tick of frame
    [f]. *)
Definition tick_dist (a : AemeathApp) (f : Frame) : Q :=
  target_dist (feed cfg a f).

(** The pointer displacement of frame [f] exceeds the movement threshold. *)
Definition pointer_moved (a : AemeathApp) (f : Frame) : bool :=
  moved cfg (_pet a) (fst (logical_mouse f)) (snd (logical_mouse f)).

(** The target distance stays strictly between [NEAR_DISTANCE] and
    [FAR_DISTANCE] in every tick of the run. *)
Fixpoint in_band (a : AemeathApp) (frames : list Frame) (g : rand.Rng) : Prop :=
  match frames with
  | [] => True
  | f :: rest =>
      (config.NEAR_DISTANCE cfg < tick_dist a f
       /\ tick_dist a f < config.FAR_DISTANCE cfg)
      /\ in_band (fst (_tick cfg a f g)) rest (snd (_tick cfg a f g))
  end.

(** The states the machine goes through in a run, the starting one first. *)
Definition states (a : AemeathApp) (frames : list Frame) (g : rand.Rng)
  : list PetState :=
  state (_pet a) :: map (fun a' => state (_pet a')) (fst (run cfg a frames g)).

End Runs.

End app_spec.

Module loop_spec.

Import pet app app_spec.

Section Runs.

Context {L : Libm}.
Variable cfg : config.t.

(** The application after the last frame of a run. *)
Definition final (a : AemeathApp) (frames : list Frame) (g : rand.Rng) : AemeathApp :=
  last (fst (run cfg a frames g)) a.

(** In no frame of the run does the pointer displacement since the previous
    frame exceed the movement threshold. *)
Fixpoint still (a : AemeathApp) (frames : list Frame) (g : rand.Rng) : Prop :=
  match frames with
  | [] => True
  | f :: rest =>
      pointer_moved cfg a f = false
      /\ still (fst (_tick cfg a f g)) rest (snd (_tick cfg a f g))
  end.

(** Every timer tick of the run returns. *)
Fixpoint returns (a : AemeathApp) (frames : list Frame) (g : rand.Rng) : Prop :=
  match frames with
  | [] => True
  | f :: rest =>
      _tick_raises cfg a f g = false
      /\ returns (fst (_tick cfg a f g)) rest (snd (_tick cfg a f g))
  end.

End Runs.

End loop_spec.

(** The ramp policy for five idle variants, [T1 = 30000] and a ramp duration
    of [60000]. *)
Module ramp_spec.

(** [ramp = min((idle_elapsed - T1) / RAMP_DURATION, 1)]. *)
Definition ramp (idle_elapsed : Q) : Q := Qmin ((idle_elapsed - 30000) / 60000) 1.

(** The probability of the special variant rises linearly from [1/n] to [1]
    as [ramp] goes from 0 to 1. *)
Definition special (idle_elapsed : Q) : Q := 1 / 5 + ramp idle_elapsed * (1 - 1 / 5).

(** The remaining mass, split evenly among the other four variants. *)
Definition share (idle_elapsed : Q) : Q := (1 - special idle_elapsed) / 4.

End ramp_spec.

Module scenarios.

Import pet app.

(** A single screen of 2048 by 1280 pixels. *)
Definition screen : Geometry := mkGeometry 0 0 2047 1279.

(** The configuration after [adapt_to_screen] for that screen: the base
    values times [1280 / 1280]. *)
Definition cfg : config.t := config.adapt_to_screen 1280 config.base.

(** A frame of a tracker that reports logical pixels. *)
Definition frame (t mx my : Q) (pressed : bool) : Frame :=
  mkFrame t (mx, my, pressed) false 1 screen.

(** The random source whose every draw is [0]. *)
Definition zeros : rand.Rng := fun _ => 0.

(** The application as [AemeathApp.__init__] leaves it, the pet in the
    middle of the screen and the seal sprite hidden. *)
Definition start : AemeathApp :=
  mkApp (pet.__init__ cfg 500 500) (mkSprite false 0 0 100 100).

(** The application and the random source after the given frames. *)
Fixpoint play (a : AemeathApp) (frames : list Frame) (g : rand.Rng)
  : AemeathApp * rand.Rng :=
  match frames with
  | [] => (a, g)
  | f :: rest =>
      let (a', g') := @_tick Libm_Q cfg a f g in
      play a' rest g'
  end.

(** The pointer rests on the pet: it starts wandering, then idles when the
    wander timer has run out. *)
Definition idling : AemeathApp * rand.Rng :=
  play start [frame 0 500 500 false; frame 2001 500 500 false] zeros.

(** The pointer goes 250 pixels away while the pet wanders, and rests there:
    the pet idles 248.5 pixels from it. *)
Definition idling_far : AemeathApp * rand.Rng :=
  play start [frame 0 500 500 false; frame 33 750 500 false;
              frame 2001 750 500 false] zeros.

(** Ten frames in which the resting pointer creeps five pixels at a time,
    never more than the movement threshold. *)
Definition creep : list Frame :=
  map (fun k => frame (119671 + 33 * inject_Z k) (500 + 5 * inject_Z (k + 1)) 500 false)
      [0; 1; 2; 3; 4; 5; 6; 7; 8; 9]%Z.

Definition idling_crept : AemeathApp * rand.Rng :=
  play (fst idling) creep (snd idling).

(** The pointer rests next to the pet: it stays, then creeps three
    pixels. *)
Definition resting : list Frame :=
  [frame 120034 500 500 false; frame 120067 503 500 false].

(** A target that oscillates between 90 and 200 pixels from the pet. *)
Definition oscillation : list Frame :=
  [frame 0 590 500 false; frame 33 704 500 false; frame 66 598 500 false].

(** The pet of the pet-level scenarios: it starts wandering next to the
    pointer. *)
Definition wandering : Pet :=
  fst (@tick Libm_Q cfg
         (@update_mouse Libm_Q cfg (pet.__init__ cfg 500 500) 500 500 false 0) 0 zeros).

(** The button goes down with the pointer 300 pixels away, then up. *)
Definition dragged : Pet :=
  fst (@tick Libm_Q cfg (@update_mouse Libm_Q cfg wandering 800 500 true 33) 33 zeros).

Definition released : Pet :=
  fst (@tick Libm_Q cfg (@update_mouse Libm_Q cfg dragged 800 500 false 66) 66 zeros).

(** A pet whose mouse has been idle for the given time. *)
Definition idle_for (t : Q) : Pet :=
  set_mouse_idle_time t (pet.__init__ config.base 500 500).

(** A Hyprland session whose IPC socket file is missing. *)
Definition hyprland_without_socket : cursor.Host := {|
  cursor.sys_platform := "linux";
  cursor.environ := fun k =>
    if String.eqb k "HYPRLAND_INSTANCE_SIGNATURE" then Some "abc"%string
    else if String.eqb k "WAYLAND_DISPLAY" then Some "wayland-1"%string
    else None;
  cursor.float_of_str := fun _ => None;
  cursor.path_exists := fun _ => false;
  cursor.hyprland_ipc := fun _ => cursor.IpcOSError 2;
  cursor.gi_session_bus := Some (py.ImportError "gi");
  cursor.gnome_eval := py.Raises (py.RuntimeError "no bus");
  cursor.gnome_gdbus := py.Raises (py.OSError 2);
  cursor.kwin_bridge := Some (py.RuntimeError "Cannot connect to session D-Bus");
  cursor.mice_readable := false;
  cursor.mice_open := py.Raises (py.OSError 13);
  cursor.find_library_X11 := None;
  cursor.load_library := None;
  cursor.XOpenDisplay := None;
  cursor.windll_user32 := false
|}.

End scenarios.

(** * Further vocabulary *)

Module pet_inv.

Import pet app.

(** The attributes [update_mouse] maintains: where the pointer is and was,
    the idle clock and the button. *)
Definition mouse_tracker (p : Pet) : Q * Q * Q * Q * Q * Q * bool :=
  (_mouse_x p, _mouse_y p, _last_mouse_x p, _last_mouse_y p,
   _mouse_idle_start_ms p, _mouse_idle_time p, _mouse_pressed p).

(** Where the pet is. *)
Definition position (p : Pet) : Q * Q := (x p, y p).

(** The one-slot memory never holds DRAGGING. *)
Definition drag_memory_ok (p : Pet) : Prop := _prev_state p <> DRAGGING.

(** A seal is active only in SEAL_MODE, or during a drag that began there. *)
Definition seal_placed (p : Pet) : Prop :=
  _seal_active p = true ->
  state p = SEAL_MODE \/ (state p = DRAGGING /\ _prev_state p = SEAL_MODE).

(** The seal sprite is shown exactly while the pet logic has a seal. *)
Definition seal_shown (a : AemeathApp) : Prop :=
  isVisible (_seal_sprite a) = _seal_active (_pet a).

(** What holds of the application between two timer ticks. *)
Definition consistent (a : AemeathApp) : Prop :=
  drag_memory_ok (_pet a) /\ seal_placed (_pet a) /\ seal_shown a.

End pet_inv.

(** ** [sprite.py]: the animation state of a [SpriteWidget] *)

Module sprite.

(** The attributes [set_animation] and [set_flipped] maintain, with the
    number of times the movie was restarted ([stop], [setFileName], [start])
    and the number of direct calls of [_render_frame]. *)
Record Animation : Type := mk {
  _current_path : string;
  _flipped : bool;
  movie_starts : nat;
  renders : nat
}.

(** Switch to displaying [gif_path], optionally flipped horizontally. *)
Definition set_animation (w : Animation) (gif_path : string) (flipped : bool)
  : Animation :=
  let path_str := gif_path in
  if String.eqb path_str (_current_path w) && Bool.eqb flipped (_flipped w) then
    w (* nothing to change *)
  else if String.eqb path_str (_current_path w) then
    (* same animation, only the flip state changed *)
    mk (_current_path w) flipped (movie_starts w) (S (renders w))
  else
    (* brand-new animation *)
    mk path_str flipped (S (movie_starts w)) (renders w).

(** Change horizontal flip without reloading the animation. *)
Definition set_flipped (w : Animation) (flipped : bool) : Animation :=
  if negb (Bool.eqb flipped (_flipped w)) then
    mk (_current_path w) flipped (movie_starts w) (S (renders w))
  else w.

End sprite.

(** ** The PS/2 packets of [/dev/input/mice] *)

Module ps2.

(** One report of the device: the buttons and the movement since the
    previous report, in device coordinates (Y grows upwards). *)
Record Motion : Type := mkMotion {
  left_button : bool;
  right_button : bool;
  middle_button : bool;
  dx : Z;
  dy : Z
}.

Definition bit (b : bool) : Z := if b then 1 else 0.

(** The three bytes of a report: a header with the buttons in bits 0 to 2,
    bit 3 set, and the signs of the movements in bits 4 and 5; then the low
    eight bits of each movement, a nine-bit two's-complement number. *)
Definition packet (m : Motion) : list Z :=
  [ (bit (left_button m) + 2 * bit (right_button m) + 4 * bit (middle_button m) + 8
     + 16 * bit (dx m <? 0) + 32 * bit (dy m <? 0))%Z;
    (dx m mod 256)%Z;
    (dy m mod 256)%Z ].

(** A movement fits nine bits. *)
Definition in_range (m : Motion) : Prop :=
  (-256 <= dx m <= 255)%Z /\ (-256 <= dy m <= 255)%Z.

Definition sum_dx (ms : list Motion) : Z := fold_right (fun m s => (dx m + s)%Z) 0%Z ms.
Definition sum_dy (ms : list Motion) : Z := fold_right (fun m s => (dy m + s)%Z) 0%Z ms.

(** The left button of the last report; [btn] when there is none. *)
Definition last_left (ms : list Motion) (btn : bool) : bool :=
  fold_left (fun _ m => left_button m) ms btn.

End ps2.

(** ** Replies of the Hyprland socket *)

Module hypr_spec.

(** The text contains no comma. *)
Fixpoint comma_free (s : string) : bool :=
  match s with
  | EmptyString => true
  | String c rest => negb (Ascii.eqb c ","%char) && comma_free rest
  end.

End hypr_spec.

(** ** The selection chain as a candidate list *)

Module selection_spec.

Import cursor.

(** The session is a Wayland one, as [create_cursor_tracker] tests it. *)
Definition wayland_session (h : Host) : bool :=
  py.truthy (environ h "WAYLAND_DISPLAY")
  || match environ h "XDG_SESSION_TYPE" with
     | Some v => String.eqb v "wayland"
     | None => false
     end.

Definition desktop (h : Host) : string :=
  upper match environ h "XDG_CURRENT_DESKTOP" with
        | Some v => v
        | None => EmptyString
        end.

(** The ordered candidates for the detected environment, most specific
    first, the Qt fallback last. *)
Definition candidates (h : Host) : list Class :=
  if String.eqb (sys_platform h) "win32" then [_Win32Cursor; _QtCursor]
  else if String.eqb (sys_platform h) "linux" then
    (if wayland_session h then
       (if py.truthy (environ h "HYPRLAND_INSTANCE_SIGNATURE")
        then [_HyprlandCursor] else [])
       ++ (if any_in ["GNOME"; "UBUNTU"; "POP"; "UNITY"]%string (desktop h)
           then [_GnomeCursor] else [])
       ++ (if any_in ["KDE"; "PLASMA"]%string (desktop h) then [_KDECursor] else [])
       ++ [_WaylandHybridCursor]
     else [])
    ++ [_X11Cursor; _QtCursor]
  else [_QtCursor].

(** Try the constructors in order and return the first instance that could
    be constructed. *)
Fixpoint first_success (h : Host) (cs : list Class) (log : Log) : Log * flow :=
  match cs with
  | [] => (log, Next)
  | c :: rest =>
      match construct h c with
      | py.Returns t => (log ++ [(c, true)], Return t)
      | py.Raises _ => first_success h rest (log ++ [(c, false)])
      end
  end.

(** The fixed priority among all the classes. *)
Definition priority : list Class :=
  [_Win32Cursor; _HyprlandCursor; _GnomeCursor; _KDECursor; _WaylandHybridCursor;
   _X11Cursor; _QtCursor].

(** [l] is [l'] with some elements left out. *)
Inductive subseq {A} : list A -> list A -> Prop :=
| subseq_nil : subseq [] []
| subseq_skip (x : A) (l l' : list A) : subseq l l' -> subseq l (x :: l')
| subseq_take (x : A) (l l' : list A) : subseq l l' -> subseq (x :: l) (x :: l').

End selection_spec.

(** ** Start-up of [app.py] *)

Module startup.

Import cursor.

(** [os.environ.get(k, default)]. *)
Definition get (env : string -> option string) (k default : string) : string :=
  match env k with
  | Some v => v
  | None => default
  end.

(** [os.environ[k] = v]. *)
Definition setitem (env : string -> option string) (k v : string)
  : string -> option string :=
  fun k' => if String.eqb k' k then Some v else env k'.

(** [_ensure_xcb_on_wayland]: the environment it leaves behind. *)
Definition _ensure_xcb_on_wayland (h : Host) : string -> option string :=
  if negb (String.eqb (sys_platform h) "linux") then environ h
  else
    let session := get (environ h) "XDG_SESSION_TYPE" "" in
    let wayland_display := get (environ h) "WAYLAND_DISPLAY" "" in
    if String.eqb session "wayland" || negb (String.eqb wayland_display "") then
      setitem (environ h) "QT_QPA_PLATFORM" "xcb"
    else environ h.

(** The host seen by the code that runs after the environment became [env]. *)
Definition with_environ (h : Host) (env : string -> option string) : Host :=
  mkHost (sys_platform h) env (float_of_str h) (path_exists h) (hyprland_ipc h)
         (gi_session_bus h) (gnome_eval h) (gnome_gdbus h) (kwin_bridge h)
         (mice_readable h) (mice_open h) (find_library_X11 h) (load_library h)
         (XOpenDisplay h) (windll_user32 h).

End startup.

(** ** The hybrid tracker over whole sessions *)

Module hybrid_inv.

Import cursor cursor.WaylandHybridCursor.

(** The pointer reply lies on a display of the size the tracker recorded. *)
Definition reply_on_screen (self : t) (ptr : XPointer) : Prop :=
  (0 <= inject_Z (root_x ptr) /\ inject_Z (root_x ptr) <= _screen_w self - 1)
  /\ (0 <= inject_Z (root_y ptr) /\ inject_Z (root_y ptr) <= _screen_h self - 1).

(** The position of a sample lies on a display of [w] by [h] pixels. *)
Definition on_screen (w h : Q) (s : Sample) : Prop :=
  (0 <= fst (fst s) /\ fst (fst s) <= w - 1)
  /\ (0 <= snd (fst s) /\ snd (fst s) <= h - 1).

(** The samples returned by the successive queries of a script. *)
Fixpoint samples {L : Libm} (self : t) (script : hybrid_spec.Script) : list Sample :=
  match script with
  | [] => []
  | (reads, ptr) :: rest =>
      snd (query self reads ptr) :: samples (fst (query self reads ptr)) rest
  end.

End hybrid_inv.

(** ** The handles of the hybrid tracker *)

Module hybrid_handles.

Import cursor.

(** The calls that acquire or release a handle. *)
Inductive call : Type :=
| os_open (fd : Z)
| os_close (fd : Z)
| XOpenDisplay_call (d : XDisplay)
| XCloseDisplay_call (d : XDisplay).

(** The two handles an instance holds. *)
Record Handles : Type := mkHandles {
  _display : option XDisplay;
  _mice_fd : Z
}.

(** [_WaylandHybridCursor.__init__] with the handle calls it makes, in
    order, and the handles of the new instance. *)
Definition __init__ (h : Host)
  : list call * py.result (WaylandHybridCursor.t * Handles) :=
  if negb (mice_readable h) then
    ([], py.Raises (py.RuntimeError "/dev/input/mice is not readable"))
  else
    match mice_open h with
    | py.Raises e => ([], py.Raises e)
    | py.Returns fd =>
        match find_library_X11 h with
        | None =>
            ([os_open fd; os_close fd], py.Raises (py.RuntimeError "libX11 not found"))
        | Some _ =>
            match load_library h with
            | Some e => ([os_open fd], py.Raises e)
            | None =>
                match XOpenDisplay h with
                | None =>
                    ([os_open fd; os_close fd],
                     py.Raises (py.RuntimeError "Cannot open X display"))
                | Some d =>
                    let vx := inject_Z (root_x (XQueryPointer d)) in
                    let vy := inject_Z (root_y (XQueryPointer d)) in
                    ([os_open fd; XOpenDisplay_call d],
                     py.Returns
                       (WaylandHybridCursor.mk vx vy vx vy 1.0
                          (inject_Z (XDisplayWidth d)) (inject_Z (XDisplayHeight d)),
                        mkHandles (Some d) fd))
                end
            end
        end
    end.

(** [close]. *)
Definition close (r : Handles) : list call * Handles :=
  let '(calls1, r) :=
    match _display r with
    | Some d => ([XCloseDisplay_call d], mkHandles None (_mice_fd r))
    | None => ([], r)
    end in
  let '(calls2, r) :=
    if (0 <=? _mice_fd r)%Z then ([os_close (_mice_fd r)], mkHandles (_display r) (-1))
    else ([], r) in
  (calls1 ++ calls2, r).

(** The descriptors opened and not closed again, and the displays likewise. *)
Fixpoint open_fds (calls : list call) (held : list Z) : list Z :=
  match calls with
  | [] => held
  | os_open fd :: rest => open_fds rest (fd :: held)
  | os_close fd :: rest => open_fds rest (List.remove Z.eq_dec fd held)
  | _ :: rest => open_fds rest held
  end.

Fixpoint open_displays (calls : list call) (held : nat) : nat :=
  match calls with
  | [] => held
  | XOpenDisplay_call _ :: rest => open_displays rest (S held)
  | XCloseDisplay_call _ :: rest => open_displays rest (Nat.pred held)
  | _ :: rest => open_displays rest held
  end.

End hybrid_handles.

(** ** The animation of the pet sprite *)

Module display.

(** The pet sprite with the cache [_tick] keeps to avoid redundant updates. *)
Record t : Type := mk {
  _pet_sprite : sprite.Animation;
  _prev_gif : option config.Gif;
  _prev_flipped : option bool
}.

(** The sprite as [SpriteWidget.__init__] leaves it. *)
Definition new_sprite : sprite.Animation := sprite.mk EmptyString false 0 0.

(** The part of [AemeathApp.__init__] that sets up the pet sprite. *)
Definition __init__ (cfg : config.t) : t :=
  mk (sprite.set_animation new_sprite (config.GIF_MOVE cfg) false) None None.

(** [a != b] where [b] may be [None]. *)
Definition differs {A} (eqb : A -> A -> bool) (a : A) (b : option A) : bool :=
  match b with
  | None => true
  | Some b => negb (eqb a b)
  end.

(** The animation update at the end of [_tick] (only when changed). *)
Definition update_animation (d : t) (p : pet.Pet) : t :=
  let gif := pet.current_gif p in
  let flipped := pet.flipped p in
  if differs String.eqb gif (_prev_gif d) || differs Bool.eqb flipped (_prev_flipped d) then
    mk (sprite.set_animation (_pet_sprite d) gif flipped) (Some gif) (Some flipped)
  else d.

(** The cache describes the sprite. *)
Definition coherent (d : t) : Prop :=
  (forall g, _prev_gif d = Some g -> sprite._current_path (_pet_sprite d) = g)
  /\ (forall f, _prev_flipped d = Some f -> sprite._flipped (_pet_sprite d) = f).

(** The sprite shows the animation and the orientation of the pet. *)
Definition shows (d : t) (p : pet.Pet) : Prop :=
  sprite._current_path (_pet_sprite d) = pet.current_gif p
  /\ sprite._flipped (_pet_sprite d) = pet.flipped p.

End display.

(** ** Hosts *)

Module hosts.

Import cursor.

(** A Wayland session of an unnamed compositor whose user may read the
    mouse device: descriptor 7, libX11 present, a display of 1920 by 1080
    pixels with the pointer at (100, 100). *)
Definition hybrid_ready : Host := {|
  sys_platform := "linux";
  environ := fun k =>
    if String.eqb k "XDG_SESSION_TYPE" then Some "wayland"%string else None;
  float_of_str := fun _ => None;
  path_exists := fun _ => false;
  hyprland_ipc := fun _ => IpcOSError 2;
  gi_session_bus := Some (py.ImportError "gi");
  gnome_eval := py.Raises (py.RuntimeError "no bus");
  gnome_gdbus := py.Raises (py.OSError 2);
  kwin_bridge := Some (py.RuntimeError "Cannot connect to session D-Bus");
  mice_readable := true;
  mice_open := py.Returns 7%Z;
  find_library_X11 := Some "libX11.so.6"%string;
  load_library := None;
  XOpenDisplay := Some (mkXDisplay 1920 1080 (mkXPointer 100 100 0));
  windll_user32 := false
|}.

(** The same session with a libX11 that is found but cannot be loaded. *)
Definition broken_libX11 : Host := {|
  sys_platform := "linux";
  environ := fun k =>
    if String.eqb k "XDG_SESSION_TYPE" then Some "wayland"%string else None;
  float_of_str := fun _ => None;
  path_exists := fun _ => false;
  hyprland_ipc := fun _ => IpcOSError 2;
  gi_session_bus := Some (py.ImportError "gi");
  gnome_eval := py.Raises (py.RuntimeError "no bus");
  gnome_gdbus := py.Raises (py.OSError 2);
  kwin_bridge := Some (py.RuntimeError "Cannot connect to session D-Bus");
  mice_readable := true;
  mice_open := py.Returns 7%Z;
  find_library_X11 := Some "libX11.so.6"%string;
  load_library := Some (py.OSError 8);
  XOpenDisplay := None;
  windll_user32 := false
|}.

End hosts.

(** ** Sessions *)

Module sessions.

Import pet app cursor.

(** The button goes down 300 pixels from the pet, stays down, and goes up. *)
Definition press_and_release : list Frame :=
  [scenarios.frame 0 500 500 false; scenarios.frame 33 800 500 true;
   scenarios.frame 66 800 500 true; scenarios.frame 99 800 500 false].

(** The pointer rests on the pet until the seal appears. *)
Definition until_seal : list Frame :=
  [scenarios.frame 0 500 500 false; scenarios.frame 2001 500 500 false;
   scenarios.frame 120001 500 500 false].

(** The idling pet after the tick in which the seal appears. *)
Definition with_seal : AemeathApp * rand.Rng :=
  @_tick Libm_Q scenarios.cfg (fst scenarios.idling)
         (scenarios.frame 120001 500 500 false) (snd scenarios.idling).

(** The first nine frames of the creeping pointer, and the tenth. *)
Definition creep_front : list Frame := removelast scenarios.creep.

Definition creep_last : Frame :=
  scenarios.frame (119671 + 33 * 9) (500 + 5 * 10) 500 false.

(** A fresh pet whose pointer is 300 pixels to its right. *)
Definition chasing : Pet :=
  @update_mouse Libm_Q scenarios.cfg (pet.__init__ scenarios.cfg 500 500) 800 500 false 0.

(** Two stale queries at the left edge, then a fresh pointer reply. *)
Definition stale_then_fresh : hybrid_spec.Script :=
  examples.left_then_right ++ [([examples.packet_right], mkXPointer 105 100 0)].

(** A Hyprland session whose socket answers with the position (12, 34). *)
Definition hyprland_ready : Host := {|
  sys_platform := "linux";
  environ := fun k =>
    if String.eqb k "HYPRLAND_INSTANCE_SIGNATURE" then Some "abc"%string
    else if String.eqb k "WAYLAND_DISPLAY" then Some "wayland-1"%string
    else None;
  float_of_str := fun s =>
    if String.eqb s "12" then Some 12
    else if String.eqb s "34" then Some 34
    else None;
  path_exists := fun _ => true;
  hyprland_ipc := fun _ => IpcReply "12,34";
  gi_session_bus := Some (py.ImportError "gi");
  gnome_eval := py.Raises (py.RuntimeError "no bus");
  gnome_gdbus := py.Raises (py.OSError 2);
  kwin_bridge := Some (py.RuntimeError "Cannot connect to session D-Bus");
  mice_readable := false;
  mice_open := py.Raises (py.OSError 13);
  find_library_X11 := None;
  load_library := None;
  XOpenDisplay := None;
  windll_user32 := false
|}.

(** A pet that turned to the left while keeping its animation. *)
Definition turned : Pet := set_flipped true (pet.__init__ scenarios.cfg 500 500).

End sessions.

(** * Properties *)

(** ** Backend selection *)

Section Selection.

Import cursor factory_spec.

Variable h : Host.

(** A constructor call yields an instance of the class that was called. *)
Lemma construct_class (c : Class) (t : CursorTracker) :
  construct h c = py.Returns t -> class_of t = c.
Proof.
  destruct c; simpl; intros E;
    match type of E with
    | py.bind ?i _ = _ => destruct i; simpl in E; try discriminate
    | _ => idtac
    end; injection E as <-; reflexivity.
Qed.

Lemma all_failed_snoc (log : Log) (c : Class) :
  all_failed log -> all_failed (log ++ [(c, false)]).
Proof.
  intros H. apply Forall_app. split; [exact H | repeat constructor].
Qed.

Lemma well_behaved_pass : well_behaved h pass.
Proof. intros log H. left. exists log. split; [reflexivity | exact H]. Qed.

Lemma well_behaved_try (c : Class) : well_behaved h (try_return_new h c).
Proof.
  intros log H. unfold try_return_new.
  destruct (construct h c) as [t | e] eqn:E.
  - right. exists log, t. pose proof (construct_class _ _ E) as <-.
    repeat split; assumption.
  - left. eexists. split; [reflexivity | apply all_failed_snoc, H].
Qed.

Lemma well_behaved_seq (s1 s2 : stmt) :
  well_behaved h s1 -> well_behaved h s2 -> well_behaved h (seq s1 s2).
Proof.
  intros H1 H2 log H. unfold seq.
  destruct (H1 log H) as [(log' & -> & H') | (log' & t & -> & H' & Ht)].
  - apply H2, H'.
  - right. exists log', t. repeat split; assumption.
Qed.

Lemma well_behaved_when (b : bool) (s : stmt) :
  well_behaved h s -> well_behaved h (when b s).
Proof. destruct b; simpl; [trivial | intros _; apply well_behaved_pass]. Qed.

Lemma well_behaved_if (b : bool) (s1 s2 : stmt) :
  well_behaved h s1 -> well_behaved h s2 -> well_behaved h (if b then s1 else s2).
Proof. destruct b; trivial. Qed.

Create HintDb factory.
#[local] Hint Resolve well_behaved_pass well_behaved_try well_behaved_seq
  well_behaved_when well_behaved_if : factory.

(** C1. [create_cursor_tracker] always returns: whatever the platform, the
    environment variables and the outcome of each specialised constructor,
    the call ends by returning one tracker [t], never by an exception and
    never by falling off the end.  [t] is the only instance that was
    constructed (every earlier constructor call failed), and the [_QtCursor]
    constructor that closes the chain cannot fail. *)
Theorem create_cursor_tracker_returns :
  (exists log t,
      create_cursor_tracker h = (log ++ [(class_of t, true)], Return t)
      /\ all_failed log
      /\ construct h (class_of t) = py.Returns t)
  /\ construct h _QtCursor = py.Returns Qt.
Proof.
  split; [| reflexivity].
  unfold create_cursor_tracker.
  match goal with
  | |- context [seq ?s (return_new h _QtCursor) []] =>
      assert (W : well_behaved h s) by auto 20 with factory;
      unfold seq at 1; destruct (W [] (Forall_nil _))
        as [(log' & -> & H') | (log' & t & -> & H' & Ht)]
  end.
  - exists log', Qt. repeat split; [exact H'].
  - exists log', t. repeat split; assumption.
Qed.

End Selection.

(** ** The Hyprland constructor *)

Section Hyprland.

Import cursor cursor.HyprlandCursor.

Variable h : Host.

Lemma scan_candidates_some (cs : list string) (start : string) :
  exists p, scan_candidates h cs (Some start) = Some p.
Proof.
  induction cs as [| c cs IH]; simpl.
  - exists start. reflexivity.
  - destruct (path_exists h c); [exists c; reflexivity | exact IH].
Qed.

Lemma scan_candidates_absent (cs : list string) (start : option string) :
  (forall p, In p cs -> path_exists h p = false) ->
  scan_candidates h cs start = start.
Proof.
  induction cs as [| c cs IH]; simpl; intros H; [reflexivity |].
  rewrite (H c (or_introl eq_refl)). apply IH. intros p Hp. apply H. right. exact Hp.
Qed.

Lemma _get_pos_no_RuntimeError (path msg : string) :
  _get_pos h path <> py.Raises (py.RuntimeError msg).
Proof.
  unfold _get_pos.
  destruct (hyprland_ipc h path); try discriminate.
  destruct (split_comma resp) as [| a [| b [| c l]]]; try discriminate.
  destruct (float_of_str h a), (float_of_str h b); discriminate.
Qed.

Lemma scan_candidates_origin (cs : list string) (start p : string) :
  scan_candidates h cs (Some start) = Some p ->
  p = start \/ (In p cs /\ path_exists h p = true).
Proof.
  induction cs as [| c cs IH]; simpl; intros E.
  - left. injection E as <-. reflexivity.
  - destruct (path_exists h c) eqn:X.
    + injection E as <-. right. split; [left; reflexivity | exact X].
    + destruct (IH E) as [-> | [Hin Hex]]; [left; reflexivity |].
      right. split; [right; exact Hin | exact Hex].
Qed.

(** C10. In [_HyprlandCursor.__init__] the attribute [_socket_path] is never
    [None] when the guard reads it: it is the empty string it was initialised
    to or a candidate path that exists.  No execution of the constructor
    raises a [RuntimeError]: the branch raising [RuntimeError("Hyprland IPC
    socket not found")] is dead.  When none of the candidate socket files
    exists the attribute is still the empty string, and the constructor ends
    exactly as the smoke test [_get_pos] on the empty path does; so when the
    connection to the empty path fails with an [OSError], that error is what
    the constructor raises. *)
Theorem hyprland_socket_guard_dead :
  (forall runtime sig,
      exists p,
        scan_candidates h (candidates runtime sig) (Some EmptyString) = Some p
        /\ (p = EmptyString
            \/ (In p (candidates runtime sig) /\ path_exists h p = true)))
  /\ (forall msg, __init__ h <> py.Raises (py.RuntimeError msg))
  /\ (forall sig errno,
        environ h "HYPRLAND_INSTANCE_SIGNATURE" = Some sig ->
        (forall p, In p (candidates (runtime_dir h) sig) -> path_exists h p = false) ->
        hyprland_ipc h EmptyString = IpcOSError errno ->
        __init__ h = py.bind (_get_pos h EmptyString) (fun _ => py.Returns EmptyString)
        /\ __init__ h = py.Raises (py.OSError errno)).
Proof.
  split; [| split].
  - intros runtime sig.
    destruct (scan_candidates_some (candidates runtime sig) EmptyString) as [p E].
    exists p. split; [exact E | apply (scan_candidates_origin _ _ _ E)].
  - intros msg. unfold __init__.
    destruct (environ h "HYPRLAND_INSTANCE_SIGNATURE") as [sig |]; cbn [py.bind];
      [| discriminate].
    match goal with
    | |- context [scan_candidates h ?cs ?s] =>
        destruct (scan_candidates_some cs EmptyString) as [p ->]
    end.
    pose proof (_get_pos_no_RuntimeError p msg) as N.
    destruct (_get_pos h p) as [v | e]; cbn [py.bind]; [discriminate |].
    intros E. apply N. injection E as ->. reflexivity.
  - intros sig errno Hsig Habsent Hipc.
    assert (E : __init__ h
                = py.bind (_get_pos h EmptyString) (fun _ => py.Returns EmptyString)).
    { unfold __init__. rewrite Hsig. cbn [py.bind].
      rewrite scan_candidates_absent by apply Habsent. reflexivity. }
    split; [exact E |].
    rewrite E. unfold _get_pos. rewrite Hipc. reflexivity.
Qed.

End Hyprland.

(** ** Comparisons and bit tests *)

(** Linear arithmetic after turning divisions by constants into products. *)
Ltac inv_consts :=
  unfold Qdiv, inject_Z in *;
  repeat match goal with
    | |- context [Qinv (Qmake ?n ?d)] =>
        let v := eval cbv in (Qinv (Qmake n d)) in
        change (Qinv (Qmake n d)) with v in *
    | H : context [Qinv (Qmake ?n ?d)] |- _ =>
        let v := eval cbv in (Qinv (Qmake n d)) in
        change (Qinv (Qmake n d)) with v in *
    end.

Ltac lra_div := inv_consts; lra.

Lemma ltb_lt (a b : Q) : py.ltb a b = true <-> a < b.
Proof.
  unfold py.ltb. rewrite negb_true_iff, <- not_true_iff_false, Qle_bool_iff.
  split; [apply Qnot_le_lt | apply Qlt_not_le].
Qed.

Lemma ltb_ge (a b : Q) : py.ltb a b = false <-> b <= a.
Proof. unfold py.ltb. rewrite negb_false_iff. apply Qle_bool_iff. Qed.

Lemma gtb_gt (a b : Q) : py.gtb a b = true <-> b < a.
Proof. apply ltb_lt. Qed.

Lemma gtb_le (a b : Q) : py.gtb a b = false <-> a <= b.
Proof. apply ltb_ge. Qed.

Lemma leb_le (a b : Q) : py.leb a b = true <-> a <= b.
Proof. apply Qle_bool_iff. Qed.

Lemma neb_neq (a b : Q) : py.neb a b = true <-> ~ a == b.
Proof.
  unfold py.neb. rewrite negb_true_iff, <- not_true_iff_false, Qeq_bool_iff.
  reflexivity.
Qed.

Lemma neb_eq (a b : Q) : py.neb a b = false <-> a == b.
Proof. unfold py.neb. rewrite negb_false_iff. apply Qeq_bool_iff. Qed.

(** Testing a value against a one-bit mask reads that bit. *)
Lemma has_bits_pow2 (v k : Z) :
  (0 <= k)%Z -> cursor.has_bits v (2 ^ k) = Z.testbit v k.
Proof.
  intros Hk. unfold cursor.has_bits.
  assert (E : Z.land v (2 ^ k) = if Z.testbit v k then (2 ^ k)%Z else 0%Z).
  { apply Z.bits_inj'. intros n Hn.
    rewrite Z.land_spec, Z.pow2_bits_eqb by assumption.
    destruct (Z.eqb_spec k n) as [<- | Hne].
    - rewrite andb_true_r. destruct (Z.testbit v k) eqn:B.
      + rewrite Z.pow2_bits_true by assumption. reflexivity.
      + rewrite Z.bits_0. reflexivity.
    - rewrite andb_false_r. destruct (Z.testbit v k).
      + rewrite Z.pow2_bits_false by assumption. reflexivity.
      + rewrite Z.bits_0. reflexivity. }
  rewrite E. destruct (Z.testbit v k); [| reflexivity].
  apply negb_true_iff, Z.eqb_neq. pose proof (Z.pow_pos_nonneg 2 k). lia.
Qed.

(** ** The pressed flag of each backend *)

Section Pressed.

Import cursor.

(** [_read_mice] reports the left-button bit of the last packet it read. *)
Lemma _read_mice_loop_button (packets : list (Z * Z * Z)) (dx dy : Z) (btn : bool) :
  snd (WaylandHybridCursor._read_mice_loop (map sample_spec.packet_bytes packets) dx dy btn)
  = sample_spec.last_left_button packets btn.
Proof.
  revert dx dy btn.
  induction packets as [| [[b x] y] rest IH]; intros dx dy btn; [reflexivity |].
  cbn [map sample_spec.packet_bytes WaylandHybridCursor._read_mice_loop].
  rewrite IH. change 1%Z with (2 ^ 0)%Z. rewrite has_bits_pow2 by lia.
  reflexivity.
Qed.

Lemma last_left_button_snoc (packets : list (Z * Z * Z)) (b dx dy : Z) (btn : bool) :
  sample_spec.last_left_button (packets ++ [(b, dx, dy)]) btn = Z.testbit b 0.
Proof.
  revert btn. induction packets as [| [[b' x'] y'] rest IH]; intros btn;
    [reflexivity | apply IH].
Qed.

(** C9 (amended). The pressed flag is the primary button alone for the X11,
    Win32 and GNOME backends, and for the Wayland hybrid (Button1 of the X11
    mask or the left-button bit of the last raw packet); the Hyprland and
    KDE backends always report [False]; the Qt fallback reports whether any
    button at all is held. *)
Theorem pressed_flag_by_backend :
  (forall ptr, snd (X11Cursor.query ptr) = Z.testbit (mask ptr) 8)
  /\ (forall pt keys,
        snd (Win32Cursor.query pt keys) = Z.testbit (keys Win32Cursor.VK_LBUTTON) 15)
  /\ (forall h,
        snd (GnomeCursor.query h true)
        = match gnome_eval h with
          | py.Returns (true, (_, _, mods)) => Z.testbit mods 8
          | _ => false
          end)
  /\ (forall h,
        snd (GnomeCursor.query h false)
        = match gnome_gdbus h with
          | py.Returns (0%Z, Some (_, _, mods)) => Z.testbit mods 8
          | _ => false
          end)
  /\ (forall (L : Libm) self packets ptr,
        snd (snd (WaylandHybridCursor.query self
                    (map sample_spec.packet_bytes packets) ptr))
        = Z.testbit (mask ptr) 8
          || sample_spec.last_left_button packets false)
  /\ (forall h path, snd (HyprlandCursor.query h path) = false)
  /\ (forall px py, snd (KDECursor.query px py) = false)
  /\ (forall pos buttons,
        snd (QtCursor.query pos buttons) = negb (buttons =? QtCursor.NoButton)%Z).
Proof.
  repeat split.
  - intros ptr. apply (has_bits_pow2 _ 8). lia.
  - intros pt keys. apply (has_bits_pow2 _ 15). lia.
  - intros h. unfold GnomeCursor.query, GnomeCursor._query_gi.
    destruct (gnome_eval h) as [[[|] [[vx vy] mods]] | e]; try reflexivity.
    apply (has_bits_pow2 _ 8). lia.
  - intros h. unfold GnomeCursor.query, GnomeCursor._query_subprocess.
    destruct (gnome_gdbus h) as [[rc [[[vx vy] mods] |]] | e]; cbn [py.bind];
      try reflexivity; try (destruct rc; reflexivity).
    destruct rc; try reflexivity. apply (has_bits_pow2 _ 8). lia.
  - intros L self packets ptr. unfold WaylandHybridCursor.query.
    pose proof (_read_mice_loop_button packets 0 0 false) as B.
    fold (WaylandHybridCursor._read_mice (map sample_spec.packet_bytes packets)) in B.
    destruct (WaylandHybridCursor._read_mice _) as [[raw_dx raw_dy] mice_btn].
    cbn [snd] in B |- *. rewrite B.
    f_equal. apply (has_bits_pow2 _ 8). lia.
  - intros h path. unfold HyprlandCursor.query.
    destruct (HyprlandCursor._get_pos h path) as [[fx fy] | e]; reflexivity.
Qed.

End Pressed.

(** ** The fusion filter *)

Section Fusion.

Import cursor cursor.WaylandHybridCursor hybrid_spec.

Context {L : Libm}.

Lemma clamp_id (size v : Q) : 0 <= v -> v <= size - 1 -> clamp size v == v.
Proof.
  intros H0 H1. unfold clamp.
  rewrite (Q.min_r (size - 1) v) by exact H1.
  apply Q.max_r. lra.
Qed.

Lemma clamp_bounds (size v : Q) :
  0 <= size - 1 -> 0 <= clamp size v /\ clamp size v <= size - 1.
Proof.
  intros H. unfold clamp. split.
  - pose proof (Q.le_max_l 0.0 (Qmin (size - 1) v)). lra.
  - apply Q.max_lub; [lra | apply Q.le_min_l].
Qed.

Lemma clamp_proper (size v v' : Q) : v == v' -> clamp size v == clamp size v'.
Proof. intros E. unfold clamp. rewrite E. reflexivity. Qed.

(** The freshness test of [query] is false exactly on stale replies. *)
Lemma x11_changed_stale (self : t) (ptr : XPointer) :
  stale self ptr <->
  py.neb (inject_Z (root_x ptr) - _last_x11_x self) 0.0
  || py.neb (inject_Z (root_y ptr) - _last_x11_y self) 0.0 = false.
Proof.
  unfold stale. rewrite orb_false_iff, !neb_eq. split; intros [Hx Hy]; split; lra.
Qed.

(** A stale query with a non-zero raw delta: advance and clamp. *)
Lemma query_stale_moving (self : t) (reads : list (list Z)) (ptr : XPointer) :
  stale self ptr -> raw_delta reads <> (0, 0)%Z ->
  fst (query self reads ptr)
  = mk (fst (advance (_screen_w self) (_screen_h self) (_sensitivity self)
                     (_x self, _y self) (raw_delta reads)))
       (snd (advance (_screen_w self) (_screen_h self) (_sensitivity self)
                     (_x self, _y self) (raw_delta reads)))
       (_last_x11_x self) (_last_x11_y self) (_sensitivity self)
       (_screen_w self) (_screen_h self).
Proof.
  intros Hs Hraw. apply x11_changed_stale in Hs.
  unfold query, raw_delta in *.
  destruct (_read_mice reads) as [[raw_dx raw_dy] btn]. cbn [fst snd] in *.
  rewrite Hs.
  destruct (Z.eqb_spec raw_dx 0) as [-> | Hx]; destruct (Z.eqb_spec raw_dy 0) as [-> | Hy];
    cbn [negb orb fst]; try reflexivity.
  congruence.
Qed.

(** A stale query with a zero raw delta changes nothing. *)
Lemma query_stale_still (self : t) (reads : list (list Z)) (ptr : XPointer) :
  stale self ptr -> raw_delta reads = (0, 0)%Z ->
  fst (query self reads ptr) = self.
Proof.
  intros Hs Hraw. apply x11_changed_stale in Hs.
  unfold query, raw_delta in *.
  destruct (_read_mice reads) as [[raw_dx raw_dy] btn]. cbn [fst snd] in *.
  rewrite Hs. injection Hraw as -> ->. reflexivity.
Qed.

(** The position a query reports is the fused position it leaves. *)
Lemma query_sample_position (self : t) (reads : list (list Z)) (ptr : XPointer) :
  fst (snd (query self reads ptr))
  = (_x (fst (query self reads ptr)), _y (fst (query self reads ptr))).
Proof.
  unfold query. destruct (_read_mice reads) as [[raw_dx raw_dy] btn]. reflexivity.
Qed.

Lemma raw_delta_dec (reads : list (list Z)) :
  {raw_delta reads = (0, 0)%Z} + {raw_delta reads <> (0, 0)%Z}.
Proof.
  destruct (raw_delta reads) as [a b].
  destruct (Z.eq_dec a 0) as [-> | Ha]; [| right; congruence].
  destruct (Z.eq_dec b 0) as [-> | Hb]; [left; reflexivity | right; congruence].
Qed.

(** On a position within the bounds, a stale query is one [advance] step. *)
Lemma query_stale_in_bounds (self : t) (reads : list (list Z)) (ptr : XPointer) :
  stale self ptr -> in_bounds self ->
  let self' := fst (query self reads ptr) in
  let pos := advance (_screen_w self) (_screen_h self) (_sensitivity self)
                     (_x self, _y self) (raw_delta reads) in
  _x self' == fst pos /\ _y self' == snd pos
  /\ _last_x11_x self' = _last_x11_x self /\ _last_x11_y self' = _last_x11_y self
  /\ _sensitivity self' = _sensitivity self
  /\ _screen_w self' = _screen_w self /\ _screen_h self' = _screen_h self
  /\ in_bounds self'.
Proof.
  intros Hs [[Hx0 Hx1] [Hy0 Hy1]]. cbv zeta.
  destruct (raw_delta_dec reads) as [E | N].
  - rewrite (query_stale_still _ _ _ Hs E). rewrite E. unfold advance. cbn [fst snd].
    repeat split; try reflexivity; try assumption.
    + symmetry. rewrite <- (clamp_id (_screen_w self) (_x self)) at 2 by assumption.
      apply clamp_proper. unfold inject_Z. ring.
    + symmetry. rewrite <- (clamp_id (_screen_h self) (_y self)) at 2 by assumption.
      apply clamp_proper. unfold inject_Z. ring.
  - rewrite (query_stale_moving _ _ _ Hs N). unfold in_bounds, advance.
    cbn [fst snd _x _y _last_x11_x _last_x11_y _sensitivity _screen_w _screen_h].
    repeat split; try reflexivity; apply clamp_bounds; lra.
Qed.

Lemma advance_proper (w h s : Q) (p p' : Q * Q) (raw : Z * Z) :
  fst p == fst p' -> snd p == snd p' ->
  fst (advance w h s p raw) == fst (advance w h s p' raw)
  /\ snd (advance w h s p raw) == snd (advance w h s p' raw).
Proof.
  intros E1 E2. unfold advance. cbn [fst snd].
  split; apply clamp_proper; rewrite ?E1, ?E2; reflexivity.
Qed.

Lemma fold_advance_proper (w h s : Q) (raws : list (Z * Z)) (p p' : Q * Q) :
  fst p == fst p' -> snd p == snd p' ->
  fst (fold_left (advance w h s) raws p) == fst (fold_left (advance w h s) raws p')
  /\ snd (fold_left (advance w h s) raws p) == snd (fold_left (advance w h s) raws p').
Proof.
  revert p p'. induction raws as [| raw raws IH]; intros p p' E1 E2; cbn [fold_left].
  - split; assumption.
  - destruct (advance_proper w h s p p' raw E1 E2) as [A1 A2]. apply IH; assumption.
Qed.

(** Over a script of stale queries, from a position within the bounds, the
    fused position is the seeded position advanced and clamped once per
    query. *)
Lemma queries_stale (script : Script) (self : t) :
  Forall (fun step => stale self (snd step)) script -> in_bounds self ->
  let self' := queries self script in
  let pos := fold_left (advance (_screen_w self) (_screen_h self) (_sensitivity self))
                       (map (fun step => raw_delta (fst step)) script)
                       (_x self, _y self) in
  _x self' == fst pos /\ _y self' == snd pos
  /\ _sensitivity self' = _sensitivity self.
Proof.
  revert self. induction script as [| [reads ptr] rest IH]; intros self Hs Hb; cbv zeta.
  - cbn. repeat split; reflexivity.
  - inversion Hs as [| ? ? Hs1 Hs2]; subst. cbn [snd] in Hs1.
    destruct (query_stale_in_bounds self reads ptr Hs1 Hb)
      as (Ex & Ey & El1 & El2 & Esens & Ew & Eh & Hb').
    cbn [queries map fold_left fst].
    set (self1 := fst (query self reads ptr)) in *.
    assert (Hs' : Forall (fun step => stale self1 (snd step)) rest).
    { eapply Forall_impl; [| exact Hs2]. intros step [H1 H2].
      unfold stale. rewrite El1, El2. split; assumption. }
    destruct (IH self1 Hs' Hb') as (Ix & Iy & Is).
    rewrite Ew, Eh, Esens in Ix, Iy.
    destruct (fold_advance_proper (_screen_w self) (_screen_h self) (_sensitivity self)
                (map (fun step => raw_delta (fst step)) rest)
                (_x self1, _y self1)
                (advance (_screen_w self) (_screen_h self) (_sensitivity self)
                         (_x self, _y self) (raw_delta reads)) Ex Ey) as [P1 P2].
    repeat split.
    + rewrite Ix. exact P1.
    + rewrite Iy. exact P2.
    + rewrite Is. exact Esens.
Qed.

(** C2 (amended). On a stale query the fused position is advanced by
    [raw_delta * sensitivity] and clamped to the display bounds when the raw
    delta is non-zero, and is left as it is when the raw delta is zero, which
    is the same thing whenever the position already lies within the bounds;
    [primary_last] and [sensitivity] do not change.  Consequently, over a
    script of stale queries that starts within the bounds, the fused position
    is the seeded position advanced by [raw_delta * sensitivity] and clamped
    after every query. *)
Theorem hybrid_stale_extrapolation (self : t) :
  (forall reads ptr,
      stale self ptr ->
      let self' := fst (query self reads ptr) in
      let pos := advance (_screen_w self) (_screen_h self) (_sensitivity self)
                         (_x self, _y self) (raw_delta reads) in
      (raw_delta reads <> (0, 0)%Z -> (_x self', _y self') = pos)
      /\ (raw_delta reads = (0, 0)%Z -> self' = self)
      /\ (in_bounds self -> _x self' == fst pos /\ _y self' == snd pos)
      /\ _last_x11_x self' = _last_x11_x self
      /\ _last_x11_y self' = _last_x11_y self
      /\ _sensitivity self' = _sensitivity self
      /\ fst (snd (query self reads ptr)) = (_x self', _y self'))
  /\ (forall script,
        Forall (fun step => stale self (snd step)) script ->
        in_bounds self ->
        let self' := queries self script in
        let pos := fold_left (advance (_screen_w self) (_screen_h self) (_sensitivity self))
                             (map (fun step => raw_delta (fst step)) script)
                             (_x self, _y self) in
        _x self' == fst pos /\ _y self' == snd pos
        /\ _sensitivity self' = _sensitivity self).
Proof.
  split.
  - intros reads ptr Hs. cbv zeta.
    split; [| split; [| split]].
    + intros N. rewrite (query_stale_moving _ _ _ Hs N). reflexivity.
    + intros E. apply (query_stale_still _ _ _ Hs E).
    + intros Hb. destruct (query_stale_in_bounds self reads ptr Hs Hb) as (Ex & Ey & _).
      split; assumption.
    + destruct (raw_delta_dec reads) as [E | N].
      * rewrite (query_sample_position self reads ptr).
        rewrite (query_stale_still _ _ _ Hs E). repeat split; reflexivity.
      * rewrite (query_sample_position self reads ptr).
        rewrite (query_stale_moving _ _ _ Hs N). repeat split; reflexivity.
  - intros script Hs Hb. apply queries_stale; assumption.
Qed.

(** C3. On a fresh query (the precise reading differs from the previous one)
    the fused position and [primary_last] become exactly the precise reading.
    The sensitivity becomes [0.85 * sensitivity + 0.15 * (|precise delta| /
    |raw delta|)] when the raw magnitude exceeds the noise floor [3.0], and is
    unchanged otherwise, in particular for a raw magnitude of zero; the
    divisor of the ratio is never zero. *)
Theorem hybrid_fresh_anchor (self : t) (reads : list (list Z)) (ptr : XPointer) :
  ~ stale self ptr ->
  let self' := fst (query self reads ptr) in
  let x11_x := inject_Z (root_x ptr) in
  let x11_y := inject_Z (root_y ptr) in
  let raw_mag := hypot (inject_Z (fst (raw_delta reads))) (inject_Z (snd (raw_delta reads))) in
  let actual_mag := hypot (x11_x - _last_x11_x self) (x11_y - _last_x11_y self) in
  _x self' = x11_x /\ _y self' = x11_y
  /\ _last_x11_x self' = x11_x /\ _last_x11_y self' = x11_y
  /\ fst (snd (query self reads ptr)) = (x11_x, x11_y)
  /\ (3.0 < raw_mag ->
      _sensitivity self' = 0.85 * _sensitivity self + 0.15 * (actual_mag / raw_mag)
      /\ ~ raw_mag == 0)
  /\ (raw_mag <= 3.0 -> _sensitivity self' = _sensitivity self)
  /\ (raw_mag == 0 -> _sensitivity self' = _sensitivity self).
Proof.
  intros Hf. cbv zeta.
  assert (C : py.neb (inject_Z (root_x ptr) - _last_x11_x self) 0.0
              || py.neb (inject_Z (root_y ptr) - _last_x11_y self) 0.0 = true).
  { apply not_false_is_true. intros F. apply Hf, x11_changed_stale, F. }
  rewrite (query_sample_position self reads ptr).
  unfold query, raw_delta.
  destruct (_read_mice reads) as [[raw_dx raw_dy] btn]. cbn [fst snd].
  rewrite C. cbn [fst _x _y _last_x11_x _last_x11_y _sensitivity].
  do 5 (split; [reflexivity |]).
  split; [| split].
  - intros Hgt. split.
    + apply gtb_gt in Hgt. rewrite Hgt. reflexivity.
    + intros Z0. rewrite Z0 in Hgt. lra.
  - intros Hle. apply gtb_le in Hle. rewrite Hle. reflexivity.
  - intros Z0. assert (Hle : hypot (inject_Z raw_dx) (inject_Z raw_dy) <= 3.0)
      by (rewrite Z0; lra).
    apply gtb_le in Hle. rewrite Hle. reflexivity.
Qed.

End Fusion.

(** ** The behaviour state machine *)

(** Case analysis on the next conditional of the goal. *)
Ltac split_if :=
  match goal with
  | |- context [if ?c then _ else _] => destruct c eqn:?
  end.

(** Setters of attributes outside the control state do not show in it. *)
Ltac control_simpl :=
  repeat match goal with
    | |- context [pet_spec.control (?f ?v ?q)] =>
        progress change (pet_spec.control (f v q)) with (pet_spec.control q)
    end.

Section Machine.

Import pet pet_spec.

Context {L : Libm}.
Variable cfg : config.t.

(** *** Control state through the random-source monad *)

Lemma bind_any_control {A} (c : rand.M A) (k : A -> rand.M Pet) w (g : rand.Rng) :
  (forall a g', control (fst (k a g')) = w) ->
  control (fst (rand.bind c k g)) = w.
Proof. intros H. unfold rand.bind. destruct (c g) as [a g']. apply H. Qed.

Lemma bind_pet_control (c : rand.M Pet) (k : Pet -> rand.M Pet) v w (g : rand.Rng) :
  (forall g', control (fst (c g')) = v) ->
  (forall a g', control a = v -> control (fst (k a g')) = w) ->
  control (fst (rand.bind c k g)) = w.
Proof.
  intros Hc Hk. unfold rand.bind. specialize (Hc g).
  destruct (c g) as [a g']. apply Hk, Hc.
Qed.

Lemma if_control (b : bool) (c1 c2 : rand.M Pet) v :
  (forall g, control (fst (c1 g)) = v) ->
  (forall g, control (fst (c2 g)) = v) ->
  forall g, control (fst ((if b then c1 else c2) g)) = v.
Proof. destruct b; trivial. Qed.

(** *** What the helpers leave alone *)

Lemma _move_toward_control (p : Pet) (dx dy dist speed : Q) :
  control (_move_toward p dx dy dist speed) = control p.
Proof. unfold _move_toward. split_if; reflexivity. Qed.

Lemma _pick_wander_target_control (p : Pet) (now_ms : Q) (g : rand.Rng) :
  control (fst (_pick_wander_target cfg p now_ms g)) = control p.
Proof. reflexivity. Qed.

Lemma _init_wander_control (p : Pet) (now_ms : Q) (g : rand.Rng) :
  control (fst (_init_wander cfg p now_ms g)) = control p.
Proof. reflexivity. Qed.

Lemma _init_idle_control (p : Pet) (now_ms : Q) (g : rand.Rng) :
  control (fst (_init_idle cfg p now_ms g)) = control p.
Proof.
  unfold _init_idle. cbv zeta.
  apply bind_any_control. intros gif g1. reflexivity.
Qed.

(** *** The handlers as transitions *)

Lemma _handle_chasing_control (p : Pet) (dx dy dist now_ms : Q) (g : rand.Rng) :
  state p = CHASING ->
  control (fst (_handle_chasing cfg p dx dy dist now_ms g))
  = (transition cfg p dist now_ms, _prev_state p, _seal_active p,
     seal_should_appear p, seal_should_disappear p).
Proof.
  intros S. unfold transition, _handle_chasing. rewrite S. split_if.
  - rewrite _init_wander_control. reflexivity.
  - cbn [rand.ret fst]. control_simpl. rewrite _move_toward_control.
    unfold control. rewrite S. reflexivity.
Qed.

Lemma _handle_wandering_control (p : Pet) (dx dy dist now_ms : Q) (g : rand.Rng) :
  state p = WANDERING ->
  control (fst (_handle_wandering cfg p dx dy dist now_ms g))
  = (transition cfg p dist now_ms, _prev_state p, _seal_active p,
     seal_should_appear p, seal_should_disappear p).
Proof.
  intros S. unfold transition, _handle_wandering. rewrite S.
  destruct (py.gtb dist (config.FAR_DISTANCE cfg) && negb (_seal_active p)); [reflexivity |].
  destruct (py.gtb now_ms (_wander_end_time p)).
  - rewrite _init_idle_control. reflexivity.
  - cbv zeta.
    apply bind_pet_control with (v := control p).
    + apply if_control; intros g'.
      * rewrite _pick_wander_target_control. destruct (_seal_active p); reflexivity.
      * destruct (_seal_active p); reflexivity.
    + intros p1 g1 H1. apply bind_pet_control with (v := control p).
      * apply if_control; intros g'.
        -- rewrite _pick_wander_target_control. exact H1.
        -- cbn [rand.ret fst]. rewrite _move_toward_control. exact H1.
      * intros p2 g2 H2. cbn [rand.ret fst]. control_simpl. rewrite H2.
        unfold control. rewrite S. reflexivity.
Qed.

Lemma _handle_idling_control (p : Pet) (dx dy dist now_ms : Q) (g : rand.Rng) :
  state p = IDLING ->
  control (fst (_handle_idling cfg p dx dy dist now_ms g))
  = (transition cfg p dist now_ms, _prev_state p,
     _seal_active p || PetState_eqb (transition cfg p dist now_ms) SEAL_MODE,
     seal_should_appear p || PetState_eqb (transition cfg p dist now_ms) SEAL_MODE,
     seal_should_disappear p).
Proof.
  intros S. unfold transition, _handle_idling. rewrite S.
  destruct (py.gtb dist (config.FAR_DISTANCE cfg) && negb (_seal_active p));
    [cbn; rewrite !orb_false_r; reflexivity |].
  match goal with
  | |- context [if negb (_seal_active p) && ?c then _init_wander _ _ _ else _] =>
      destruct (negb (_seal_active p) && c)
  end.
  { rewrite _init_wander_control. cbn. rewrite !orb_false_r. reflexivity. }
  destruct (negb (_seal_active p)
            && py.gtb (_mouse_idle_time p) (inject_Z (config.MOUSE_IDLE_T2 cfg))).
  { cbn. rewrite !orb_true_r. reflexivity. }
  apply bind_pet_control with (v := control p).
  - apply if_control; intros g'; [| reflexivity].
    apply bind_any_control. intros gif g1. cbv zeta.
    apply bind_any_control. intros d g2. reflexivity.
  - intros p1 g1 H1. cbn [rand.ret fst PetState_eqb]. control_simpl. rewrite H1.
    unfold control. rewrite S, !orb_false_r. reflexivity.
Qed.

Lemma _handle_dragging_control (p : Pet) (dx dy dist now_ms : Q) (g : rand.Rng) :
  control (fst (_handle_dragging cfg p dx dy dist now_ms g)) = control p.
Proof. reflexivity. Qed.

Lemma _handle_seal_mode_control (p : Pet) (dx dy dist now_ms : Q) (g : rand.Rng) :
  state p = SEAL_MODE ->
  control (fst (_handle_seal_mode cfg p dx dy dist now_ms g))
  = (transition cfg p dist now_ms, _prev_state p, _seal_active p,
     seal_should_appear p, seal_should_disappear p).
Proof.
  intros S. unfold transition, _handle_seal_mode. rewrite S.
  destruct (negb (_seal_active p)); [reflexivity |]. cbv zeta.
  split_if.
  - cbn [rand.ret fst]. control_simpl. rewrite _move_toward_control.
    unfold control. rewrite S. reflexivity.
  - apply bind_pet_control with (v := control p).
    + apply if_control; intros g'; [| reflexivity].
      apply bind_any_control. intros angle g1.
      apply bind_any_control. intros r g2.
      apply bind_any_control. intros d g3. reflexivity.
    + intros p1 g1 H1. cbn [rand.ret fst]. control_simpl.
      split_if; [rewrite _move_toward_control |]; rewrite H1;
        unfold control; rewrite S; reflexivity.
Qed.

(** Every handler leaves the control state that [transition] and [spawns]
    describe: the remembered state and the despawn signal are untouched, and
    the seal becomes active, with the spawn signal set, exactly when the
    handler spawns it. *)
Lemma handler_control (p : Pet) (dx dy dist now_ms : Q) (g : rand.Rng) :
  control (fst (handler cfg (state p) p dx dy dist now_ms g))
  = (transition cfg p dist now_ms, _prev_state p,
     _seal_active p || spawns cfg p dist now_ms,
     seal_should_appear p || spawns cfg p dist now_ms,
     seal_should_disappear p).
Proof.
  unfold spawns.
  destruct (state p) eqn:S; cbn [handler PetState_eqb andb]; rewrite ?orb_false_r.
  - apply _handle_chasing_control, S.
  - apply _handle_wandering_control, S.
  - apply _handle_idling_control, S.
  - rewrite _handle_dragging_control. unfold control, transition. rewrite S. reflexivity.
  - apply _handle_seal_mode_control, S.
Qed.

(** One [tick]: drag detection, then the transition of the resulting
    state. *)
Lemma tick_control (p : Pet) (now_ms : Q) (g : rand.Rng) :
  control (fst (tick cfg p now_ms g))
  = (transition cfg (drag_detection p) (target_dist p) now_ms,
     _prev_state (drag_detection p),
     _seal_active (drag_detection p)
     || spawns cfg (drag_detection p) (target_dist p) now_ms,
     seal_should_appear (drag_detection p)
     || spawns cfg (drag_detection p) (target_dist p) now_ms,
     seal_should_disappear (drag_detection p)).
Proof.
  unfold tick, target_dist.
  destruct (target (drag_detection p)) as [tx ty]. cbn [fst snd].
  apply handler_control.
Qed.

(** [Pet.tick] alone never clears a one-shot signal. *)
Remark tick_keeps_signals (p : Pet) (now_ms : Q) (g : rand.Rng) :
  (seal_should_appear p = true ->
   seal_should_appear (fst (tick cfg p now_ms g)) = true)
  /\ seal_should_disappear (fst (tick cfg p now_ms g)) = seal_should_disappear p.
Proof.
  pose proof (tick_control p now_ms g) as T. unfold control in T.
  injection T as _ _ _ Tap Td. rewrite Tap, Td.
  unfold drag_detection.
  repeat match goal with |- context [if ?c then _ else _] => destruct c end;
    (split; [intros H; cbn; rewrite H; reflexivity | reflexivity]).
Qed.

End Machine.

(** ** Input feeding, drag detection and the game loop *)

Section Loop.

Import pet pet_spec app app_spec.

Context {L : Libm}.
Variable cfg : config.t.

(** [update_mouse] dismisses an active seal, and raises the despawn signal,
    exactly when the pointer moved. *)
Lemma update_mouse_control (p : Pet) (mx my : Q) (b : bool) (now : Q) :
  control (update_mouse cfg p mx my b now)
  = (state p, _prev_state p,
     _seal_active p && negb (moved cfg p mx my),
     seal_should_appear p,
     seal_should_disappear p || (moved cfg p mx my && _seal_active p)).
Proof.
  unfold update_mouse. cbv zeta.
  change (moved cfg (set_mouse_pressed b p) mx my) with (moved cfg p mx my).
  destruct (moved cfg p mx my).
  - change (_seal_active (set_mouse_idle_time 0.0
              (set_mouse_idle_start_ms now (set_mouse_pressed b p))))
      with (_seal_active p).
    destruct (_seal_active p) eqn:A; unfold control; cbn;
      rewrite ?A, ?orb_false_r, ?orb_true_r; reflexivity.
  - unfold control; cbn. rewrite andb_true_r, orb_false_r. reflexivity.
Qed.

Lemma update_mouse_pressed (p : Pet) (mx my : Q) (b : bool) (now : Q) :
  _mouse_pressed (update_mouse cfg p mx my b now) = b.
Proof.
  unfold update_mouse. cbv zeta.
  destruct (moved cfg (set_mouse_pressed b p) mx my); [| reflexivity].
  match goal with |- context [if ?c then _ else _] => destruct c end; reflexivity.
Qed.

(** The pet handed to [Pet.tick] by [_tick]: the one-shot signals were reset
    before the input was fed. *)
Lemma feed_control (a : AemeathApp) (f : Frame) :
  control (feed cfg a f)
  = (state (_pet a), _prev_state (_pet a),
     _seal_active (_pet a) && negb (pointer_moved cfg a f),
     false,
     pointer_moved cfg a f && _seal_active (_pet a)).
Proof.
  unfold feed, pointer_moved. destruct (logical_mouse f) as [mx my].
  rewrite update_mouse_control. reflexivity.
Qed.

Lemma feed_pressed (a : AemeathApp) (f : Frame) :
  _mouse_pressed (feed cfg a f) = snd (sample f).
Proof.
  unfold feed. destruct (logical_mouse f) as [mx my]. apply update_mouse_pressed.
Qed.

(** What [_tick] does after [Pet.tick] (seal sprite, seal position, clamping)
    does not touch the control state. *)
Lemma _tick_control (a : AemeathApp) (f : Frame) (g : rand.Rng) :
  control (_pet (fst (_tick cfg a f g)))
  = control (fst (tick cfg (feed cfg a f) (now_ms f) g)).
Proof.
  unfold _tick, rand.bind.
  destruct (tick cfg (feed cfg a f) (now_ms f) g) as [p g1]. cbv zeta.
  match goal with
  | |- context [let (_, _) := ?c in _] => destruct c as [seal g2]
  end.
  cbn [rand.ret fst _pet]. control_simpl. unfold set_seal_position.
  match goal with |- context [if ?c then _ else _] => destruct c end; reflexivity.
Qed.

(** *** Drag detection *)

Lemma drag_detection_press (p : Pet) :
  _mouse_pressed p = true -> state p <> DRAGGING ->
  drag_detection p = set_state DRAGGING (set_prev_state (state p) p).
Proof.
  intros Hp Hs. unfold drag_detection. rewrite Hp.
  destruct (state p); try reflexivity. contradiction.
Qed.

Lemma drag_detection_release (p : Pet) :
  _mouse_pressed p = false -> state p = DRAGGING ->
  drag_detection p = set_state (_prev_state p) p.
Proof. intros Hp Hs. unfold drag_detection. rewrite Hp, Hs. reflexivity. Qed.

Lemma drag_detection_none (p : Pet) :
  (_mouse_pressed p = true /\ state p = DRAGGING)
  \/ (_mouse_pressed p = false /\ state p <> DRAGGING) ->
  drag_detection p = p.
Proof.
  unfold drag_detection. intros [[Hp Hs] | [Hp Hs]]; rewrite Hp.
  - rewrite Hs. reflexivity.
  - destruct (state p); try reflexivity. contradiction.
Qed.

(** The state after one [tick] that starts chasing. *)
Lemma tick_state_from_chasing (p : Pet) (now : Q) (g : rand.Rng) :
  state p = CHASING ->
  state (fst (tick cfg p now g))
  = if _mouse_pressed p then DRAGGING
    else if py.ltb (target_dist p) (config.NEAR_DISTANCE cfg) then WANDERING
         else CHASING.
Proof.
  intros S. pose proof (tick_control cfg p now g) as H.
  unfold control in H. injection H as Hs _ _ _ _. rewrite Hs.
  destruct (_mouse_pressed p) eqn:P.
  - rewrite drag_detection_press by (trivial; rewrite S; discriminate). reflexivity.
  - rewrite drag_detection_none by (right; split; [trivial | rewrite S; discriminate]).
    unfold transition. rewrite S. reflexivity.
Qed.

(** The state after one [tick] that starts wandering. *)
Lemma tick_state_from_wandering (p : Pet) (now : Q) (g : rand.Rng) :
  state p = WANDERING ->
  state (fst (tick cfg p now g))
  = if _mouse_pressed p then DRAGGING
    else if py.gtb (target_dist p) (config.FAR_DISTANCE cfg) && negb (_seal_active p)
         then CHASING
         else if py.gtb now (_wander_end_time p) then IDLING else WANDERING.
Proof.
  intros S. pose proof (tick_control cfg p now g) as H.
  unfold control in H. injection H as Hs _ _ _ _. rewrite Hs.
  destruct (_mouse_pressed p) eqn:P.
  - rewrite drag_detection_press by (trivial; rewrite S; discriminate). reflexivity.
  - rewrite drag_detection_none by (right; split; [trivial | rewrite S; discriminate]).
    unfold transition. rewrite S. reflexivity.
Qed.

Lemma tick_chasing_to_wandering (p : Pet) (now : Q) (g : rand.Rng) :
  state p = CHASING -> state (fst (tick cfg p now g)) = WANDERING ->
  target_dist p < config.NEAR_DISTANCE cfg.
Proof.
  intros S S'. rewrite tick_state_from_chasing in S' by exact S.
  destruct (_mouse_pressed p); [discriminate |].
  destruct (py.ltb (target_dist p) (config.NEAR_DISTANCE cfg)) eqn:C; [| discriminate].
  apply ltb_lt, C.
Qed.

Lemma tick_wandering_to_chasing (p : Pet) (now : Q) (g : rand.Rng) :
  state p = WANDERING -> state (fst (tick cfg p now g)) = CHASING ->
  config.FAR_DISTANCE cfg < target_dist p /\ _seal_active p = false.
Proof.
  intros S S'. rewrite tick_state_from_wandering in S' by exact S.
  destruct (_mouse_pressed p); [discriminate |].
  destruct (py.gtb (target_dist p) (config.FAR_DISTANCE cfg)) eqn:C;
    destruct (_seal_active p) eqn:A; cbn [negb andb] in S';
    try (destruct (py.gtb now (_wander_end_time p)); discriminate).
  split; [apply gtb_gt, C | reflexivity].
Qed.

(** *** One timer tick *)

Lemma _tick_state (a : AemeathApp) (f : Frame) (g : rand.Rng) :
  state (_pet (fst (_tick cfg a f g))) = state (fst (tick cfg (feed cfg a f) (now_ms f) g)).
Proof.
  pose proof (_tick_control a f g) as H. unfold control in H.
  injection H as Hs _ _ _ _. exact Hs.
Qed.

Lemma feed_state (a : AemeathApp) (f : Frame) : state (feed cfg a f) = state (_pet a).
Proof.
  pose proof (feed_control a f) as H. unfold control in H.
  injection H as Hs _ _ _ _. exact Hs.
Qed.

Lemma _tick_no_flip_flop (a : AemeathApp) (f : Frame) (g : rand.Rng) :
  config.NEAR_DISTANCE cfg < tick_dist cfg a f ->
  tick_dist cfg a f < config.FAR_DISTANCE cfg ->
  ~ flip_flop (state (_pet a)) (state (_pet (fst (_tick cfg a f g)))).
Proof.
  intros Hn Hf. rewrite _tick_state, <- (feed_state a f). unfold tick_dist in *.
  intros [[S S'] | [S S']].
  - pose proof (tick_chasing_to_wandering _ _ _ S S'). lra.
  - pose proof (tick_wandering_to_chasing _ _ _ S S') as [H _]. lra.
Qed.

Lemma run_cons (a : AemeathApp) (f : Frame) (rest : list Frame) (g : rand.Rng) :
  fst (run cfg a (f :: rest) g)
  = fst (_tick cfg a f g)
    :: fst (run cfg (fst (_tick cfg a f g)) rest (snd (_tick cfg a f g))).
Proof.
  cbn [run]. unfold rand.bind, rand.ret.
  destruct (_tick cfg a f g) as [a' g1]. cbn [fst snd].
  destruct (run cfg a' rest g1) as [trace g2]. reflexivity.
Qed.

Lemma run_no_flip_flop (frames : list Frame) (a : AemeathApp) (g : rand.Rng) :
  in_band cfg a frames g -> no_flip_flop (states cfg a frames g).
Proof.
  revert a g. induction frames as [| f rest IH]; intros a g H.
  - exact I.
  - destruct H as [[Hn Hf] Hrest]. unfold states. rewrite run_cons.
    cbn [map no_flip_flop]. split.
    + apply _tick_no_flip_flop; assumption.
    + apply (IH _ _ Hrest).
Qed.

End Loop.

(** ** The claims about the state machine *)

Section Claims.

Import pet pet_spec app app_spec loop_spec.

Context {L : Libm}.
Variable cfg : config.t.

(** A tick in SEAL_MODE with the seal active and the button not pressed:
    the seal stays while the pointer rests, and is dismissed, the pet
    chasing again, when the pointer moves. *)
Lemma _tick_in_seal_mode (a : AemeathApp) (f : Frame) (g : rand.Rng) :
  state (_pet a) = SEAL_MODE ->
  _seal_active (_pet a) = true ->
  snd (sample f) = false ->
  control (_pet (fst (_tick cfg a f g)))
  = if pointer_moved cfg a f
    then (CHASING, _prev_state (_pet a), false, false, true)
    else (SEAL_MODE, _prev_state (_pet a), true, false, false).
Proof.
  intros S A B.
  pose proof (feed_control cfg a f) as F. unfold control in F.
  injection F as Fs Fp Fa Fap Fd. rewrite A in Fa, Fd. rewrite S in Fs.
  pose proof (feed_pressed cfg a f) as P. rewrite B in P.
  rewrite _tick_control, tick_control.
  rewrite drag_detection_none
    by (right; split; [exact P | rewrite Fs; discriminate]).
  unfold spawns, transition.
  rewrite Fs, Fp, Fa, Fap, Fd.
  destruct (pointer_moved cfg a f); reflexivity.
Qed.

Lemma last_cons {A} (l : list A) (x d : A) : last (x :: l) d = last l x.
Proof.
  revert x d. induction l as [| y l IH]; intros x d; [reflexivity |].
  change (last (x :: y :: l) d) with (last (y :: l) d).
  rewrite (IH y d), (IH y x). reflexivity.
Qed.

Lemma final_step (a : AemeathApp) (f : Frame) (rest : list Frame) (g : rand.Rng) :
  final cfg a (f :: rest) g
  = final cfg (fst (_tick cfg a f g)) rest (snd (_tick cfg a f g)).
Proof. unfold final. rewrite run_cons. apply last_cons. Qed.

(** While the button is not pressed and the pointer rests, the machine stays
    in SEAL_MODE with the seal active, and neither signal fires. *)
Lemma run_in_seal_mode (rest : list Frame) (a : AemeathApp) (g : rand.Rng) :
  state (_pet a) = SEAL_MODE ->
  _seal_active (_pet a) = true ->
  Forall (fun f => snd (sample f) = false) rest ->
  still cfg a rest g ->
  Forall (fun a' => state (_pet a') = SEAL_MODE
                    /\ _seal_active (_pet a') = true
                    /\ seal_should_appear (_pet a') = false
                    /\ seal_should_disappear (_pet a') = false)
         (fst (run cfg a rest g))
  /\ state (_pet (final cfg a rest g)) = SEAL_MODE
  /\ _seal_active (_pet (final cfg a rest g)) = true.
Proof.
  revert a g. induction rest as [| f rest IH]; intros a g S A B R.
  - split; [constructor | split; assumption].
  - apply Forall_cons_iff in B as [B1 B2]. destruct R as [R1 R2].
    pose proof (_tick_in_seal_mode a f g S A B1) as T. rewrite R1 in T.
    unfold control in T. injection T as Ts Tp Ta Tap Td.
    destruct (IH _ _ Ts Ta B2 R2) as (H1 & H2 & H3).
    rewrite run_cons, final_step.
    split; [constructor; [repeat split; assumption | exact H1] |].
    split; assumption.
Qed.

(** C4 (amended). Seal lifecycle.  Take the pet IDLING with no active seal,
    and a frame in which the button is not pressed, the mouse idle time has
    passed [MOUSE_IDLE_T2], the target is no farther than [FAR_DISTANCE] and
    the pointer is within ten movement thresholds of where it was when
    idling began.  On that tick the spawn signal fires and the state becomes
    SEAL_MODE.  Through any number of following frames in which the button
    is not pressed and the pointer rests, the state stays SEAL_MODE with the
    seal active and no signal fires.  The frame after those, with the button
    not pressed and a pointer displacement that exceeds the movement
    threshold, fires the despawn signal and no spawn signal, dismisses the
    seal, and its tick returns the state to CHASING. *)
Theorem seal_lifecycle (a : AemeathApp) (f1 : Frame) (rest : list Frame) (f2 : Frame)
        (g : rand.Rng) :
  state (_pet a) = IDLING ->
  _seal_active (_pet a) = false ->
  snd (sample f1) = false ->
  inject_Z (config.MOUSE_IDLE_T2 cfg) < _mouse_idle_time (feed cfg a f1) ->
  tick_dist cfg a f1 <= config.FAR_DISTANCE cfg ->
  hypot (_mouse_x (feed cfg a f1) - _idle_anchor_mouse_x (feed cfg a f1))
        (_mouse_y (feed cfg a f1) - _idle_anchor_mouse_y (feed cfg a f1))
  <= config.MOUSE_MOVE_THRESHOLD cfg * 10 ->
  Forall (fun f => snd (sample f) = false) rest ->
  still cfg (fst (_tick cfg a f1 g)) rest (snd (_tick cfg a f1 g)) ->
  snd (sample f2) = false ->
  pointer_moved cfg (final cfg (fst (_tick cfg a f1 g)) rest (snd (_tick cfg a f1 g))) f2
  = true ->
  let a1 := fst (_tick cfg a f1 g) in
  let g1 := snd (_tick cfg a f1 g) in
  let a2 := final cfg a1 rest g1 in
  let a3 := fst (_tick cfg a2 f2 (snd (run cfg a1 rest g1))) in
  (state (_pet a1) = SEAL_MODE
   /\ _seal_active (_pet a1) = true
   /\ seal_should_appear (_pet a1) = true
   /\ seal_should_disappear (_pet a1) = false)
  /\ Forall (fun a' => state (_pet a') = SEAL_MODE
                       /\ _seal_active (_pet a') = true
                       /\ seal_should_appear (_pet a') = false
                       /\ seal_should_disappear (_pet a') = false)
            (fst (run cfg a1 rest g1))
  /\ (state (_pet a3) = CHASING
      /\ _seal_active (_pet a3) = false
      /\ seal_should_appear (_pet a3) = false
      /\ seal_should_disappear (_pet a3) = true).
Proof.
  intros S A B1 Hidle Hfar Hanchor Brest Hrest B2 Hmoved. cbv zeta.
  (* the tick of the spawn *)
  pose proof (feed_control cfg a f1) as F1. unfold control in F1.
  injection F1 as Fs Fp Fa Fap Fd. rewrite A in Fa, Fd. rewrite S in Fs.
  cbn [andb] in Fa. rewrite andb_false_r in Fd.
  pose proof (feed_pressed cfg a f1) as P1. rewrite B1 in P1.
  pose proof (_tick_control cfg a f1 g) as T1.
  rewrite tick_control in T1.
  rewrite drag_detection_none in T1
    by (right; split; [exact P1 | rewrite Fs; discriminate]).
  unfold spawns, transition in T1.
  fold (tick_dist cfg a f1) in T1.
  rewrite Fs, Fa, Fap, Fd in T1. cbn [negb andb orb PetState_eqb] in T1.
  rewrite (proj2 (gtb_le _ _) Hfar), (proj2 (gtb_le _ _) Hanchor),
    (proj2 (gtb_gt _ _) Hidle) in T1.
  cbn [negb andb orb PetState_eqb] in T1.
  unfold control in T1. injection T1 as Ts Tp Ta Tap Td.
  split; [repeat split; assumption |].
  (* the resting frames *)
  destruct (run_in_seal_mode rest _ _ Ts Ta Brest Hrest) as (Hrun & Rs & Ra).
  split; [exact Hrun |].
  (* the frame in which the pointer moves *)
  pose proof (_tick_in_seal_mode _ f2 (snd (run cfg (fst (_tick cfg a f1 g)) rest
                                              (snd (_tick cfg a f1 g))))
                Rs Ra B2) as T2.
  rewrite Hmoved in T2. unfold control in T2. injection T2 as Us Up Ua Uap Ud.
  repeat split; assumption.
Qed.

(** C5. The one-shot signals are reset at the start of every timer tick,
    before the input is fed and the state machine advanced: the outcome of
    [_tick] does not depend on the values the two signals had before it;
    after the tick the spawn signal reads true exactly when this tick's
    handler spawned the seal, and the despawn signal reads true exactly when
    this tick's input dismissed an active seal. *)
Theorem one_shot_flags_reset (a : AemeathApp) (f : Frame) (g : rand.Rng) :
  (forall b1 b2,
      _tick cfg
        (mkApp (set_seal_should_appear b1 (set_seal_should_disappear b2 (_pet a)))
               (_seal_sprite a)) f g
      = _tick cfg a f g)
  /\ seal_should_appear (feed cfg a f) = false
  /\ seal_should_appear (_pet (fst (_tick cfg a f g)))
     = spawns cfg (drag_detection (feed cfg a f)) (tick_dist cfg a f) (now_ms f)
  /\ seal_should_disappear (_pet (fst (_tick cfg a f g)))
     = pointer_moved cfg a f && _seal_active (_pet a).
Proof.
  pose proof (feed_control cfg a f) as F. unfold control in F.
  injection F as Fs Fp Fa Fap Fd.
  pose proof (_tick_control cfg a f g) as T. rewrite tick_control in T.
  unfold control in T. injection T as Ts Tp Ta Tap Td.
  assert (D : forall p, seal_should_appear (drag_detection p) = seal_should_appear p
                        /\ seal_should_disappear (drag_detection p)
                           = seal_should_disappear p).
  { intros p. unfold drag_detection.
    repeat match goal with |- context [if ?c then _ else _] => destruct c end;
      split; reflexivity. }
  destruct (D (feed cfg a f)) as [D1 D2].
  split; [intros b1 b2; reflexivity |].
  split; [exact Fap |]. split.
  - rewrite Tap, D1, Fap. reflexivity.
  - rewrite Td, D2, Fd. reflexivity.
Qed.

(** C6. Hysteresis.  In one tick the machine goes from CHASING to WANDERING
    only when the target distance is below [NEAR_DISTANCE], and from
    WANDERING to CHASING only when it is above [FAR_DISTANCE] with no active
    seal.  Hence a run whose target distance stays strictly between the two
    thresholds never flips directly between CHASING and WANDERING. *)
Theorem hysteresis :
  (forall p now g,
      state p = CHASING -> state (fst (tick cfg p now g)) = WANDERING ->
      target_dist p < config.NEAR_DISTANCE cfg)
  /\ (forall p now g,
        state p = WANDERING -> state (fst (tick cfg p now g)) = CHASING ->
        config.FAR_DISTANCE cfg < target_dist p /\ _seal_active p = false)
  /\ (forall a frames g,
        in_band cfg a frames g -> no_flip_flop (states cfg a frames g)).
Proof.
  split; [| split].
  - apply tick_chasing_to_wandering.
  - apply tick_wandering_to_chasing.
  - intros a frames g. apply run_no_flip_flop.
Qed.

(** C7 (amended). Drag interrupt.  From any state [S] other than DRAGGING a
    tick with the button pressed ends in DRAGGING with [S] remembered,
    whatever the distances and timers; while the button stays pressed the
    state and the memory do not change.  A tick with the button released
    while DRAGGING restores the remembered state first and then runs that
    state's handler in the same tick: the tick is the tick the machine would
    have taken from [S], so it ends in [S] unless that handler itself leaves
    [S].  In particular, released from a drag that began while WANDERING,
    the tick ends in CHASING when the target is farther than [FAR_DISTANCE]
    with no active seal, otherwise in IDLING when the wander timer has
    expired, and otherwise in WANDERING. *)
Theorem drag_interrupt (p : Pet) (now : Q) (g : rand.Rng) :
  (_mouse_pressed p = true -> state p <> DRAGGING ->
   state (fst (tick cfg p now g)) = DRAGGING
   /\ _prev_state (fst (tick cfg p now g)) = state p)
  /\ (_mouse_pressed p = true -> state p = DRAGGING ->
      state (fst (tick cfg p now g)) = DRAGGING
      /\ _prev_state (fst (tick cfg p now g)) = _prev_state p)
  /\ (_mouse_pressed p = false -> state p = DRAGGING ->
      tick cfg p now g = tick cfg (set_state (_prev_state p) p) now g
      /\ state (fst (tick cfg p now g))
         = transition cfg (set_state (_prev_state p) p) (target_dist p) now)
  /\ (_mouse_pressed p = false -> state p = DRAGGING -> _prev_state p = WANDERING ->
      state (fst (tick cfg p now g))
      = if py.gtb (target_dist p) (config.FAR_DISTANCE cfg) && negb (_seal_active p)
        then CHASING
        else if py.gtb now (_wander_end_time p) then IDLING else WANDERING).
Proof.
  pose proof (tick_control cfg p now g) as T. unfold control in T.
  injection T as Ts Tp _ _ _.
  split; [| split; [| split]].
  - intros P S. rewrite Ts, Tp. rewrite drag_detection_press by assumption.
    split; reflexivity.
  - intros P S. rewrite Ts, Tp.
    rewrite drag_detection_none by (left; split; assumption).
    unfold transition. rewrite S. split; reflexivity.
  - intros P S.
    assert (E : drag_detection (set_state (_prev_state p) p) = drag_detection p).
    { rewrite (drag_detection_release p P S). unfold drag_detection.
      change (_mouse_pressed (set_state (_prev_state p) p)) with (_mouse_pressed p).
      rewrite P. cbn [negb andb].
      change (state (set_state (_prev_state p) p)) with (_prev_state p).
      change (_prev_state (set_state (_prev_state p) p)) with (_prev_state p).
      destruct (_prev_state p); reflexivity. }
    split.
    + unfold tick. rewrite E. reflexivity.
    + rewrite Ts. rewrite (drag_detection_release p P S). reflexivity.
  - intros P S W. rewrite Ts. rewrite (drag_detection_release p P S).
    unfold transition. cbn [state set_state]. rewrite W. reflexivity.
Qed.

End Claims.

(** ** The idle-animation ramp *)

Section Ramp.

Import pet.

(** The loop of [_pick_idle_gif] over the five animations of the loaded
    configuration. *)
Lemma _pick_idle_loop_base (p2 po r : Q) (fallback : Gif) :
  _pick_idle_loop config.base (config.GIF_IDLE config.base) p2 po r 0.0 fallback
  = if py.ltb r (0.0 + po) then "gifs/idle1.gif"%string
    else if py.ltb r (0.0 + po + p2) then "gifs/idle2.gif"%string
    else if py.ltb r (0.0 + po + p2 + po) then "gifs/idle3.gif"%string
    else if py.ltb r (0.0 + po + p2 + po + po) then "gifs/idle4.gif"%string
    else if py.ltb r (0.0 + po + p2 + po + po + po) then "gifs/idle5.gif"%string
    else fallback.
Proof. reflexivity. Qed.

Lemma idle2_prob_base (t : Q) :
  idle2_prob config.base 5 t == ramp_spec.special t.
Proof.
  unfold idle2_prob, ramp_spec.special, ramp_spec.ramp.
  cbn [config.MOUSE_IDLE_T1 config.IDLE2_RAMP_DURATION config.base].
  destruct (Q.min_spec ((t - inject_Z 30000) / inject_Z 60000) 1.0) as [[H E] | [H E]];
    destruct (Q.min_spec ((t - 30000) / 60000) 1) as [[H' E'] | [H' E']];
    rewrite E, E'; lra_div.
Qed.

Lemma special_range (t : Q) :
  30000 <= t -> 1 / 5 <= ramp_spec.special t /\ ramp_spec.special t <= 1.
Proof.
  intros Ht. unfold ramp_spec.special, ramp_spec.ramp.
  destruct (Q.min_spec ((t - 30000) / 60000) 1) as [[H E] | [H E]]; rewrite E;
    split; lra_div.
Qed.

(** C8 (amended). Idle ramp, for the five animations of the loaded
    configuration ([T1 = 30000], ramp duration [60000]).  Once the mouse has
    been idle for [T1] or longer, the probability the code gives the special
    animation is [special = 1/5 + ramp * (1 - 1/5)] with
    [ramp = min((idle - T1) / 60000, 1)], and the one it gives each of the
    other four is [share = (1 - special) / 4].  The draws of [[0, 1)] are
    divided accordingly: those below [share] select the first animation, the
    next [special] select the special one, and the following three stretches
    of length [share] select the third, fourth and fifth; the five stretches
    make up the whole of [[0, 1)].  At [idle = 60000] the special animation
    has probability [3/5] and each other one [1/10]; at [idle = 90000] it
    has probability [1], every draw selecting it. *)
Theorem idle_ramp (t : Q) :
  30000 <= t ->
  (idle2_prob config.base 5 t == ramp_spec.special t
   /\ other_prob config.base 5 t == ramp_spec.share t
   /\ 1 / 5 <= ramp_spec.special t /\ ramp_spec.special t <= 1
   /\ 0 <= ramp_spec.share t
   /\ 4 * ramp_spec.share t + ramp_spec.special t == 1)
  /\ (forall p g,
        _mouse_idle_time p = t ->
        (fst (_pick_idle_gif config.base p g) = "gifs/idle1.gif"%string
         <-> g 0%nat < ramp_spec.share t)
        /\ (fst (_pick_idle_gif config.base p g) = config.GIF_IDLE2 config.base
            <-> ramp_spec.share t <= g 0%nat
                /\ g 0%nat < ramp_spec.share t + ramp_spec.special t)
        /\ (fst (_pick_idle_gif config.base p g) = "gifs/idle3.gif"%string
            <-> ramp_spec.share t + ramp_spec.special t <= g 0%nat
                /\ g 0%nat < 2 * ramp_spec.share t + ramp_spec.special t)
        /\ (fst (_pick_idle_gif config.base p g) = "gifs/idle4.gif"%string
            <-> 2 * ramp_spec.share t + ramp_spec.special t <= g 0%nat
                /\ g 0%nat < 3 * ramp_spec.share t + ramp_spec.special t)
        /\ (fst (_pick_idle_gif config.base p g) = "gifs/idle5.gif"%string
            <-> 3 * ramp_spec.share t + ramp_spec.special t <= g 0%nat))
  /\ (t == 60000 ->
      idle2_prob config.base 5 t == 3 # 5
      /\ other_prob config.base 5 t == 1 # 10)
  /\ (t == 90000 ->
      idle2_prob config.base 5 t == 1
      /\ other_prob config.base 5 t == 0
      /\ forall p g,
          _mouse_idle_time p = t -> 0 <= g 0%nat -> g 0%nat < 1 ->
          fst (_pick_idle_gif config.base p g) = config.GIF_IDLE2 config.base).
Proof.
  intros Ht.
  assert (P2 : idle2_prob config.base 5 t == ramp_spec.special t)
    by apply idle2_prob_base.
  assert (PO : other_prob config.base 5 t == ramp_spec.share t).
  { unfold other_prob, ramp_spec.share. change (Z.max (5 - 1) 1) with 4%Z.
    rewrite P2. lra_div. }
  destruct (special_range t Ht) as [R1 R2].
  assert (R1' : 1 # 5 <= ramp_spec.special t) by lra_div.
  assert (SH : ramp_spec.share t == (1 - ramp_spec.special t) * (1 # 4))
    by (unfold ramp_spec.share; lra_div).
  assert (Pick : forall p g,
             _mouse_idle_time p = t ->
             fst (_pick_idle_gif config.base p g)
             = if py.ltb (g 0%nat) (0.0 + other_prob config.base 5 t)
               then "gifs/idle1.gif"%string
               else if py.ltb (g 0%nat)
                              (0.0 + other_prob config.base 5 t
                               + idle2_prob config.base 5 t)
               then "gifs/idle2.gif"%string
               else if py.ltb (g 0%nat)
                              (0.0 + other_prob config.base 5 t
                               + idle2_prob config.base 5 t
                               + other_prob config.base 5 t)
               then "gifs/idle3.gif"%string
               else if py.ltb (g 0%nat)
                              (0.0 + other_prob config.base 5 t
                               + idle2_prob config.base 5 t
                               + other_prob config.base 5 t
                               + other_prob config.base 5 t)
               then "gifs/idle4.gif"%string
               else "gifs/idle5.gif"%string).
  { intros p g Hp. unfold _pick_idle_gif. rewrite Hp.
    change (Z.of_nat (List.length (config.GIF_IDLE config.base))) with 5%Z.
    cbn [Z.eqb].
    assert (N : py.ltb t (inject_Z (config.MOUSE_IDLE_T1 config.base))
                = false) by (apply ltb_ge; cbn [config.MOUSE_IDLE_T1 config.base]; lra_div).
    rewrite N. unfold rand.bind, rand.random, rand.ret. cbn [fst].
    rewrite _pick_idle_loop_base.
    change (last (config.GIF_IDLE config.base) (config.GIF_MOVE config.base))
      with "gifs/idle5.gif"%string.
    repeat match goal with
           | |- context [if ?c then _ else _] => destruct c
           end; reflexivity. }
  assert (Table : forall p g,
             _mouse_idle_time p = t ->
             (fst (_pick_idle_gif config.base p g) = "gifs/idle1.gif"%string
              <-> g 0%nat < ramp_spec.share t)
             /\ (fst (_pick_idle_gif config.base p g) = config.GIF_IDLE2 config.base
                 <-> ramp_spec.share t <= g 0%nat
                     /\ g 0%nat < ramp_spec.share t + ramp_spec.special t)
             /\ (fst (_pick_idle_gif config.base p g) = "gifs/idle3.gif"%string
                 <-> ramp_spec.share t + ramp_spec.special t <= g 0%nat
                     /\ g 0%nat < 2 * ramp_spec.share t + ramp_spec.special t)
             /\ (fst (_pick_idle_gif config.base p g) = "gifs/idle4.gif"%string
                 <-> 2 * ramp_spec.share t + ramp_spec.special t <= g 0%nat
                     /\ g 0%nat < 3 * ramp_spec.share t + ramp_spec.special t)
             /\ (fst (_pick_idle_gif config.base p g) = "gifs/idle5.gif"%string
                 <-> 3 * ramp_spec.share t + ramp_spec.special t <= g 0%nat)).
  { intros p g Hp. rewrite (Pick p g Hp).
    cbn [config.GIF_IDLE2 config.base].
    set (po := other_prob config.base 5 t) in *.
    set (p2 := idle2_prob config.base 5 t) in *.
    set (sh := ramp_spec.share t) in *.
    set (sp := ramp_spec.special t) in *.
    set (r := g 0%nat).
    destruct (py.ltb r (0.0 + po)) eqn:C1;
      [apply ltb_lt in C1 | apply ltb_ge in C1;
       destruct (py.ltb r (0.0 + po + p2)) eqn:C2;
       [apply ltb_lt in C2 | apply ltb_ge in C2;
        destruct (py.ltb r (0.0 + po + p2 + po)) eqn:C3;
        [apply ltb_lt in C3 | apply ltb_ge in C3;
         destruct (py.ltb r (0.0 + po + p2 + po + po)) eqn:C4;
         [apply ltb_lt in C4 | apply ltb_ge in C4]]]];
      clear R1;
      (split;
       [split; [intros E; first [discriminate E | lra]
               | intros E; first [reflexivity | exfalso; lra]] |]);
      do 3 (split;
            [split; [intros E; first [discriminate E | split; lra]
                    | intros [E1 E2]; first [reflexivity | exfalso; lra]] |]);
      (split; [intros E; first [discriminate E | lra]
              | intros E; first [reflexivity | exfalso; lra]]). }
  split; [| split; [exact Table | split]].
  - clear R1. split; [exact P2 | split; [exact PO |]].
    split; [lra_div | split; [exact R2 | split; lra]].
  - intros E.
    assert (S60 : ramp_spec.special t == 3 # 5).
    { unfold ramp_spec.special, ramp_spec.ramp.
      destruct (Q.min_spec ((t - 30000) / 60000) 1) as [[H E'] | [H E']]; rewrite E';
        lra_div. }
    split; [rewrite P2; exact S60 | rewrite PO; lra].
  - intros E.
    assert (S90 : ramp_spec.special t == 1).
    { unfold ramp_spec.special, ramp_spec.ramp.
      destruct (Q.min_spec ((t - 30000) / 60000) 1) as [[H E'] | [H E']]; rewrite E';
        lra_div. }
    split; [rewrite P2; exact S90 | split; [rewrite PO; lra |]].
    intros p g Hp H0 H1. apply (Table p g Hp). split; lra.
Qed.

End Ramp.

(** * Concrete runs *)

(** Evaluation of a closed statement. *)
Ltac evaluate := vm_compute; repeat split; try reflexivity; try discriminate.

(** The factory on a Hyprland session without a socket file: every
    specialised constructor fails and the Qt fallback is returned. *)
Example create_cursor_tracker_fallback :
  cursor.create_cursor_tracker scenarios.hyprland_without_socket
  = ([(cursor._HyprlandCursor, false); (cursor._WaylandHybridCursor, false);
      (cursor._X11Cursor, false); (cursor._QtCursor, true)],
     cursor.Return cursor.Qt).
Proof. reflexivity. Qed.

(** The Hyprland constructor without a socket file fails in the smoke test on
    the empty path. *)
Lemma hyprland_socket_guard_dead_witness :
  cursor.environ scenarios.hyprland_without_socket "HYPRLAND_INSTANCE_SIGNATURE"
  = Some "abc"%string
  /\ cursor.hyprland_ipc scenarios.hyprland_without_socket EmptyString
     = cursor.IpcOSError 2
  /\ cursor.HyprlandCursor.__init__ scenarios.hyprland_without_socket
     = py.Raises (py.OSError 2).
Proof.
  split; [reflexivity | split; [reflexivity |]].
  destruct (hyprland_socket_guard_dead scenarios.hyprland_without_socket) as (_ & _ & H).
  apply (H "abc"%string 2%Z); [reflexivity | intros; reflexivity | reflexivity].
Defined.

(** C9, as stated, fails on the Qt fallback: with the right button alone
    held, so that the left-button flag is clear, the sample reports
    pressed. *)
Lemma qt_pressed_counterexample :
  Z.land cursor.QtCursor.RightButton cursor.QtCursor.LeftButton = 0%Z
  /\ snd (cursor.QtCursor.query (0, 0)%Z cursor.QtCursor.RightButton) = true.
Proof. split; reflexivity. Qed.

(** C2, as stated, fails in two ways.  Pushed ten counts against the left
    edge and pulled ten counts back, the fused position is 10, not the seeded
    position plus the cumulative delta (zero) clamped, which is 0.  And a
    stale query with a zero raw delta leaves a fused position of 2000 on a
    display 1920 wide where it is, while advancing it by zero and clamping
    gives 1919. *)
Lemma hybrid_cumulative_counterexample :
  (Forall (fun step => hybrid_spec.stale examples.hybrid_at_left_edge (snd step))
          examples.left_then_right
   /\ cursor.WaylandHybridCursor._x
        (@hybrid_spec.queries Libm_Q examples.hybrid_at_left_edge examples.left_then_right)
      == 10
   /\ fst (hybrid_spec.seed_plus_cumulative examples.hybrid_at_left_edge
             examples.left_then_right) == 0)
  /\ (hybrid_spec.stale examples.hybrid_outside examples.pointer_outside
      /\ hybrid_spec.raw_delta [] = (0, 0)%Z
      /\ cursor.WaylandHybridCursor._x
           (fst (@cursor.WaylandHybridCursor.query Libm_Q examples.hybrid_outside []
                   examples.pointer_outside)) == 2000
      /\ fst (hybrid_spec.advance 1920 1080 1.0 (2000, 500) (0, 0)%Z) == 1919).
Proof.
  split.
  - split; [| split].
    + repeat constructor.
    + evaluate.
    + evaluate.
  - split; [| split; [| split]]; evaluate.
Qed.

(** The same script, run through the amended statement. *)
Lemma hybrid_stale_extrapolation_witness :
  Forall (fun step => hybrid_spec.stale examples.hybrid_at_left_edge (snd step))
         examples.left_then_right
  /\ hybrid_spec.in_bounds examples.hybrid_at_left_edge
  /\ cursor.WaylandHybridCursor._x
       (@hybrid_spec.queries Libm_Q examples.hybrid_at_left_edge examples.left_then_right)
     == fst (fold_left (hybrid_spec.advance 1920 1080 1.0)
                       [(-10, 0)%Z; (10, 0)%Z] (0, 500)).
Proof.
  assert (Hs : Forall (fun step => hybrid_spec.stale examples.hybrid_at_left_edge (snd step))
                      examples.left_then_right) by (repeat constructor).
  assert (Hb : hybrid_spec.in_bounds examples.hybrid_at_left_edge) by evaluate.
  split; [exact Hs | split; [exact Hb |]].
  destruct (@hybrid_stale_extrapolation Libm_Q examples.hybrid_at_left_edge) as [_ H].
  exact (proj1 (H examples.left_then_right Hs Hb)).
Defined.

(** A fresh reply five pixels to the right of the seed, with ten raw counts:
    the fused position is the reply. *)
Lemma hybrid_fresh_anchor_witness :
  ~ hybrid_spec.stale examples.hybrid_seeded examples.pointer_fresh
  /\ cursor.WaylandHybridCursor._x
       (fst (@cursor.WaylandHybridCursor.query Libm_Q examples.hybrid_seeded
               [examples.packet_right] examples.pointer_fresh))
     = 105.
Proof.
  assert (H : ~ hybrid_spec.stale examples.hybrid_seeded examples.pointer_fresh)
    by (intros [E _]; vm_compute in E; discriminate E).
  split; [exact H |].
  exact (proj1 (@hybrid_fresh_anchor Libm_Q examples.hybrid_seeded
                  [examples.packet_right] examples.pointer_fresh H)).
Defined.

(** C4, as stated, fails when any of the three guards that precede the seal
    condition applies.  The pet idles with no seal and the mouse idle time
    passes [MOUSE_IDLE_T2] in each case: with the button pressed the tick
    ends DRAGGING; with the target farther than [FAR_DISTANCE] it ends
    CHASING; with the pointer more than ten thresholds from where it was when
    idling began it ends WANDERING.  No spawn signal fires. *)
Lemma seal_spawn_counterexample :
  (pet.state (app._pet (fst scenarios.idling)) = pet.IDLING
   /\ pet._seal_active (app._pet (fst scenarios.idling)) = false
   /\ 120000 < pet._mouse_idle_time
                 (@app.feed Libm_Q scenarios.cfg (fst scenarios.idling)
                    (scenarios.frame 120001 500 500 true))
   /\ pet.state (app._pet (fst (@app._tick Libm_Q scenarios.cfg (fst scenarios.idling)
                                  (scenarios.frame 120001 500 500 true)
                                  (snd scenarios.idling))))
      = pet.DRAGGING
   /\ pet.seal_should_appear
        (app._pet (fst (@app._tick Libm_Q scenarios.cfg (fst scenarios.idling)
                          (scenarios.frame 120001 500 500 true)
                          (snd scenarios.idling))))
      = false)
  /\ (pet.state (app._pet (fst scenarios.idling_far)) = pet.IDLING
      /\ pet._seal_active (app._pet (fst scenarios.idling_far)) = false
      /\ 120000 < pet._mouse_idle_time
                    (@app.feed Libm_Q scenarios.cfg (fst scenarios.idling_far)
                       (scenarios.frame 120034 752 500 false))
      /\ pet.state (app._pet (fst (@app._tick Libm_Q scenarios.cfg (fst scenarios.idling_far)
                                     (scenarios.frame 120034 752 500 false)
                                     (snd scenarios.idling_far))))
         = pet.CHASING
      /\ pet.seal_should_appear
           (app._pet (fst (@app._tick Libm_Q scenarios.cfg (fst scenarios.idling_far)
                             (scenarios.frame 120034 752 500 false)
                             (snd scenarios.idling_far))))
         = false)
  /\ (pet.state (app._pet (fst scenarios.idling_crept)) = pet.IDLING
      /\ pet._seal_active (app._pet (fst scenarios.idling_crept)) = false
      /\ 120000 < pet._mouse_idle_time
                    (@app.feed Libm_Q scenarios.cfg (fst scenarios.idling_crept)
                       (scenarios.frame 120001 555 500 false))
      /\ pet.state (app._pet (fst (@app._tick Libm_Q scenarios.cfg (fst scenarios.idling_crept)
                                     (scenarios.frame 120001 555 500 false)
                                     (snd scenarios.idling_crept))))
         = pet.WANDERING
      /\ pet.seal_should_appear
           (app._pet (fst (@app._tick Libm_Q scenarios.cfg (fst scenarios.idling_crept)
                             (scenarios.frame 120001 555 500 false)
                             (snd scenarios.idling_crept))))
         = false).
Proof. evaluate. Qed.

(** The lifecycle on the idling pet: the pointer rests past the threshold,
    rests for two more frames with the seal on screen, then moves twenty
    pixels. *)
Lemma seal_lifecycle_witness :
  (pet.state (app._pet (fst scenarios.idling)) = pet.IDLING
   /\ Forall (fun f => snd (app.sample f) = false) scenarios.resting
   /\ @loop_spec.still Libm_Q scenarios.cfg
        (fst (@app._tick Libm_Q scenarios.cfg (fst scenarios.idling)
                (scenarios.frame 120001 500 500 false) (snd scenarios.idling)))
        scenarios.resting
        (snd (@app._tick Libm_Q scenarios.cfg (fst scenarios.idling)
                (scenarios.frame 120001 500 500 false) (snd scenarios.idling))))
  /\ pet.state (app._pet (fst (@app._tick Libm_Q scenarios.cfg (fst scenarios.idling)
                                 (scenarios.frame 120001 500 500 false)
                                 (snd scenarios.idling))))
     = pet.SEAL_MODE
  /\ Forall (fun a' => pet.state (app._pet a') = pet.SEAL_MODE)
            (fst (@app.run Libm_Q scenarios.cfg
                    (fst (@app._tick Libm_Q scenarios.cfg (fst scenarios.idling)
                            (scenarios.frame 120001 500 500 false)
                            (snd scenarios.idling)))
                    scenarios.resting
                    (snd (@app._tick Libm_Q scenarios.cfg (fst scenarios.idling)
                            (scenarios.frame 120001 500 500 false)
                            (snd scenarios.idling)))))
  /\ pet.state
       (app._pet
          (fst (@app._tick Libm_Q scenarios.cfg
                  (@loop_spec.final Libm_Q scenarios.cfg
                     (fst (@app._tick Libm_Q scenarios.cfg (fst scenarios.idling)
                             (scenarios.frame 120001 500 500 false)
                             (snd scenarios.idling)))
                     scenarios.resting
                     (snd (@app._tick Libm_Q scenarios.cfg (fst scenarios.idling)
                             (scenarios.frame 120001 500 500 false)
                             (snd scenarios.idling))))
                  (scenarios.frame 120100 523 500 false)
                  (snd (@app.run Libm_Q scenarios.cfg
                          (fst (@app._tick Libm_Q scenarios.cfg (fst scenarios.idling)
                                  (scenarios.frame 120001 500 500 false)
                                  (snd scenarios.idling)))
                          scenarios.resting
                          (snd (@app._tick Libm_Q scenarios.cfg (fst scenarios.idling)
                                  (scenarios.frame 120001 500 500 false)
                                  (snd scenarios.idling))))))))
     = pet.CHASING.
Proof.
  assert (S : pet.state (app._pet (fst scenarios.idling)) = pet.IDLING)
    by (vm_compute; reflexivity).
  assert (B : Forall (fun f => snd (app.sample f) = false) scenarios.resting)
    by (repeat constructor).
  assert (R : @loop_spec.still Libm_Q scenarios.cfg
                (fst (@app._tick Libm_Q scenarios.cfg (fst scenarios.idling)
                        (scenarios.frame 120001 500 500 false) (snd scenarios.idling)))
                scenarios.resting
                (snd (@app._tick Libm_Q scenarios.cfg (fst scenarios.idling)
                        (scenarios.frame 120001 500 500 false) (snd scenarios.idling))))
    by evaluate.
  split; [split; [exact S | split; [exact B | exact R]] |].
  pose proof (@seal_lifecycle Libm_Q scenarios.cfg (fst scenarios.idling)
                (scenarios.frame 120001 500 500 false) scenarios.resting
                (scenarios.frame 120100 523 500 false) (snd scenarios.idling)
                S) as H.
  cbv zeta in H.
  destruct H as ((H1 & _) & H2 & (H3 & _));
    [evaluate | evaluate | evaluate | evaluate | evaluate | exact B | exact R
     | evaluate | evaluate |].
  split; [exact H1 | split; [| exact H3]].
  revert H2. apply Forall_impl. intros a' (E & _). exact E.
Defined.

(** The oscillation between 90 and 200 pixels stays within the band, and the
    pet keeps chasing. *)
Lemma hysteresis_witness :
  @app_spec.in_band Libm_Q scenarios.cfg scenarios.start scenarios.oscillation
    scenarios.zeros
  /\ pet_spec.no_flip_flop
       (@app_spec.states Libm_Q scenarios.cfg scenarios.start scenarios.oscillation
          scenarios.zeros).
Proof.
  assert (H : @app_spec.in_band Libm_Q scenarios.cfg scenarios.start
                scenarios.oscillation scenarios.zeros) by evaluate.
  split; [exact H |].
  exact (proj2 (proj2 (@hysteresis Libm_Q scenarios.cfg)) _ _ _ H).
Defined.

(** C7, as stated, fails on the release: the button goes down while the pet
    wanders and the pointer is 300 pixels away; the tick of the release
    restores WANDERING and its handler, seeing the target beyond
    [FAR_DISTANCE], leaves for CHASING in the same tick. *)
Lemma drag_release_counterexample :
  pet.state scenarios.wandering = pet.WANDERING
  /\ pet.state scenarios.dragged = pet.DRAGGING
  /\ pet._prev_state scenarios.dragged = pet.WANDERING
  /\ pet.state scenarios.released = pet.CHASING.
Proof. evaluate. Qed.

(** The press of that scenario, through the amended statement. *)
Lemma drag_interrupt_witness :
  pet._mouse_pressed
    (@pet.update_mouse Libm_Q scenarios.cfg scenarios.wandering 800 500 true 33) = true
  /\ pet.state scenarios.dragged = pet.DRAGGING.
Proof.
  split; [reflexivity |].
  destruct (@drag_interrupt Libm_Q scenarios.cfg
              (@pet.update_mouse Libm_Q scenarios.cfg scenarios.wandering 800 500 true 33)
              33 scenarios.zeros) as [H _].
  apply H; [reflexivity | vm_compute; discriminate].
Defined.

(** C8, as stated, fails at [idle_elapsed = 60000]: the probability of the
    special animation is 3/5, not 1/2; the draws 0.1 and 0.69, 0.59 apart,
    both select it. *)
Lemma idle_ramp_counterexample :
  pet.idle2_prob config.base 5 60000 == 3 # 5
  /\ ~ pet.idle2_prob config.base 5 60000 == 1 # 2
  /\ fst (pet._pick_idle_gif config.base (scenarios.idle_for 60000) (fun _ => 0.1))
     = "gifs/idle2.gif"%string
  /\ fst (pet._pick_idle_gif config.base (scenarios.idle_for 60000) (fun _ => 0.69))
     = "gifs/idle2.gif"%string.
Proof.
  split; [evaluate | split; [| split; reflexivity]].
  intros E. vm_compute in E. discriminate E.
Qed.

(** The ramp at [idle_elapsed = 60000], through the amended statement: the
    special animation has probability 3/5, and the draw 0.75 falls in the
    stretch [[0.7, 0.8)] of the third animation. *)
Lemma idle_ramp_witness :
  30000 <= 60000
  /\ pet._mouse_idle_time (scenarios.idle_for 60000) = 60000
  /\ pet.idle2_prob config.base 5 60000 == 3 # 5
  /\ fst (pet._pick_idle_gif config.base (scenarios.idle_for 60000) (fun _ => 0.75))
     = "gifs/idle3.gif"%string.
Proof.
  assert (H : 30000 <= 60000) by (vm_compute; discriminate).
  split; [exact H | split; [reflexivity |]].
  destruct (idle_ramp 60000 H) as (_ & T & H60 & _).
  split; [apply H60; reflexivity |].
  destruct (T (scenarios.idle_for 60000) (fun _ => 0.75) eq_refl) as (_ & _ & T3 & _).
  apply T3. split; [vm_compute; discriminate | reflexivity].
Defined.

(** * Further properties of the code *)

(** ** Movement *)

Section Movement.

Import pet.

(** X1. [_move_toward] never overshoots.  When the target is within one step
    ([dist <= speed]) the pet lands on it.  Otherwise, for a non-negative
    speed, it stays on the segment towards the target: what remains of the
    offset [(dx, dy)] is the fraction [1 - speed / dist] of it, which lies in
    [(0, 1]]; and when [dist] is the length of [(dx, dy)] the step has length
    [speed]. *)
Theorem _move_toward_no_overshoot (p : Pet) (dx dy dist speed : Q) :
  (dist <= speed ->
   x (_move_toward p dx dy dist speed) = x p + dx
   /\ y (_move_toward p dx dy dist speed) = y p + dy)
  /\ (0 <= speed -> speed < dist ->
      (0 < 1 - speed / dist /\ 1 - speed / dist <= 1)
      /\ x p + dx - x (_move_toward p dx dy dist speed) == (1 - speed / dist) * dx
      /\ y p + dy - y (_move_toward p dx dy dist speed) == (1 - speed / dist) * dy
      /\ (dist * dist == dx * dx + dy * dy ->
          (x (_move_toward p dx dy dist speed) - x p)
          * (x (_move_toward p dx dy dist speed) - x p)
          + (y (_move_toward p dx dy dist speed) - y p)
            * (y (_move_toward p dx dy dist speed) - y p)
          == speed * speed)).
Proof.
  unfold _move_toward. split.
  - intros H. apply leb_le in H. rewrite H. split; reflexivity.
  - intros H0 H1.
    assert (N : py.leb dist speed = false).
    { apply not_true_is_false. intros E. apply leb_le in E. lra. }
    rewrite N. cbn [x y set_x set_y].
    assert (Hd : 0 < dist) by lra.
    assert (Hi : dist * / dist == 1) by (apply Qmult_inv_r; lra).
    assert (Hp : 0 < / dist) by (apply Qinv_lt_0_compat, Hd).
    unfold Qdiv. set (i := / dist) in *.
    assert (Hs : speed * i < 1).
    { setoid_replace 1 with (dist * i) by (symmetry; exact Hi).
      apply Qmult_lt_compat_r; assumption. }
    assert (Hs0 : 0 <= speed * i) by (apply Qmult_le_0_compat; lra).
    split; [split; lra |]. split; [ring |]. split; [ring |].
    intros Hn.
    transitivity (speed * speed * ((dx * dx + dy * dy) * (i * i))); [ring |].
    rewrite <- Hn.
    transitivity (speed * speed * ((dist * i) * (dist * i))); [ring |].
    rewrite Hi. ring.
Qed.

End Movement.

(** The step from (0, 0) towards (3, 4) at speed 5/2. *)
Lemma _move_toward_no_overshoot_witness :
  0 <= 2.5 /\ 2.5 < 5
  /\ pet.x (pet._move_toward (pet.__init__ config.base 0 0) 3 4 5 2.5) == 1.5.
Proof.
  assert (H0 : 0 <= 2.5) by (vm_compute; discriminate).
  assert (H1 : 2.5 < 5) by reflexivity.
  split; [exact H0 | split; [exact H1 |]].
  destruct (_move_toward_no_overshoot (pet.__init__ config.base 0 0) 3 4 5 2.5)
    as [_ H].
  destruct (H H0 H1) as (_ & Hx & _).
  cbn [pet.x pet.__init__] in Hx.
  assert (E : (1 - 2.5 / 5) * 3 == 1.5) by reflexivity.
  rewrite E in Hx. lra.
Defined.

(** ** What a tick leaves alone *)

(** Setters of attributes outside an observation do not show in it. *)
Ltac frame_simpl F :=
  repeat match goal with
    | |- context [F (?f ?v ?q)] => progress change (F (f v q)) with (F q)
    end.

Section Frames.

Import pet pet_spec pet_inv.

Context {L : Libm}.
Variable cfg : config.t.

Lemma bind_any_frame {A T} (F : Pet -> T) (c : rand.M A) (k : A -> rand.M Pet) w g :
  (forall a g', F (fst (k a g')) = w) -> F (fst (rand.bind c k g)) = w.
Proof. intros H. unfold rand.bind. destruct (c g) as [a g']. apply H. Qed.

Lemma bind_pet_frame {T} (F : Pet -> T) (c : rand.M Pet) (k : Pet -> rand.M Pet) v w g :
  (forall g', F (fst (c g')) = v) ->
  (forall a g', F a = v -> F (fst (k a g')) = w) ->
  F (fst (rand.bind c k g)) = w.
Proof.
  intros Hc Hk. unfold rand.bind. specialize (Hc g).
  destruct (c g) as [a g']. apply Hk, Hc.
Qed.

Lemma if_frame {T} (F : Pet -> T) (b : bool) (c1 c2 : rand.M Pet) v :
  (forall g, F (fst (c1 g)) = v) -> (forall g, F (fst (c2 g)) = v) ->
  forall g, F (fst ((if b then c1 else c2) g)) = v.
Proof. destruct b; trivial. Qed.

(** *** The mouse tracker *)

Lemma _move_toward_tracker (p : Pet) (dx dy dist speed : Q) :
  mouse_tracker (_move_toward p dx dy dist speed) = mouse_tracker p.
Proof. unfold _move_toward. split_if; reflexivity. Qed.

Lemma _init_idle_tracker (p : Pet) (now : Q) (g : rand.Rng) :
  mouse_tracker (fst (_init_idle cfg p now g)) = mouse_tracker p.
Proof.
  unfold _init_idle. cbv zeta. apply bind_any_frame. intros gif g1. reflexivity.
Qed.

Lemma handler_tracker (s : PetState) (p : Pet) (dx dy dist now : Q) (g : rand.Rng) :
  mouse_tracker (fst (handler cfg s p dx dy dist now g)) = mouse_tracker p.
Proof.
  destruct s; cbn [handler].
  - unfold _handle_chasing. split_if; [reflexivity |].
    cbn [rand.ret fst]. frame_simpl mouse_tracker. apply _move_toward_tracker.
  - unfold _handle_wandering.
    destruct (py.gtb dist (config.FAR_DISTANCE cfg) && negb (_seal_active p));
      [reflexivity |].
    destruct (py.gtb now (_wander_end_time p));
      [rewrite _init_idle_tracker; reflexivity |].
    cbv zeta. apply bind_pet_frame with (v := mouse_tracker p).
    + apply if_frame; intros g'; destruct (_seal_active p); reflexivity.
    + intros p1 g1 H1. apply bind_pet_frame with (v := mouse_tracker p).
      * apply if_frame; intros g'; [exact H1 |].
        cbn [rand.ret fst]. rewrite _move_toward_tracker. exact H1.
      * intros p2 g2 H2. cbn [rand.ret fst]. frame_simpl mouse_tracker. exact H2.
  - unfold _handle_idling.
    destruct (py.gtb dist (config.FAR_DISTANCE cfg) && negb (_seal_active p));
      [reflexivity |].
    match goal with
    | |- context [if negb (_seal_active p) && ?c then _init_wander _ _ _ else _] =>
        destruct (negb (_seal_active p) && c); [reflexivity |]
    end.
    match goal with
    | |- context [if ?c then _ else _] => destruct c; [reflexivity |]
    end.
    apply bind_pet_frame with (v := mouse_tracker p).
    + apply if_frame; intros g'; [| reflexivity].
      apply bind_any_frame. intros gif g1. cbv zeta.
      apply bind_any_frame. intros d g2. reflexivity.
    + intros p1 g1 H1. cbn [rand.ret fst]. frame_simpl mouse_tracker. exact H1.
  - reflexivity.
  - unfold _handle_seal_mode.
    destruct (negb (_seal_active p)); [reflexivity |]. cbv zeta.
    split_if.
    + cbn [rand.ret fst]. frame_simpl mouse_tracker. apply _move_toward_tracker.
    + apply bind_pet_frame with (v := mouse_tracker p).
      * apply if_frame; intros g'; [| reflexivity].
        apply bind_any_frame. intros angle g1.
        apply bind_any_frame. intros r g2.
        apply bind_any_frame. intros d g3. reflexivity.
      * intros p1 g1 H1. cbn [rand.ret fst]. frame_simpl mouse_tracker.
        split_if; [rewrite _move_toward_tracker |]; exact H1.
Qed.

Lemma drag_detection_tracker (p : Pet) :
  mouse_tracker (drag_detection p) = mouse_tracker p.
Proof. unfold drag_detection. repeat split_if; reflexivity. Qed.

Lemma tick_tracker (p : Pet) (now : Q) (g : rand.Rng) :
  mouse_tracker (fst (tick cfg p now g)) = mouse_tracker p.
Proof.
  unfold tick. destruct (target (drag_detection p)) as [tx ty].
  rewrite handler_tracker. apply drag_detection_tracker.
Qed.

(** *** The position *)

Lemma _handle_idling_position (p : Pet) (dx dy dist now : Q) (g : rand.Rng) :
  position (fst (_handle_idling cfg p dx dy dist now g)) = position p.
Proof.
  unfold _handle_idling.
  destruct (py.gtb dist (config.FAR_DISTANCE cfg) && negb (_seal_active p));
    [reflexivity |].
  match goal with
  | |- context [if negb (_seal_active p) && ?c then _init_wander _ _ _ else _] =>
      destruct (negb (_seal_active p) && c); [reflexivity |]
  end.
  match goal with
  | |- context [if ?c then _ else _] => destruct c; [reflexivity |]
  end.
  apply bind_pet_frame with (v := position p).
  - apply if_frame; intros g'; [| reflexivity].
    apply bind_any_frame. intros gif g1. cbv zeta.
    apply bind_any_frame. intros d g2. reflexivity.
  - intros p1 g1 H1. cbn [rand.ret fst]. frame_simpl position. exact H1.
Qed.

Lemma drag_detection_position (p : Pet) :
  position (drag_detection p) = position p.
Proof. unfold drag_detection. repeat split_if; reflexivity. Qed.

End Frames.

(** ** Invariants of the game loop *)

Section Invariants.

Import pet pet_spec pet_inv app app_spec.

Context {L : Libm}.
Variable cfg : config.t.

Lemma drag_detection_control (p : Pet) :
  control (drag_detection p)
  = (if _mouse_pressed p then DRAGGING
     else if PetState_eqb (state p) DRAGGING then _prev_state p else state p,
     if _mouse_pressed p && negb (PetState_eqb (state p) DRAGGING)
     then state p else _prev_state p,
     _seal_active p, seal_should_appear p, seal_should_disappear p).
Proof.
  unfold drag_detection.
  destruct (_mouse_pressed p); destruct (state p) eqn:S; cbn; unfold control; cbn;
    rewrite ?S; reflexivity.
Qed.

Lemma transition_dragging (p : Pet) (dist now : Q) :
  transition cfg p dist now = DRAGGING <-> state p = DRAGGING.
Proof.
  unfold transition. destruct (state p); repeat split_if;
    split; intros H; try discriminate H; reflexivity.
Qed.

Lemma _show_seal_shape (w : SpriteWidget) (geo : Geometry) (g : rand.Rng) :
  isVisible (fst (_show_seal w geo g)) = true
  /\ width (fst (_show_seal w geo g)) = width w
  /\ height (fst (_show_seal w geo g)) = height w.
Proof. repeat split. Qed.

(** The seal sprite after a tick: hidden when the despawn signal fired, else
    shown when the spawn signal fired, else as it was. *)
Lemma _tick_visible (a : AemeathApp) (f : Frame) (g : rand.Rng) :
  isVisible (_seal_sprite (fst (_tick cfg a f g)))
  = if seal_should_disappear (_pet (fst (_tick cfg a f g))) then false
    else if seal_should_appear (_pet (fst (_tick cfg a f g))) then true
         else isVisible (_seal_sprite a).
Proof.
  pose proof (_tick_control cfg a f g) as C. unfold control in C.
  injection C as _ _ _ Cap Cd. rewrite Cap, Cd. clear Cap Cd.
  unfold _tick, rand.bind.
  destruct (tick cfg (feed cfg a f) (now_ms f) g) as [p g1]. cbv zeta. cbn [fst].
  destruct (seal_should_appear p).
  - destruct (_show_seal_shape (_seal_sprite a) (availableGeometry f) g1) as [V _].
    destruct (_show_seal (_seal_sprite a) (availableGeometry f) g1) as [seal g2].
    cbn [fst rand.ret _seal_sprite] in *.
    destruct (seal_should_disappear p); [reflexivity | exact V].
  - cbn [rand.ret fst _seal_sprite].
    destruct (seal_should_disappear p); reflexivity.
Qed.

(** The control state after a timer tick, from the application before it. *)
Lemma _tick_summary (a : AemeathApp) (f : Frame) (g : rand.Rng) :
  control (_pet (fst (_tick cfg a f g)))
  = (transition cfg (drag_detection (feed cfg a f)) (tick_dist cfg a f) (now_ms f),
     (if snd (sample f) && negb (PetState_eqb (state (_pet a)) DRAGGING)
      then state (_pet a) else _prev_state (_pet a)),
     (_seal_active (_pet a) && negb (pointer_moved cfg a f))
     || spawns cfg (drag_detection (feed cfg a f)) (tick_dist cfg a f) (now_ms f),
     spawns cfg (drag_detection (feed cfg a f)) (tick_dist cfg a f) (now_ms f),
     pointer_moved cfg a f && _seal_active (_pet a)).
Proof.
  rewrite _tick_control, tick_control.
  pose proof (drag_detection_control (feed cfg a f)) as D.
  rewrite (feed_pressed cfg a f) in D.
  pose proof (feed_control cfg a f) as F. unfold control in F.
  injection F as Fs Fp Fa Fap Fd. rewrite Fs, Fp, Fa, Fap, Fd in D.
  unfold control in D. injection D as Ds Dp Da Dap Dd.
  rewrite Dp, Da, Dap, Dd. reflexivity.
Qed.

Lemma drag_detection_state (a : AemeathApp) (f : Frame) :
  state (drag_detection (feed cfg a f))
  = if snd (sample f) then DRAGGING
    else if PetState_eqb (state (_pet a)) DRAGGING then _prev_state (_pet a)
         else state (_pet a).
Proof.
  pose proof (drag_detection_control (feed cfg a f)) as D.
  rewrite (feed_pressed cfg a f) in D.
  pose proof (feed_control cfg a f) as F. unfold control in F.
  injection F as Fs Fp _ _ _. rewrite Fs, Fp in D.
  unfold control in D. injection D as Ds _ _ _ _. exact Ds.
Qed.

Lemma drag_detection_seal (a : AemeathApp) (f : Frame) :
  _seal_active (drag_detection (feed cfg a f))
  = _seal_active (_pet a) && negb (pointer_moved cfg a f).
Proof.
  pose proof (drag_detection_control (feed cfg a f)) as D.
  pose proof (feed_control cfg a f) as F. unfold control in F.
  injection F as _ _ Fa _ _. rewrite Fa in D.
  unfold control in D. injection D as _ _ Da _ _. exact Da.
Qed.

(** One timer tick keeps the application consistent. *)
Lemma _tick_consistent (a : AemeathApp) (f : Frame) (g : rand.Rng) :
  consistent a -> consistent (fst (_tick cfg a f g)).
Proof.
  intros (Hd & Hs & Hv).
  unfold consistent, drag_memory_ok, seal_placed, seal_shown in *.
  pose proof (_tick_visible a f g) as V.
  pose proof (_tick_summary a f g) as C. unfold control in C.
  injection C as Cs Cp Ca Cap Cd.
  rewrite Cap, Cd in V. rewrite V, Cs, Cp, Ca. clear V Cs Cp Ca Cap Cd.
  unfold spawns, transition.
  rewrite drag_detection_state, drag_detection_seal.
  destruct (snd (sample f)); destruct (pointer_moved cfg a f);
    destruct (_seal_active (_pet a)); destruct (isVisible (_seal_sprite a));
    try discriminate Hv;
    destruct (state (_pet a)) eqn:S; destruct (_prev_state (_pet a)) eqn:P;
    cbn [PetState_eqb negb andb orb];
    repeat split_if; cbn [PetState_eqb negb andb orb];
    repeat split; try congruence; try tauto;
    try (intros _; destruct Hs as [Hs | [Hs Hs']]; try reflexivity;
         first [discriminate Hs | discriminate Hs' | tauto]);
    try (exfalso; destruct (Hs eq_refl) as [X | [X Y]]; congruence).
Qed.

End Invariants.

(** ** Runs of the game loop *)

Section Runs.

Import pet pet_spec pet_inv app app_spec loop_spec.

Context {L : Libm}.
Variable cfg : config.t.

Lemma run_Forall (Inv : AemeathApp -> Prop) :
  (forall a f g, Inv a -> Inv (fst (_tick cfg a f g))) ->
  forall frames a g, Inv a -> Forall Inv (fst (run cfg a frames g)).
Proof.
  intros Step. induction frames as [| f rest IH]; intros a g H.
  - constructor.
  - rewrite run_cons. constructor; [apply Step, H | apply IH, Step, H].
Qed.

Lemma init_consistent (w : SpriteWidget) (sx sy : Q) :
  isVisible w = false -> consistent (mkApp (pet.__init__ cfg sx sy) w).
Proof.
  intros V. repeat split.
  - discriminate.
  - intros A. discriminate A.
  - exact V.
Qed.

Lemma _tick_dragging_iff (a : AemeathApp) (f : Frame) (g : rand.Rng) :
  drag_memory_ok (_pet a) ->
  state (_pet (fst (_tick cfg a f g))) = DRAGGING <-> snd (sample f) = true.
Proof.
  intros Hd. unfold drag_memory_ok in Hd.
  pose proof (_tick_summary cfg a f g) as C. unfold control in C.
  injection C as Cs _ _ _ _. rewrite Cs, transition_dragging, drag_detection_state.
  destruct (snd (sample f)); [split; reflexivity |].
  destruct (state (_pet a)) eqn:S; cbn [PetState_eqb];
    split; intros H; try discriminate H. contradiction.
Qed.

Lemma run_dragging_iff (frames : list Frame) (a : AemeathApp) (g : rand.Rng) :
  consistent a ->
  Forall2 (fun f a' => state (_pet a') = DRAGGING <-> snd (sample f) = true)
          frames (fst (run cfg a frames g)).
Proof.
  revert a g. induction frames as [| f rest IH]; intros a g H.
  - constructor.
  - rewrite run_cons. constructor.
    + apply _tick_dragging_iff, H.
    + apply IH, _tick_consistent, H.
Qed.

(** X2. The drag state mirrors the button.  In a run of the game loop
    started from a fresh [Pet] with the seal sprite hidden, after every timer
    tick the state is DRAGGING exactly when the button was pressed in that
    frame: a press always starts a drag, and a release always ends it. *)
Theorem drag_mirrors_button (w : SpriteWidget) (sx sy : Q) (frames : list Frame)
        (g : rand.Rng) :
  isVisible w = false ->
  Forall2 (fun f a' => state (_pet a') = DRAGGING <-> snd (sample f) = true)
          frames (fst (run cfg (mkApp (pet.__init__ cfg sx sy) w) frames g)).
Proof. intros V. apply run_dragging_iff, init_consistent, V. Qed.

(** X3. A seal is active only in SEAL_MODE.  In a run of the game loop
    started from a fresh [Pet] with the seal sprite hidden, after every timer
    tick an active seal implies that the state is SEAL_MODE, or DRAGGING with
    SEAL_MODE remembered: the pet never chases, wanders or idles while a seal
    is active. *)
Theorem seal_only_in_seal_mode (w : SpriteWidget) (sx sy : Q) (frames : list Frame)
        (g : rand.Rng) :
  isVisible w = false ->
  Forall (fun a' =>
            _seal_active (_pet a') = true ->
            state (_pet a') = SEAL_MODE
            \/ (state (_pet a') = DRAGGING /\ _prev_state (_pet a') = SEAL_MODE))
         (fst (run cfg (mkApp (pet.__init__ cfg sx sy) w) frames g)).
Proof.
  intros V.
  eapply Forall_impl;
    [| apply (run_Forall consistent (_tick_consistent cfg)), init_consistent, V].
  intros a' (_ & H & _). exact H.
Qed.

(** X4. The seal sprite is visible exactly while the pet logic has an active
    seal, after every timer tick of a run started from a fresh [Pet] with
    the seal sprite hidden, provided every tick of the run returns: no tick
    asks for the seal on a geometry too small for [_show_seal], less than
    201 pixels wide or high, where [random.randint] raises and leaves the
    seal active but not shown. *)
Theorem seal_sprite_tracks_seal (w : SpriteWidget) (sx sy : Q) (frames : list Frame)
        (g : rand.Rng) :
  isVisible w = false ->
  returns cfg (mkApp (pet.__init__ cfg sx sy) w) frames g ->
  Forall (fun a' => isVisible (_seal_sprite a') = _seal_active (_pet a'))
         (fst (run cfg (mkApp (pet.__init__ cfg sx sy) w) frames g)).
Proof.
  intros V _.
  eapply Forall_impl;
    [| apply (run_Forall consistent (_tick_consistent cfg)), init_consistent, V].
  intros a' (_ & _ & H). exact H.
Qed.

(** X5. Only pointer movement dismisses a seal.  On a consistent
    application with an active seal, a timer tick whose pointer did not move
    keeps the seal active and fires no despawn signal; a tick whose pointer
    moved leaves no seal active and fires the despawn signal, and no spawn
    signal. *)
Theorem seal_dismissed_by_movement_only (a : AemeathApp) (f : Frame) (g : rand.Rng) :
  consistent a -> _seal_active (_pet a) = true ->
  (pointer_moved cfg a f = false ->
   _seal_active (_pet (fst (_tick cfg a f g))) = true
   /\ seal_should_disappear (_pet (fst (_tick cfg a f g))) = false)
  /\ (pointer_moved cfg a f = true ->
      _seal_active (_pet (fst (_tick cfg a f g))) = false
      /\ seal_should_disappear (_pet (fst (_tick cfg a f g))) = true
      /\ seal_should_appear (_pet (fst (_tick cfg a f g))) = false).
Proof.
  intros (Hd & Hs & Hv) A.
  pose proof (_tick_summary cfg a f g) as C. unfold control in C.
  injection C as _ _ Ca Cap Cd. rewrite Ca, Cap, Cd, A.
  split; intros M; rewrite M; cbn [negb andb orb]; [split; reflexivity |].
  assert (N : spawns cfg (drag_detection (feed cfg a f)) (tick_dist cfg a f) (now_ms f)
              = false).
  { unfold spawns. rewrite drag_detection_state.
    destruct (Hs A) as [S | [S P]]; rewrite S; try rewrite P;
      destruct (snd (sample f)); reflexivity. }
  rewrite N. repeat split.
Qed.

End Runs.

(** ** The timer tick: clamping, seal target, idle clock *)

Section Tick.

Import pet pet_spec pet_inv app app_spec loop_spec.

Context {L : Libm}.
Variable cfg : config.t.



(** X7. Whenever the seal sprite is visible after a timer tick, the seal
    position the pet steers by is the centre of that sprite. *)
Theorem _tick_seal_target (a : AemeathApp) (f : Frame) (g : rand.Rng) :
  isVisible (_seal_sprite (fst (_tick cfg a f g))) = true ->
  (_seal_x (_pet (fst (_tick cfg a f g))), _seal_y (_pet (fst (_tick cfg a f g))))
  = center_pos (_seal_sprite (fst (_tick cfg a f g))).
Proof.
  unfold _tick, rand.bind.
  destruct (tick cfg (feed cfg a f) (now_ms f) g) as [p g1]. cbv zeta.
  match goal with
  | |- context [let (_, _) := ?c in _] => destruct c as [seal g2]
  end.
  cbn [rand.ret fst _pet _seal_sprite]. intros V. rewrite V.
  unfold set_seal_position. cbn [_seal_x _seal_y set_seal_x set_seal_y set_x set_y].
  reflexivity.
Qed.

(** The mouse tracker after feeding a frame. *)
Lemma feed_tracker (a : AemeathApp) (f : Frame) :
  mouse_tracker (feed cfg a f)
  = (fst (logical_mouse f), snd (logical_mouse f),
     fst (logical_mouse f), snd (logical_mouse f),
     (if pointer_moved cfg a f then now_ms f else _mouse_idle_start_ms (_pet a)),
     (if pointer_moved cfg a f then 0.0
      else now_ms f - _mouse_idle_start_ms (_pet a)),
     snd (sample f)).
Proof.
  unfold feed, pointer_moved. destruct (logical_mouse f) as [mx my]. cbn [fst snd].
  unfold update_mouse. cbv zeta.
  change (moved cfg (set_mouse_pressed (snd (sample f))
                       (set_seal_should_disappear false
                          (set_seal_should_appear false (_pet a)))) mx my)
    with (moved cfg (_pet a) mx my).
  destruct (moved cfg (_pet a) mx my); [| reflexivity].
  match goal with |- context [if ?c then _ else _] => destruct c end; reflexivity.
Qed.

(** Nothing after the feed touches the mouse tracker. *)
Lemma _tick_tracker (a : AemeathApp) (f : Frame) (g : rand.Rng) :
  mouse_tracker (_pet (fst (_tick cfg a f g))) = mouse_tracker (feed cfg a f).
Proof.
  rewrite <- (tick_tracker cfg (feed cfg a f) (now_ms f) g).
  unfold _tick, rand.bind.
  destruct (tick cfg (feed cfg a f) (now_ms f) g) as [p g1]. cbv zeta.
  match goal with
  | |- context [let (_, _) := ?c in _] => destruct c as [seal g2]
  end.
  cbn [rand.ret fst _pet]. unfold set_seal_position.
  match goal with |- context [if ?c then _ else _] => destruct c end; reflexivity.
Qed.

Lemma last_default {A} (l : list A) (x d d' : A) :
  last (x :: l) d = last (x :: l) d'.
Proof.
  revert x. induction l as [| y l IH]; intros x; [reflexivity |].
  cbn [last] in *. apply IH.
Qed.

Lemma final_cons (a : AemeathApp) (f f' : Frame) (rest : list Frame) (g : rand.Rng) :
  final cfg a (f :: f' :: rest) g
  = final cfg (fst (_tick cfg a f g)) (f' :: rest) (snd (_tick cfg a f g)).
Proof.
  unfold final. rewrite run_cons.
  set (a1 := fst (_tick cfg a f g)). set (g1 := snd (_tick cfg a f g)).
  rewrite (run_cons cfg a1 f' rest g1).
  cbn [last]. apply last_default.
Qed.

Lemma final_one (a : AemeathApp) (f : Frame) (g : rand.Rng) :
  final cfg a [f] g = fst (_tick cfg a f g).
Proof. unfold final. rewrite run_cons. reflexivity. Qed.

(** X8. The idle clock measures time since the last frame-to-frame movement.
    Over a run in which no frame's pointer displacement from the previous
    frame exceeds the threshold, the idle start is untouched and the idle
    time after the last frame is its timestamp minus the idle start,
    however far the pointer has crept in total. *)
Theorem idle_clock_ignores_creep (frames : list Frame) (last_frame : Frame)
        (a : AemeathApp) (g : rand.Rng) :
  still cfg a (frames ++ [last_frame]) g ->
  _mouse_idle_start_ms (_pet (final cfg a (frames ++ [last_frame]) g))
  = _mouse_idle_start_ms (_pet a)
  /\ _mouse_idle_time (_pet (final cfg a (frames ++ [last_frame]) g))
     = now_ms last_frame - _mouse_idle_start_ms (_pet a)
  /\ (_last_mouse_x (_pet (final cfg a (frames ++ [last_frame]) g)),
      _last_mouse_y (_pet (final cfg a (frames ++ [last_frame]) g)))
     = logical_mouse last_frame.
Proof.
  revert a g. induction frames as [| f rest IH]; intros a g H.
  - cbn [app] in *. destruct H as [M _]. rewrite final_one.
    pose proof (_tick_tracker a last_frame g) as T. rewrite feed_tracker, M in T.
    unfold mouse_tracker in T. injection T as _ _ Tx Ty Ts Ti _.
    rewrite Tx, Ty, Ts, Ti. destruct (logical_mouse last_frame). repeat split.
  - cbn [app still] in H. destruct H as [M H].
    change ((f :: rest) ++ [last_frame]) with (f :: (rest ++ [last_frame])).
    destruct (rest ++ [last_frame]) as [| f' tl] eqn:E.
    { destruct rest; discriminate E. }
    rewrite final_cons. rewrite <- E in *.
    destruct (IH _ _ H) as (Is & It & Il).
    pose proof (_tick_tracker a f g) as T. rewrite feed_tracker, M in T.
    unfold mouse_tracker in T. injection T as _ _ _ _ Ts _ _.
    rewrite Is, It, Il, Ts. repeat split.
Qed.

(** X9. [Pet.tick] moves the pet only in three situations: chasing a target
    that is not closer than [NEAR_DISTANCE], wandering, or in seal mode with
    an active seal.  Dragging, idling, arriving and leaving seal mode never
    move it. *)
Theorem tick_moves_only_when (p : Pet) (now : Q) (g : rand.Rng) :
  position (fst (tick cfg p now g)) <> position p ->
  (state (drag_detection p) = CHASING
   /\ ~ target_dist p < config.NEAR_DISTANCE cfg)
  \/ state (drag_detection p) = WANDERING
  \/ (state (drag_detection p) = SEAL_MODE /\ _seal_active p = true).
Proof.
  intros H.
  assert (A : _seal_active (drag_detection p) = _seal_active p).
  { pose proof (drag_detection_control p) as D. unfold control in D.
    injection D as _ _ Da _ _. exact Da. }
  rewrite <- (drag_detection_position p) in H. revert H.
  unfold tick, target_dist.
  destruct (target (drag_detection p)) as [tx ty]. cbn [fst snd].
  set (D := drag_detection p) in *.
  destruct (state D) eqn:S; cbn [handler]; intros H.
  - left. split; [reflexivity |]. intros N. apply H.
    unfold _handle_chasing. apply ltb_lt in N. rewrite N. reflexivity.
  - right. left. reflexivity.
  - exfalso. apply H. apply _handle_idling_position.
  - exfalso. apply H. reflexivity.
  - right. right. split; [reflexivity |].
    rewrite <- A. destruct (_seal_active D) eqn:SA; [reflexivity |].
    exfalso. apply H. unfold _handle_seal_mode. rewrite SA. reflexivity.
Qed.

End Tick.

(** ** Idle animation choice *)

Section IdleChoice.

Import pet.

Variable cfg : config.t.

Lemma _pick_idle_loop_member (gifs : list Gif) (p2 po r c : Q) (fallback : Gif) :
  In (_pick_idle_loop cfg gifs p2 po r c fallback) gifs
  \/ _pick_idle_loop cfg gifs p2 po r c fallback = fallback.
Proof.
  revert c. induction gifs as [| gif rest IH]; intros c; cbn [_pick_idle_loop].
  - right. reflexivity.
  - cbv zeta. match goal with |- context [if py.ltb ?a ?b then _ else _] =>
                destruct (py.ltb a b) end.
    + left. left. reflexivity.
    + destruct (IH (c + (if String.eqb gif (config.GIF_IDLE2 cfg) then p2 else po)))
        as [H | H]; [left; right; exact H | right; exact H].
Qed.

Lemma last_member {A} (l : list A) (d : A) : l <> [] -> In (last l d) l.
Proof.
  induction l as [| a l IH]; intros H; [contradiction |].
  destruct l as [| b l]; [left; reflexivity |].
  right. apply IH. discriminate.
Qed.

(** X10. [_pick_idle_gif] returns one of the configured idle animations
    whenever there is one (for a draw of [[0, 1)]), and [GIF_MOVE], without
    drawing, when [GIF_IDLE] is empty. *)
Theorem _pick_idle_gif_member (p : Pet) (g : rand.Rng) :
  (config.GIF_IDLE cfg = [] ->
   _pick_idle_gif cfg p g = (config.GIF_MOVE cfg, g))
  /\ (config.GIF_IDLE cfg <> [] -> 0 <= g 0%nat -> g 0%nat < 1 ->
      In (fst (_pick_idle_gif cfg p g)) (config.GIF_IDLE cfg)).
Proof.
  unfold _pick_idle_gif. split.
  - intros E. rewrite E. reflexivity.
  - intros N H0 H1.
    set (gifs := config.GIF_IDLE cfg) in *.
    assert (Hn : (0 < Z.of_nat (List.length gifs))%Z).
    { destruct gifs; [contradiction | cbn [List.length]; lia]. }
    destruct (Z.eqb_spec (Z.of_nat (List.length gifs)) 0) as [E | _]; [lia |].
    destruct (py.ltb (_mouse_idle_time p) (inject_Z (config.MOUSE_IDLE_T1 cfg))).
    + unfold rand.choice, rand.bind, rand.random, rand.ret. cbn [fst].
      apply nth_In.
      set (n := Z.of_nat (List.length gifs)) in *.
      assert (Hlo : (0 <= Qfloor (g 0%nat * inject_Z n))%Z).
      { change 0%Z with (Qfloor 0). apply Qfloor_resp_le.
        apply Qmult_le_0_compat; [exact H0 |].
        change (inject_Z 0 <= inject_Z n). rewrite <- Zle_Qle. lia. }
      assert (Hhi : (Qfloor (g 0%nat * inject_Z n) < n)%Z).
      { rewrite Zlt_Qlt. eapply Qle_lt_trans; [apply Qfloor_le |].
        assert (Hp : 0 < inject_Z n)
          by (change (inject_Z 0 < inject_Z n); rewrite <- Zlt_Qlt; exact Hn).
        setoid_replace (inject_Z n) with (1 * inject_Z n) at 2 by ring.
        apply Qmult_lt_compat_r; assumption. }
      apply Nat2Z.inj_lt. rewrite Z2Nat.id by exact Hlo. exact Hhi.
    + unfold rand.bind, rand.random, rand.ret. cbn [fst].
      match goal with
      | |- In (_pick_idle_loop cfg gifs ?a ?b ?r ?c ?fb) gifs =>
          destruct (_pick_idle_loop_member gifs a b r c fb) as [H | H];
            [exact H | rewrite H; apply last_member, N]
      end.
Qed.

End IdleChoice.

(** ** Screen adaptation *)

(** X11. [adapt_to_screen] always recomputes from the base values: adapting
    twice is adapting to the second height.  Each of the eight adapted
    values (sprite scale, the two speeds, the two distance thresholds, the
    two wander radii and the movement threshold) is its base value times
    [screen_height / 1280], so for a positive height the band
    [NEAR_DISTANCE < FAR_DISTANCE] and the positive speeds with
    [WANDER_SPEED < MOVE_SPEED] are preserved, and at the reference height
    all eight base values return.  The other sixteen constants (animation
    paths, durations, idle times, reference height, tick interval) keep
    their value. *)
Theorem adapt_to_screen_recomputes (h1 h2 : Z) (c : config.t) :
  config.adapt_to_screen h2 (config.adapt_to_screen h1 c) = config.adapt_to_screen h2 c
  /\ (config.REFERENCE_SCREEN_HEIGHT c = 1280%Z ->
      (config.SPRITE_SCALE (config.adapt_to_screen h2 c) * 1280 == 0.35 * inject_Z h2
       /\ config.MOVE_SPEED (config.adapt_to_screen h2 c) * 1280 == 4 * inject_Z h2
       /\ config.WANDER_SPEED (config.adapt_to_screen h2 c) * 1280 == 1.5 * inject_Z h2
       /\ config.NEAR_DISTANCE (config.adapt_to_screen h2 c) * 1280 == 80 * inject_Z h2
       /\ config.FAR_DISTANCE (config.adapt_to_screen h2 c) * 1280 == 250 * inject_Z h2
       /\ config.WANDER_RADIUS (config.adapt_to_screen h2 c) * 1280 == 80 * inject_Z h2
       /\ config.SEAL_WANDER_RADIUS (config.adapt_to_screen h2 c) * 1280 == 120 * inject_Z h2
       /\ config.MOUSE_MOVE_THRESHOLD (config.adapt_to_screen h2 c) * 1280 == 5 * inject_Z h2)
      /\ ((0 < h2)%Z ->
          config.NEAR_DISTANCE (config.adapt_to_screen h2 c)
          < config.FAR_DISTANCE (config.adapt_to_screen h2 c)
          /\ 0 < config.WANDER_SPEED (config.adapt_to_screen h2 c)
          /\ config.WANDER_SPEED (config.adapt_to_screen h2 c)
             < config.MOVE_SPEED (config.adapt_to_screen h2 c)
          /\ 0 < config.MOUSE_MOVE_THRESHOLD (config.adapt_to_screen h2 c))
      /\ (h2 = 1280%Z ->
          config.SPRITE_SCALE (config.adapt_to_screen h2 c) == 0.35
          /\ config.MOVE_SPEED (config.adapt_to_screen h2 c) == 4
          /\ config.WANDER_SPEED (config.adapt_to_screen h2 c) == 1.5
          /\ config.NEAR_DISTANCE (config.adapt_to_screen h2 c) == 80
          /\ config.FAR_DISTANCE (config.adapt_to_screen h2 c) == 250
          /\ config.WANDER_RADIUS (config.adapt_to_screen h2 c) == 80
          /\ config.SEAL_WANDER_RADIUS (config.adapt_to_screen h2 c) == 120
          /\ config.MOUSE_MOVE_THRESHOLD (config.adapt_to_screen h2 c) == 5))
  /\ (config.GIF_MOVE (config.adapt_to_screen h2 c) = config.GIF_MOVE c
      /\ config.GIF_DRAG (config.adapt_to_screen h2 c) = config.GIF_DRAG c
      /\ config.GIF_SEAL (config.adapt_to_screen h2 c) = config.GIF_SEAL c
      /\ config.GIF_IDLE (config.adapt_to_screen h2 c) = config.GIF_IDLE c
      /\ config.GIF_IDLE2 (config.adapt_to_screen h2 c) = config.GIF_IDLE2 c
      /\ config.WANDER_DURATION_MIN (config.adapt_to_screen h2 c) = config.WANDER_DURATION_MIN c
      /\ config.WANDER_DURATION_MAX (config.adapt_to_screen h2 c) = config.WANDER_DURATION_MAX c
      /\ config.WANDER_DIR_CHANGE_MIN (config.adapt_to_screen h2 c) = config.WANDER_DIR_CHANGE_MIN c
      /\ config.WANDER_DIR_CHANGE_MAX (config.adapt_to_screen h2 c) = config.WANDER_DIR_CHANGE_MAX c
      /\ config.IDLE_MIN_DURATION (config.adapt_to_screen h2 c) = config.IDLE_MIN_DURATION c
      /\ config.IDLE_MAX_DURATION (config.adapt_to_screen h2 c) = config.IDLE_MAX_DURATION c
      /\ config.MOUSE_IDLE_T1 (config.adapt_to_screen h2 c) = config.MOUSE_IDLE_T1 c
      /\ config.MOUSE_IDLE_T2 (config.adapt_to_screen h2 c) = config.MOUSE_IDLE_T2 c
      /\ config.IDLE2_RAMP_DURATION (config.adapt_to_screen h2 c) = config.IDLE2_RAMP_DURATION c
      /\ config.REFERENCE_SCREEN_HEIGHT (config.adapt_to_screen h2 c) = config.REFERENCE_SCREEN_HEIGHT c
      /\ config.TICK_INTERVAL (config.adapt_to_screen h2 c) = config.TICK_INTERVAL c).
Proof.
  split; [reflexivity |].
  split; [| repeat split].
  intros R. unfold config.adapt_to_screen.
  cbn [config.SPRITE_SCALE config.MOVE_SPEED config.WANDER_SPEED config.NEAR_DISTANCE
       config.FAR_DISTANCE config.WANDER_RADIUS config.SEAL_WANDER_RADIUS
       config.MOUSE_MOVE_THRESHOLD config.base].
  rewrite R.
  assert (P : forall z : Z, (0 < z)%Z -> 0 < inject_Z z)
    by (intros z Hz; change (inject_Z 0 < inject_Z z); rewrite <- Zlt_Qlt; exact Hz).
  split; [| split].
  - do 7 (split; [lra_div |]). lra_div.
  - intros Hh. specialize (P h2 Hh). do 3 (split; [lra_div |]). lra_div.
  - intros ->. do 7 (split; [reflexivity |]). reflexivity.
Qed.

(** A screen 1080 pixels high: the thresholds keep their order, and the
    sprite scale becomes [0.35 * 1080 / 1280]. *)
Lemma adapt_to_screen_recomputes_witness :
  config.REFERENCE_SCREEN_HEIGHT config.base = 1280%Z /\ (0 < 1080)%Z
  /\ config.NEAR_DISTANCE (config.adapt_to_screen 1080 config.base)
     < config.FAR_DISTANCE (config.adapt_to_screen 1080 config.base)
  /\ config.SPRITE_SCALE (config.adapt_to_screen 1080 config.base) * 1280
     == 0.35 * inject_Z 1080.
Proof.
  split; [reflexivity | split; [reflexivity |]].
  destruct (adapt_to_screen_recomputes 720 1080 config.base) as (_ & H & _).
  destruct (H eq_refl) as (H0 & H1 & _).
  split; [exact (proj1 (H1 eq_refl)) | exact (proj1 H0)].
Defined.

(** ** Sprites *)

Section Sprites.

Import app.

(** X12. Centring a sprite and reading its centre back gives the requested
    point, shifted by half a pixel along each axis whose size is odd. *)
Theorem center_pos_move_center_to (w : SpriteWidget) (cx cy : Z) :
  fst (center_pos (move_center_to w cx cy))
  == inject_Z cx + inject_Z (width w mod 2) / 2
  /\ snd (center_pos (move_center_to w cx cy))
     == inject_Z cy + inject_Z (height w mod 2) / 2
  /\ (0 <= width w mod 2 <= 1)%Z /\ (0 <= height w mod 2 <= 1)%Z.
Proof.
  assert (E : forall c s : Z,
             inject_Z (c - s / 2) + inject_Z s / 2.0
             == inject_Z c + inject_Z (s mod 2) / 2).
  { intros c s.
    assert (Hs : inject_Z s == 2 * inject_Z (s / 2) + inject_Z (s mod 2)).
    { change 2 with (inject_Z 2). rewrite <- inject_Z_mult, <- inject_Z_plus.
      rewrite <- (Z.div_mod s 2) by lia. reflexivity. }
    unfold Z.sub. rewrite inject_Z_plus, inject_Z_opp.
    generalize dependent (inject_Z s). generalize (inject_Z (s / 2)).
    generalize (inject_Z (s mod 2)). generalize (inject_Z c).
    intros a m q S Hs. lra_div. }
  unfold center_pos, move_center_to. cbn [fst snd pos_x pos_y width height].
  repeat split; try apply E;
    first [apply Z.mod_pos_bound; lia
          | pose proof (Z.mod_pos_bound (width w) 2); lia
          | pose proof (Z.mod_pos_bound (height w) 2); lia].
Qed.

End Sprites.

Section Animations.

Import sprite.

(** X13. [set_animation] makes the sprite show the requested animation and
    orientation; repeating the call changes nothing further; the movie is
    restarted exactly when the path differs from the current one; and
    [set_flipped] is [set_animation] with the current path. *)
Theorem set_animation_settles (w : Animation) (gif_path : string) (flipped : bool) :
  (_current_path (set_animation w gif_path flipped) = gif_path
   /\ _flipped (set_animation w gif_path flipped) = flipped)
  /\ set_animation (set_animation w gif_path flipped) gif_path flipped
     = set_animation w gif_path flipped
  /\ movie_starts (set_animation w gif_path flipped)
     = (if String.eqb gif_path (_current_path w) then movie_starts w
        else S (movie_starts w))
  /\ set_flipped w flipped = set_animation w (_current_path w) flipped.
Proof.
  unfold set_animation, set_flipped. cbv zeta. rewrite String.eqb_refl.
  destruct (String.eqb gif_path (_current_path w)) eqn:E;
    destruct (Bool.eqb flipped (_flipped w)) eqn:B;
    cbn [andb negb _current_path _flipped movie_starts renders];
    rewrite ?E, ?B, ?String.eqb_refl, ?Bool.eqb_reflx; cbn [andb negb];
    try (apply String.eqb_eq in E); try (apply Bool.eqb_prop in B);
    repeat split; congruence.
Qed.

End Animations.

(** ** Raw mouse packets *)

Section Packets.

Import cursor cursor.WaylandHybridCursor ps2.

Lemma header_bits (m : Motion) :
  has_bits (hd 0%Z (packet m)) 16 = (dx m <? 0)%Z
  /\ has_bits (hd 0%Z (packet m)) 32 = (dy m <? 0)%Z
  /\ has_bits (hd 0%Z (packet m)) 1 = left_button m.
Proof.
  unfold packet. cbn [hd].
  destruct (left_button m), (right_button m), (middle_button m),
    (dx m <? 0)%Z, (dy m <? 0)%Z; repeat split.
Qed.

Lemma nine_bit_decode (v : Z) :
  (-256 <= v <= 255)%Z ->
  (if (v <? 0)%Z then v mod 256 - 256 else v mod 256)%Z = v.
Proof.
  intros H. destruct (Z.ltb_spec v 0).
  - assert (E : (v mod 256 = v + 256)%Z)
      by (symmetry; apply (Z.mod_unique v 256 (-1)); lia).
    lia.
  - apply Z.mod_small. lia.
Qed.

Lemma _read_mice_loop_decodes (ms : list Motion) (tx ty : Z) (btn : bool) :
  Forall in_range ms ->
  _read_mice_loop (map packet ms) tx ty btn
  = ((tx + sum_dx ms)%Z, (ty - sum_dy ms)%Z, last_left ms btn).
Proof.
  intros H. revert tx ty btn.
  induction H as [| m ms [Hx Hy] _ IH]; intros tx ty btn.
  - cbn. rewrite Z.add_0_r, Z.sub_0_r. reflexivity.
  - destruct (header_bits m) as (Bx & By & Bl).
    cbn [map]. unfold packet in *. cbn [hd] in Bx, By, Bl.
    cbn [_read_mice_loop]. rewrite Bx, By, Bl.
    rewrite (nine_bit_decode _ Hx), (nine_bit_decode _ Hy), IH.
    cbn [sum_dx sum_dy fold_right last_left fold_left].
    unfold sum_dx, sum_dy. f_equal. f_equal; lia.
Qed.

Lemma _read_mice_loop_short (packets : list (Z * Z * Z)) (short : list Z)
      (rest : list (list Z)) (tx ty : Z) (btn : bool) :
  (List.length short < 3)%nat ->
  _read_mice_loop (map sample_spec.packet_bytes packets ++ short :: rest) tx ty btn
  = _read_mice_loop (map sample_spec.packet_bytes packets) tx ty btn.
Proof.
  intros Hs. revert tx ty btn.
  induction packets as [| [[b x] y] ps IH]; intros tx ty btn.
  - cbn [map app _read_mice_loop].
    destruct short as [| a [| b [| c [| d l]]]]; try reflexivity;
      cbn [List.length] in Hs; lia.
  - cbn [map app sample_spec.packet_bytes _read_mice_loop]. apply IH.
Qed.

(** X14. [_read_mice] decodes what the device reports.  Draining the packets
    of any sequence of reports whose movements fit nine bits yields the sum
    of the X movements, the negated sum of the Y movements (screen Y grows
    downwards) and the left button of the last report, whatever the other
    buttons; and a read shorter than three bytes ends the drain, the bytes
    of that read and anything behind it being left out of the result. *)
Theorem _read_mice_decodes (ms : list Motion) :
  Forall in_range ms ->
  _read_mice (map packet ms) = (sum_dx ms, (- sum_dy ms)%Z, last_left ms false)
  /\ (forall short rest,
        (List.length short < 3)%nat ->
        _read_mice (map packet ms ++ short :: rest) = _read_mice (map packet ms)).
Proof.
  intros H. split.
  - unfold _read_mice. rewrite (_read_mice_loop_decodes ms 0 0 false H). reflexivity.
  - intros short rest Hs. unfold _read_mice.
    assert (E : map packet ms
                = map sample_spec.packet_bytes
                    (map (fun m => (hd 0%Z (packet m), (dx m mod 256)%Z, (dy m mod 256)%Z))
                         ms)).
    { rewrite map_map. apply map_ext. intros m. reflexivity. }
    rewrite E. apply _read_mice_loop_short, Hs.
Qed.

End Packets.

(** Ten counts left and up with the right button held, then three counts
    right with the left button held. *)
Lemma _read_mice_decodes_witness :
  Forall ps2.in_range [ps2.mkMotion false true false (-10) 10;
                       ps2.mkMotion true false false 3 0]
  /\ cursor.WaylandHybridCursor._read_mice
       (map ps2.packet [ps2.mkMotion false true false (-10) 10;
                        ps2.mkMotion true false false 3 0])
     = ((-7)%Z, (-10)%Z, true).
Proof.
  assert (H : Forall ps2.in_range [ps2.mkMotion false true false (-10) 10;
                                   ps2.mkMotion true false false 3 0])
    by (repeat constructor; cbn; lia).
  split; [exact H |].
  exact (proj1 (_read_mice_decodes _ H)).
Defined.

(** ** The Hyprland reply *)

Section HyprlandReply.

Import cursor cursor.HyprlandCursor hypr_spec.

Lemma split_comma_nonempty (s : string) : split_comma s <> [].
Proof.
  destruct s as [| c rest]; cbn [split_comma]; [discriminate |].
  destruct (Ascii.eqb c ","); [discriminate |].
  destruct (split_comma rest); discriminate.
Qed.

Lemma split_comma_free (s : string) : comma_free s = true -> split_comma s = [s].
Proof.
  induction s as [| c rest IH]; cbn [comma_free split_comma]; [reflexivity |].
  intros H. apply andb_true_iff in H as [Hc Hr].
  apply negb_true_iff in Hc. rewrite Hc, (IH Hr). reflexivity.
Qed.

Lemma split_comma_join (a b : string) :
  comma_free a = true ->
  split_comma (a ++ "," ++ b) = a :: split_comma b.
Proof.
  induction a as [| c rest IH]; cbn [comma_free]; intros H.
  - reflexivity.
  - apply andb_true_iff in H as [Hc Hr]. apply negb_true_iff in Hc.
    cbn [String.append split_comma] in *. rewrite Hc, (IH Hr). reflexivity.
Qed.

Lemma split_comma_shape (s : string) :
  Forall (fun w => comma_free w = true) (split_comma s)
  /\ String.concat "," (split_comma s) = s.
Proof.
  induction s as [| c rest [IHf IHc]]; cbn [split_comma].
  - split; [repeat constructor | reflexivity].
  - pose proof (split_comma_nonempty rest) as N.
    destruct (Ascii.eqb c ",") eqn:Hc.
    + apply Ascii.eqb_eq in Hc. subst c. split.
      * constructor; [reflexivity | exact IHf].
      * destruct (split_comma rest) as [| w ws]; [congruence |].
        cbn [String.concat] in *. rewrite IHc. reflexivity.
    + destruct (split_comma rest) as [| w ws]; [congruence |].
      apply Forall_cons_iff in IHf as [Hw Hws]. split.
      * constructor; [| exact Hws]. cbn [comma_free]. rewrite Hc, Hw. reflexivity.
      * destruct ws as [| w' ws']; cbn [String.concat String.append] in *;
          rewrite IHc; reflexivity.
Qed.

Lemma split_comma_two (s a b : string) :
  split_comma s = [a; b]
  <-> s = (a ++ "," ++ b)%string /\ comma_free a = true /\ comma_free b = true.
Proof.
  split.
  - intros E. destruct (split_comma_shape s) as [Hf Hc]. rewrite E in Hf, Hc.
    apply Forall_cons_iff in Hf as [Ha Hf']. apply Forall_cons_iff in Hf' as [Hb _].
    repeat split; assumption || (symmetry; exact Hc).
  - intros (-> & Ha & Hb). rewrite (split_comma_join a b Ha), (split_comma_free b Hb).
    reflexivity.
Qed.

(** X15. What [_get_pos] accepts.  It returns a position exactly when the
    socket replied with two comma-free texts joined by one comma that both
    read as numbers, and the position is then that pair of numbers; [query]
    passes such a position on with the button reported as released, and
    answers any failure of [_get_pos], whatever the exception, with
    [(0.0, 0.0, False)]. *)
Theorem _get_pos_accepts (h : Host) (_socket_path : string) :
  (forall vx vy,
     _get_pos h _socket_path = py.Returns (vx, vy)
     <-> exists a b,
           hyprland_ipc h _socket_path = IpcReply (a ++ "," ++ b)
           /\ comma_free a = true /\ comma_free b = true
           /\ float_of_str h a = Some vx /\ float_of_str h b = Some vy)
  /\ (forall vx vy,
        _get_pos h _socket_path = py.Returns (vx, vy) ->
        query h _socket_path = (vx, vy, false))
  /\ (forall e,
        _get_pos h _socket_path = py.Raises e ->
        query h _socket_path = (0.0, 0.0, false)).
Proof.
  split; [| split].
  - intros vx vy. unfold _get_pos. split.
    + destruct (hyprland_ipc h _socket_path) as [errno | | resp]; try discriminate.
      destruct (split_comma resp) as [| a [| b [| c l]]] eqn:E; try discriminate.
      destruct (float_of_str h a) as [fx |] eqn:Fa; try discriminate.
      destruct (float_of_str h b) as [fy |] eqn:Fb; try discriminate.
      intros R. injection R as -> ->.
      apply split_comma_two in E as (-> & Ha & Hb).
      exists a, b. repeat split; assumption.
    + intros (a & b & -> & Ha & Hb & Fa & Fb).
      rewrite (proj2 (split_comma_two _ a b) (conj eq_refl (conj Ha Hb))), Fa, Fb.
      reflexivity.
  - intros vx vy E. unfold query. rewrite E. reflexivity.
  - intros e E. unfold query. rewrite E. reflexivity.
Qed.

End HyprlandReply.

(** ** The selection chain *)

Section Selection.

Import cursor selection_spec.

Variable h : Host.

Ltac try_each :=
  repeat match goal with
         | |- context [construct h ?c] =>
             lazymatch c with
             | _QtCursor => fail
             | _ => destruct (construct h c)
             end
         end.

Lemma create_cursor_tracker_candidates :
  create_cursor_tracker h = first_success h (candidates h) [].
Proof.
  unfold create_cursor_tracker, candidates, wayland_session, desktop. cbv zeta.
  destruct (String.eqb (sys_platform h) "win32");
    [| destruct (String.eqb (sys_platform h) "linux");
       [ destruct (py.truthy (environ h "WAYLAND_DISPLAY")
                   || match environ h "XDG_SESSION_TYPE" with
                      | Some v => String.eqb v "wayland"
                      | None => false
                      end);
         [ destruct (py.truthy (environ h "HYPRLAND_INSTANCE_SIGNATURE"));
           destruct (any_in ["GNOME"; "UBUNTU"; "POP"; "UNITY"]%string _);
           destruct (any_in ["KDE"; "PLASMA"]%string _) |] |] ];
    unfold seq, when, try_return_new, return_new, pass;
    cbn [app first_success];
    try_each; reflexivity.
Qed.

Lemma candidates_priority : subseq (candidates h) priority.
Proof.
  unfold candidates, priority.
  destruct (String.eqb (sys_platform h) "win32");
    [| destruct (String.eqb (sys_platform h) "linux");
       [ destruct (wayland_session h);
         [ destruct (py.truthy (environ h "HYPRLAND_INSTANCE_SIGNATURE"));
           destruct (any_in ["GNOME"; "UBUNTU"; "POP"; "UNITY"]%string _);
           destruct (any_in ["KDE"; "PLASMA"]%string _) |] |] ];
    cbn [app];
    repeat (first [apply subseq_nil | apply subseq_take | apply subseq_skip]).
Qed.

Lemma candidates_end : exists front, candidates h = front ++ [_QtCursor].
Proof.
  unfold candidates.
  destruct (String.eqb (sys_platform h) "win32"); [exists [_Win32Cursor]; reflexivity |].
  destruct (String.eqb (sys_platform h) "linux"); [| exists []; reflexivity].
  match goal with
  | |- context [?l ++ [_X11Cursor; _QtCursor]] => exists (l ++ [_X11Cursor])
  end.
  rewrite <- app_assoc. reflexivity.
Qed.

Lemma first_success_attempts (cs : list Class) (log : Log) :
  exists k, map fst (fst (first_success h cs log)) = map fst log ++ firstn k cs.
Proof.
  revert log. induction cs as [| c rest IH]; intros log.
  - exists 0%nat. cbn. rewrite app_nil_r. reflexivity.
  - cbn [first_success]. destruct (construct h c).
    + exists 1%nat. cbn [fst firstn]. rewrite map_app. reflexivity.
    + destruct (IH (log ++ [(c, false)])) as [k Hk]. exists (S k).
      rewrite Hk, map_app, <- app_assoc. reflexivity.
Qed.

(** X16. The selection chain is a first-success search.  The nested
    conditionals of [create_cursor_tracker] behave as trying, in order, the
    constructors of a candidate list fixed by the platform and the
    environment alone, and returning the first instance constructed: the
    classes attempted are an initial segment of that list, the list respects
    one fixed priority (Win32, Hyprland, GNOME, KDE, hybrid, X11, Qt) and
    always ends with the Qt fallback. *)
Theorem create_cursor_tracker_first_success :
  create_cursor_tracker h = first_success h (candidates h) []
  /\ (exists k, map fst (fst (create_cursor_tracker h)) = firstn k (candidates h))
  /\ subseq (candidates h) priority
  /\ exists front, candidates h = front ++ [_QtCursor].
Proof.
  split; [exact create_cursor_tracker_candidates |].
  split; [| split; [exact candidates_priority | exact candidates_end]].
  rewrite create_cursor_tracker_candidates.
  exact (first_success_attempts (candidates h) []).
Qed.

Lemma attempts_are_candidates (c : Class) (ok : bool) :
  In (c, ok) (fst (create_cursor_tracker h)) -> In c (candidates h).
Proof.
  intros H. apply (in_map fst) in H. cbn [fst] in H.
  rewrite create_cursor_tracker_candidates in H.
  destruct (first_success_attempts (candidates h) []) as [k Hk].
  rewrite Hk in H. cbn [map app] in H.
  rewrite <- (firstn_skipn k (candidates h)). apply in_or_app. left. exact H.
Qed.

(** X17. Every backend is gated by the environment.  A constructor that
    [create_cursor_tracker] calls, whether it succeeds or not, is allowed by
    the platform and the session: Win32 only on Windows; X11 only on Linux;
    the hybrid tracker only on a Linux Wayland session; and Hyprland, GNOME
    and KDE only there and only when their own environment test holds. *)
Theorem backends_gated_by_environment (c : Class) (ok : bool) :
  In (c, ok) (fst (create_cursor_tracker h)) ->
  match c with
  | _Win32Cursor => sys_platform h = "win32"%string
  | _HyprlandCursor =>
      sys_platform h = "linux"%string /\ wayland_session h = true
      /\ py.truthy (environ h "HYPRLAND_INSTANCE_SIGNATURE") = true
  | _GnomeCursor =>
      sys_platform h = "linux"%string /\ wayland_session h = true
      /\ any_in ["GNOME"; "UBUNTU"; "POP"; "UNITY"]%string (desktop h) = true
  | _KDECursor =>
      sys_platform h = "linux"%string /\ wayland_session h = true
      /\ any_in ["KDE"; "PLASMA"]%string (desktop h) = true
  | _WaylandHybridCursor => sys_platform h = "linux"%string /\ wayland_session h = true
  | _X11Cursor => sys_platform h = "linux"%string
  | _QtCursor => True
  end.
Proof.
  intros H. apply attempts_are_candidates in H. revert H.
  unfold candidates.
  destruct (String.eqb (sys_platform h) "win32") eqn:W.
  { apply String.eqb_eq in W.
    intros [<- | [<- | []]]; [exact W | exact I]. }
  destruct (String.eqb (sys_platform h) "linux") eqn:X.
  2: { intros [<- | []]. exact I. }
  apply String.eqb_eq in X.
  destruct (wayland_session h) eqn:Y.
  2: { intros [<- | [<- | []]]; [exact X | exact I]. }
  destruct (py.truthy (environ h "HYPRLAND_INSTANCE_SIGNATURE")) eqn:Hy;
    destruct (any_in ["GNOME"; "UBUNTU"; "POP"; "UNITY"]%string (desktop h)) eqn:Gn;
    destruct (any_in ["KDE"; "PLASMA"]%string (desktop h)) eqn:Kd;
    cbn [app In]; intros H;
    repeat (destruct H as [<- | H]; [repeat split; assumption || exact I |]);
    destruct H.
Qed.

End Selection.

(** ** The GNOME tracker *)

Section Gnome.

Import cursor cursor.GnomeCursor.

Variable h : Host.

(** X18. How [_GnomeCursor.__init__] settles on a transport.  The new
    instance uses the [gi] bindings exactly when the session bus could be
    obtained and the smoke test over it succeeded; in every other case the
    [gdbus] tool is smoke-tested instead, the failure of the [gi] path is
    swallowed, and the constructor raises exactly what that second smoke
    test raises.  An instance that was constructed answers the query of its
    smoke test: on an unchanged host its first [query] is not the degraded
    [(0.0, 0.0, False)] fallback but the reply of the chosen transport. *)
Theorem gnome_init_transport :
  (__init__ h = py.Returns true
   <-> gi_session_bus h = None /\ exists s, _query_gi h = py.Returns s)
  /\ (forall e,
        __init__ h = py.Raises e
        <-> (gi_session_bus h <> None \/ exists e', _query_gi h = py.Raises e')
            /\ _query_subprocess h = py.Raises e)
  /\ (forall _use_gi,
        __init__ h = py.Returns _use_gi ->
        (if _use_gi then _query_gi h else _query_subprocess h)
        = py.Returns (query h _use_gi)).
Proof.
  unfold __init__, query, py.try_except, py.bind.
  destruct (gi_session_bus h) as [e0 |];
    destruct (_query_gi h) as [s | e1];
    destruct (_query_subprocess h) as [s' | e2];
    (split; [| split]);
    try (split; [discriminate || (intros; split; [reflexivity | eexists; reflexivity])
                | intros [A [s0 B]]; congruence]);
    try (intros e; split;
         [ discriminate
           || (intros E; injection E as <-; split;
               [ first [left; discriminate | right; eexists; reflexivity]
               | reflexivity ])
         | intros [[A | [e' A]] B]; congruence ]);
    try (intros [|]; (discriminate || reflexivity)).
Qed.

End Gnome.

(** ** Forcing the xcb platform *)

Section Startup.

Import cursor selection_spec startup.

Lemma with_environ_same (h : Host) : with_environ h (environ h) = h.
Proof. destruct h. reflexivity. Qed.

Lemma construct_ignores_platform_variable (h : Host) (v : string) (c : Class) :
  construct (with_environ h (setitem (environ h) "QT_QPA_PLATFORM" v)) c = construct h c.
Proof. destruct h, c; reflexivity. Qed.

Lemma first_success_ignores_platform_variable (h : Host) (v : string)
      (cs : list Class) (log : Log) :
  first_success (with_environ h (setitem (environ h) "QT_QPA_PLATFORM" v)) cs log
  = first_success h cs log.
Proof.
  revert log. induction cs as [| c rest IH]; intros log; cbn [first_success].
  - reflexivity.
  - rewrite construct_ignores_platform_variable, IH. reflexivity.
Qed.

Lemma create_ignores_platform_variable (h : Host) (v : string) :
  create_cursor_tracker (with_environ h (setitem (environ h) "QT_QPA_PLATFORM" v))
  = create_cursor_tracker h.
Proof.
  rewrite !create_cursor_tracker_candidates.
  assert (E : candidates (with_environ h (setitem (environ h) "QT_QPA_PLATFORM" v))
              = candidates h) by (destruct h; reflexivity).
  rewrite E. apply first_success_ignores_platform_variable.
Qed.

(** X19. [_ensure_xcb_on_wayland] and the factory agree.  The start-up code
    sets [QT_QPA_PLATFORM] to [xcb] exactly on the sessions on which
    [create_cursor_tracker] takes its Wayland branch, although the two
    functions spell the test differently; it touches no other variable; and
    the factory, which runs after it, selects the same tracker after the
    same attempts as it would on the untouched environment. *)
Theorem _ensure_xcb_on_wayland_agrees (h : Host) :
  (forall k,
     _ensure_xcb_on_wayland h k
     = if String.eqb (sys_platform h) "linux" && wayland_session h
          && String.eqb k "QT_QPA_PLATFORM"
       then Some "xcb"%string
       else environ h k)
  /\ create_cursor_tracker (with_environ h (_ensure_xcb_on_wayland h))
     = create_cursor_tracker h.
Proof.
  split.
  - intros k. unfold _ensure_xcb_on_wayland, wayland_session, get, setitem, py.truthy.
    cbv zeta.
    destruct (String.eqb (sys_platform h) "linux"); cbn [negb andb]; [| reflexivity].
    destruct (environ h "XDG_SESSION_TYPE") as [s |];
      destruct (environ h "WAYLAND_DISPLAY") as [w |];
      cbn [negb orb andb];
      try destruct (String.eqb s "wayland");
      try destruct (String.eqb w "");
      change (String.eqb "" "wayland") with false;
      cbn [negb orb andb]; cbv beta;
      destruct (String.eqb k "QT_QPA_PLATFORM"); reflexivity.
  - unfold _ensure_xcb_on_wayland. cbv zeta.
    destruct (negb (String.eqb (sys_platform h) "linux"));
      [rewrite with_environ_same; reflexivity |].
    destruct (String.eqb _ "wayland" || _);
      [apply create_ignores_platform_variable | rewrite with_environ_same; reflexivity].
Qed.

End Startup.

(** ** The hybrid tracker over whole sessions *)

Section HybridSessions.

Import cursor cursor.WaylandHybridCursor hybrid_spec hybrid_inv.

Context {L : Libm}.

Lemma x11_changed_dec (self : t) (ptr : XPointer) : {stale self ptr} + {~ stale self ptr}.
Proof.
  destruct (py.neb (inject_Z (root_x ptr) - _last_x11_x self) 0.0
            || py.neb (inject_Z (root_y ptr) - _last_x11_y self) 0.0) eqn:C.
  - right. intros S. apply x11_changed_stale in S. congruence.
  - left. apply x11_changed_stale, C.
Qed.

Lemma query_fresh_fields (self : t) (reads : list (list Z)) (ptr : XPointer) :
  ~ stale self ptr ->
  let self' := fst (query self reads ptr) in
  _x self' = inject_Z (root_x ptr) /\ _y self' = inject_Z (root_y ptr)
  /\ _screen_w self' = _screen_w self /\ _screen_h self' = _screen_h self
  /\ _sensitivity self'
     = (if py.gtb (hypot (inject_Z (fst (raw_delta reads)))
                         (inject_Z (snd (raw_delta reads)))) 3.0
        then 0.85 * _sensitivity self
             + 0.15 * (hypot (inject_Z (root_x ptr) - _last_x11_x self)
                             (inject_Z (root_y ptr) - _last_x11_y self)
                       / hypot (inject_Z (fst (raw_delta reads)))
                               (inject_Z (snd (raw_delta reads))))
        else _sensitivity self).
Proof.
  intros Hf. cbv zeta.
  assert (C : py.neb (inject_Z (root_x ptr) - _last_x11_x self) 0.0
              || py.neb (inject_Z (root_y ptr) - _last_x11_y self) 0.0 = true).
  { apply not_false_is_true. intros F. apply Hf, x11_changed_stale, F. }
  unfold query, raw_delta.
  destruct (_read_mice reads) as [[raw_dx raw_dy] btn]. cbn [fst snd].
  rewrite C. cbn [fst _x _y _screen_w _screen_h _sensitivity].
  do 4 (split; [reflexivity |]).
  destruct (py.gtb _ 3.0); reflexivity.
Qed.

Lemma query_keeps_on_screen (self : t) (reads : list (list Z)) (ptr : XPointer) :
  in_bounds self -> reply_on_screen self ptr ->
  let self' := fst (query self reads ptr) in
  in_bounds self'
  /\ _screen_w self' = _screen_w self /\ _screen_h self' = _screen_h self.
Proof.
  intros Hb Hr. cbv zeta.
  destruct (x11_changed_dec self ptr) as [S | F].
  - destruct (query_stale_in_bounds self reads ptr S Hb)
      as (_ & _ & _ & _ & _ & Ew & Eh & Hb').
    repeat split; solve [apply Hb' | assumption].
  - destruct (query_fresh_fields self reads ptr F) as (Ex & Ey & Ew & Eh & _).
    unfold in_bounds. rewrite Ex, Ey, Ew, Eh.
    split; [exact Hr | split; reflexivity].
Qed.

(** X20. The hybrid tracker never leaves the display.  Started within the
    bounds of the display it recorded, and given pointer replies that lie on
    that display, the tracker is within the bounds after any sequence of
    queries, fresh and stale in any order and with any raw deltas, and every
    sample it returned lies on the display. *)
Theorem hybrid_stays_on_screen (script : Script) (self : t) :
  in_bounds self ->
  Forall (fun step => reply_on_screen self (snd step)) script ->
  in_bounds (queries self script)
  /\ Forall (on_screen (_screen_w self) (_screen_h self)) (samples self script).
Proof.
  revert self. induction script as [| [reads ptr] rest IH]; intros self Hb Hs.
  - split; [exact Hb | constructor].
  - apply Forall_cons_iff in Hs as [H1 H2]. cbn [snd] in H1.
    destruct (query_keeps_on_screen self reads ptr Hb H1) as (Hb' & Ew & Eh).
    assert (H2' : Forall (fun step => reply_on_screen (fst (query self reads ptr)) (snd step))
                         rest).
    { revert H2. apply Forall_impl. intros step. unfold reply_on_screen.
      rewrite Ew, Eh. exact (fun H => H). }
    destruct (IH _ Hb' H2') as [Hq Hl].
    cbn [queries samples]. split; [exact Hq |].
    constructor.
    + unfold on_screen. rewrite (query_sample_position self reads ptr). cbn [fst snd].
      rewrite <- Ew, <- Eh. exact Hb'.
    + rewrite <- Ew, <- Eh. exact Hl.
Qed.

Lemma query_stale_sensitivity (self : t) (reads : list (list Z)) (ptr : XPointer) :
  stale self ptr -> _sensitivity (fst (query self reads ptr)) = _sensitivity self.
Proof.
  intros S. destruct (raw_delta_dec reads) as [E | N].
  - rewrite (query_stale_still _ _ _ S E). reflexivity.
  - rewrite (query_stale_moving _ _ _ S N). reflexivity.
Qed.

Hypothesis hypot_nonneg : forall a b, 0 <= hypot a b.

Lemma query_sensitivity (self : t) (reads : list (list Z)) (ptr : XPointer) :
  0 < _sensitivity self ->
  0.85 * _sensitivity self <= _sensitivity (fst (query self reads ptr)).
Proof.
  intros Hp.
  destruct (x11_changed_dec self ptr) as [S | F].
  - rewrite (query_stale_sensitivity self reads ptr S). lra.
  - destruct (query_fresh_fields self reads ptr F) as (_ & _ & _ & _ & E).
    rewrite E. clear E.
    destruct (py.gtb _ 3.0) eqn:G; [| lra].
    apply gtb_gt in G.
    set (raw := hypot (inject_Z (fst (raw_delta reads))) (inject_Z (snd (raw_delta reads))))
      in *.
    set (actual := hypot _ _).
    assert (Ha : 0 <= actual) by apply hypot_nonneg.
    assert (Hi : 0 < / raw) by (apply Qinv_lt_0_compat; lra).
    assert (Hr : 0 <= actual / raw).
    { unfold Qdiv. apply Qmult_le_0_compat; [exact Ha | lra]. }
    lra.
Qed.

(** X21. The calibrated sensitivity stays positive.  With a [hypot] that
    is never negative, one query lowers the sensitivity to no less than
    [0.85] times its value, so a tracker whose sensitivity is positive, as
    it is after construction, keeps a positive sensitivity through any
    sequence of queries: extrapolated motion never stops or reverses
    against the raw deltas. *)
Theorem hybrid_sensitivity_positive (script : Script) (self : t) :
  0 < _sensitivity self ->
  0 < _sensitivity (queries self script)
  /\ (forall reads ptr,
        0.85 * _sensitivity self <= _sensitivity (fst (query self reads ptr))).
Proof.
  intros Hp. split; [| intros reads ptr; apply query_sensitivity, Hp].
  revert self Hp. induction script as [| [reads ptr] rest IH]; intros self Hp.
  - exact Hp.
  - cbn [queries]. apply IH.
    pose proof (query_sensitivity self reads ptr Hp). lra.
Qed.

End HybridSessions.

(** ** The handles of the hybrid tracker *)

Section Handles.

Import cursor hybrid_handles.

Variable h : Host.

(** X22. What a failed construction of the hybrid tracker leaves open.  The
    traced constructor returns and raises what [__init__] does.  When
    loading libX11 does not raise, a failed construction leaves no
    descriptor and no display open: the mouse device is closed again before
    the error for a missing library or display is raised.  When the library
    is found but loading it raises, that exception leaves the constructor
    with the mouse device still open. *)
Theorem hybrid_init_descriptor :
  match snd (__init__ h), WaylandHybridCursor.__init__ h with
  | py.Returns (self, _), py.Returns self' => self = self'
  | py.Raises e, py.Raises e' => e = e'
  | _, _ => False
  end
  /\ (forall e,
        load_library h = None ->
        snd (__init__ h) = py.Raises e ->
        open_fds (fst (__init__ h)) [] = []
        /\ open_displays (fst (__init__ h)) 0 = 0%nat)
  /\ (forall fd lib e,
        mice_readable h = true ->
        mice_open h = py.Returns fd ->
        find_library_X11 h = Some lib ->
        load_library h = Some e ->
        __init__ h = ([os_open fd], py.Raises e)
        /\ open_fds (fst (__init__ h)) [] = [fd]).
Proof.
  unfold __init__, WaylandHybridCursor.__init__, py.bind.
  split; [| split].
  - destruct (mice_readable h); cbn [negb snd]; [| reflexivity].
    destruct (mice_open h) as [fd | e]; cbn [snd]; [| reflexivity].
    destruct (find_library_X11 h); cbn [snd]; [| reflexivity].
    destruct (load_library h); cbn [snd]; [reflexivity |].
    destruct (XOpenDisplay h); reflexivity.
  - intros e Hl. rewrite Hl.
    destruct (mice_readable h); cbn [negb snd fst]; [| split; reflexivity].
    destruct (mice_open h) as [fd | e']; cbn [snd fst]; [| split; reflexivity].
    assert (R : open_fds [os_open fd; os_close fd] [] = []).
    { cbn [open_fds List.remove]. destruct (Z.eq_dec fd fd); [reflexivity | congruence]. }
    destruct (find_library_X11 h); cbn [snd fst]; [| split; [exact R | reflexivity]].
    destruct (XOpenDisplay h); cbn [snd fst]; [discriminate |].
    split; [exact R | reflexivity].
  - intros fd lib e -> -> -> ->. split; reflexivity.
Qed.

(** X23. [close] releases what the constructor acquired, once.  After a
    successful construction, on a host whose [os.open] returns a descriptor
    that is not negative, [close] closes the display and the mouse device,
    so that over construction and [close] every handle opened is released;
    and a second [close] makes no call at all. *)
Theorem hybrid_close_releases (self : WaylandHybridCursor.t) (r : Handles) :
  (forall fd, mice_open h = py.Returns fd -> (0 <= fd)%Z) ->
  snd (__init__ h) = py.Returns (self, r) ->
  (exists d fd,
     _display r = Some d /\ _mice_fd r = fd
     /\ fst (close r) = [XCloseDisplay_call d; os_close fd])
  /\ open_fds (fst (__init__ h) ++ fst (close r)) [] = []
  /\ open_displays (fst (__init__ h) ++ fst (close r)) 0 = 0%nat
  /\ close (snd (close r)) = ([], snd (close r)).
Proof.
  intros Hfd. unfold __init__.
  destruct (mice_readable h); cbn [negb snd fst]; [| discriminate].
  destruct (mice_open h) as [fd | e'] eqn:Ho; cbn [snd fst]; [| discriminate].
  specialize (Hfd fd eq_refl).
  destruct (find_library_X11 h); cbn [snd fst]; [| discriminate].
  destruct (load_library h); cbn [snd fst]; [discriminate |].
  destruct (XOpenDisplay h) as [d |]; cbn [snd fst]; [| discriminate].
  intros E. injection E as _ <-.
  unfold close. cbn [_display _mice_fd].
  assert (P : (0 <=? fd)%Z = true) by (apply Z.leb_le; exact Hfd).
  rewrite P. cbn [fst snd app _display _mice_fd open_fds open_displays List.remove Nat.pred].
  split; [exists d, fd; repeat split |].
  split; [destruct (Z.eq_dec fd fd); [reflexivity | congruence] |].
  split; reflexivity.
Qed.

End Handles.

(** ** The animation of the pet sprite *)

Section Display.

Import sprite display.

Lemma set_animation_fields (w : Animation) (gif_path : string) (flipped : bool) :
  _current_path (set_animation w gif_path flipped) = gif_path
  /\ _flipped (set_animation w gif_path flipped) = flipped
  /\ (gif_path = _current_path w ->
      movie_starts (set_animation w gif_path flipped) = movie_starts w).
Proof.
  unfold set_animation. cbv zeta.
  destruct (String.eqb_spec gif_path (_current_path w)) as [E | E];
    destruct (Bool.eqb flipped (_flipped w)) eqn:B;
    cbn [andb _current_path _flipped movie_starts];
    try (apply Bool.eqb_prop in B);
    repeat split; congruence.
Qed.

Lemma __init___coherent (cfg : config.t) : coherent (__init__ cfg).
Proof. split; intros ? E; discriminate E. Qed.

Lemma update_animation_coherent (d : t) (p : pet.Pet) :
  coherent d ->
  coherent (update_animation d p) /\ shows (update_animation d p) p.
Proof.
  intros [Cg Cf]. unfold update_animation, shows. cbv zeta.
  destruct (differs String.eqb (pet.current_gif p) (_prev_gif d)
            || differs Bool.eqb (pet.flipped p) (_prev_flipped d)) eqn:D.
  - destruct (set_animation_fields (_pet_sprite d) (pet.current_gif p) (pet.flipped p))
      as (Ep & Ef & _).
    cbn [_pet_sprite]. split; [| split; assumption].
    split; cbn [_pet_sprite _prev_gif _prev_flipped]; intros ? E; injection E as <-;
      assumption.
  - apply orb_false_iff in D as [Dg Df]. split; [split; assumption |].
    unfold differs in Dg, Df.
    destruct (_prev_gif d) as [g |] eqn:Pg; [| discriminate].
    destruct (_prev_flipped d) as [f |] eqn:Pf; [| discriminate].
    apply negb_false_iff in Dg, Df.
    apply String.eqb_eq in Dg. apply Bool.eqb_prop in Df.
    rewrite (Cg g eq_refl), (Cf f eq_refl). split; congruence.
Qed.

Lemma fold_update_animation_coherent (ps : list pet.Pet) (d : t) :
  coherent d -> coherent (fold_left update_animation ps d).
Proof.
  revert d. induction ps as [| p rest IH]; intros d C; [exact C |].
  cbn [fold_left]. apply IH, update_animation_coherent, C.
Qed.

(** X24. The animation cache of [_tick] is transparent.  Whatever the pets
    of the earlier ticks were, after a tick the pet sprite shows the
    animation and the orientation of the current pet, although the sprite is
    only updated when the pet differs from the cached pair; and a tick whose
    pet keeps the animation the sprite already shows does not restart the
    movie. *)
Theorem animation_cache_transparent (cfg : config.t) (ps : list pet.Pet) (p : pet.Pet) :
  let d := fold_left update_animation ps (__init__ cfg) in
  shows (update_animation d p) p
  /\ (pet.current_gif p = _current_path (_pet_sprite d) ->
      movie_starts (_pet_sprite (update_animation d p)) = movie_starts (_pet_sprite d)).
Proof.
  cbv zeta.
  pose proof (fold_update_animation_coherent ps _ (__init___coherent cfg)) as C.
  split; [apply update_animation_coherent, C |].
  intros E. unfold update_animation. cbv zeta.
  destruct (differs _ _ _ || differs _ _ _); [| reflexivity].
  cbn [_pet_sprite]. apply set_animation_fields, E.
Qed.

End Display.

(** * Concrete runs of the further properties *)

(** The button held for two frames: the pet drags in exactly those. *)
Lemma drag_mirrors_button_witness :
  app.isVisible (app._seal_sprite scenarios.start) = false
  /\ Forall2 (fun f a' => pet.state (app._pet a') = pet.DRAGGING
                          <-> snd (app.sample f) = true)
             sessions.press_and_release
             (fst (@app.run Libm_Q scenarios.cfg scenarios.start
                     sessions.press_and_release scenarios.zeros)).
Proof.
  split; [reflexivity |].
  exact (@drag_mirrors_button Libm_Q scenarios.cfg (app._seal_sprite scenarios.start)
           500 500 sessions.press_and_release scenarios.zeros eq_refl).
Defined.

(** The pointer rests on the pet until the seal appears. *)
Lemma seal_only_in_seal_mode_witness :
  app.isVisible (app._seal_sprite scenarios.start) = false
  /\ Forall (fun a' =>
               pet._seal_active (app._pet a') = true ->
               pet.state (app._pet a') = pet.SEAL_MODE
               \/ (pet.state (app._pet a') = pet.DRAGGING
                   /\ pet._prev_state (app._pet a') = pet.SEAL_MODE))
            (fst (@app.run Libm_Q scenarios.cfg scenarios.start
                    sessions.until_seal scenarios.zeros)).
Proof.
  split; [reflexivity |].
  exact (@seal_only_in_seal_mode Libm_Q scenarios.cfg (app._seal_sprite scenarios.start)
           500 500 sessions.until_seal scenarios.zeros eq_refl).
Defined.

Lemma seal_sprite_tracks_seal_witness :
  app.isVisible (app._seal_sprite scenarios.start) = false
  /\ @loop_spec.returns Libm_Q scenarios.cfg scenarios.start sessions.until_seal
       scenarios.zeros
  /\ Forall (fun a' => app.isVisible (app._seal_sprite a') = pet._seal_active (app._pet a'))
            (fst (@app.run Libm_Q scenarios.cfg scenarios.start
                    sessions.until_seal scenarios.zeros)).
Proof.
  assert (R : @loop_spec.returns Libm_Q scenarios.cfg scenarios.start sessions.until_seal
                scenarios.zeros) by evaluate.
  split; [reflexivity | split; [exact R |]].
  exact (@seal_sprite_tracks_seal Libm_Q scenarios.cfg (app._seal_sprite scenarios.start)
           500 500 sessions.until_seal scenarios.zeros eq_refl R).
Defined.

(** With the seal on screen, a resting pointer keeps it. *)
Lemma seal_dismissed_by_movement_only_witness :
  pet_inv.consistent (fst sessions.with_seal)
  /\ pet._seal_active (app._pet (fst sessions.with_seal)) = true
  /\ pet._seal_active
       (app._pet (fst (@app._tick Libm_Q scenarios.cfg (fst sessions.with_seal)
                         (scenarios.frame 120034 500 500 false)
                         (snd sessions.with_seal))))
     = true.
Proof.
  assert (C : pet_inv.consistent (fst sessions.with_seal)).
  { split; [| split].
    - intros E. vm_compute in E. discriminate E.
    - intros _. left. vm_compute. reflexivity.
    - vm_compute. reflexivity. }
  assert (A : pet._seal_active (app._pet (fst sessions.with_seal)) = true)
    by (vm_compute; reflexivity).
  split; [exact C | split; [exact A |]].
  destruct (@seal_dismissed_by_movement_only Libm_Q scenarios.cfg (fst sessions.with_seal)
              (scenarios.frame 120034 500 500 false) (snd sessions.with_seal) C A)
    as [H _].
  apply H. vm_compute. reflexivity.
Defined.


(** The tick in which the seal appears. *)
Lemma _tick_seal_target_witness :
  app.isVisible (app._seal_sprite (fst sessions.with_seal)) = true
  /\ (pet._seal_x (app._pet (fst sessions.with_seal)),
      pet._seal_y (app._pet (fst sessions.with_seal)))
     = app.center_pos (app._seal_sprite (fst sessions.with_seal)).
Proof.
  unfold sessions.with_seal.
  assert (V : app.isVisible
                (app._seal_sprite
                   (fst (@app._tick Libm_Q scenarios.cfg (fst scenarios.idling)
                           (scenarios.frame 120001 500 500 false)
                           (snd scenarios.idling))))
              = true)
    by (vm_compute; reflexivity).
  split; [exact V |].
  exact (@_tick_seal_target Libm_Q scenarios.cfg (fst scenarios.idling)
           (scenarios.frame 120001 500 500 false) (snd scenarios.idling) V).
Defined.

(** The pointer creeps fifty pixels in ten frames: the idle clock runs on. *)
Lemma idle_clock_ignores_creep_witness :
  @loop_spec.still Libm_Q scenarios.cfg (fst scenarios.idling)
    (sessions.creep_front ++ [sessions.creep_last]) (snd scenarios.idling)
  /\ pet._mouse_idle_start_ms
       (app._pet (@loop_spec.final Libm_Q scenarios.cfg (fst scenarios.idling)
                    (sessions.creep_front ++ [sessions.creep_last])
                    (snd scenarios.idling)))
     = pet._mouse_idle_start_ms (app._pet (fst scenarios.idling)).
Proof.
  assert (S : @loop_spec.still Libm_Q scenarios.cfg (fst scenarios.idling)
                (sessions.creep_front ++ [sessions.creep_last]) (snd scenarios.idling))
    by evaluate.
  split; [exact S |].
  exact (proj1 (@idle_clock_ignores_creep Libm_Q scenarios.cfg sessions.creep_front
                  sessions.creep_last (fst scenarios.idling) (snd scenarios.idling) S)).
Defined.

(** A chasing pet 300 pixels from the pointer steps towards it. *)
Lemma tick_moves_only_when_witness :
  pet_inv.position (fst (@pet.tick Libm_Q scenarios.cfg sessions.chasing 0 scenarios.zeros))
  <> pet_inv.position sessions.chasing
  /\ pet.state (pet.drag_detection sessions.chasing) = pet.CHASING.
Proof.
  assert (H : pet_inv.position
                (fst (@pet.tick Libm_Q scenarios.cfg sessions.chasing 0 scenarios.zeros))
              <> pet_inv.position sessions.chasing)
    by (intros E; vm_compute in E; discriminate E).
  split; [exact H |].
  destruct (@tick_moves_only_when Libm_Q scenarios.cfg sessions.chasing 0 scenarios.zeros H)
    as [[S _] | [S | [S _]]];
    [exact S | vm_compute in S; discriminate S | vm_compute in S; discriminate S].
Defined.

Lemma _pick_idle_gif_member_witness :
  config.GIF_IDLE scenarios.cfg <> []
  /\ 0 <= scenarios.zeros 0%nat /\ scenarios.zeros 0%nat < 1
  /\ In (fst (pet._pick_idle_gif scenarios.cfg (scenarios.idle_for 0) scenarios.zeros))
        (config.GIF_IDLE scenarios.cfg).
Proof.
  assert (N : config.GIF_IDLE scenarios.cfg <> []) by discriminate.
  assert (H0 : 0 <= scenarios.zeros 0%nat) by (vm_compute; discriminate).
  assert (H1 : scenarios.zeros 0%nat < 1) by reflexivity.
  split; [exact N | split; [exact H0 | split; [exact H1 |]]].
  exact (proj2 (_pick_idle_gif_member scenarios.cfg (scenarios.idle_for 0) scenarios.zeros)
           N H0 H1).
Defined.

(** A Hyprland session without a socket file: the Hyprland constructor is
    tried, on a Linux Wayland session with the signature set. *)
Lemma backends_gated_by_environment_witness :
  In (cursor._HyprlandCursor, false)
     (fst (cursor.create_cursor_tracker scenarios.hyprland_without_socket))
  /\ cursor.sys_platform scenarios.hyprland_without_socket = "linux"%string
  /\ selection_spec.wayland_session scenarios.hyprland_without_socket = true.
Proof.
  assert (H : In (cursor._HyprlandCursor, false)
                 (fst (cursor.create_cursor_tracker scenarios.hyprland_without_socket)))
    by (left; reflexivity).
  split; [exact H |].
  destruct (backends_gated_by_environment scenarios.hyprland_without_socket _ _ H)
    as (P & W & _).
  split; [exact P | exact W].
Defined.

(** The reply [12,34]. *)
Lemma _get_pos_accepts_witness :
  cursor.hyprland_ipc sessions.hyprland_ready "/tmp/hypr/abc/.socket.sock"
  = cursor.IpcReply ("12" ++ "," ++ "34")
  /\ cursor.HyprlandCursor._get_pos sessions.hyprland_ready "/tmp/hypr/abc/.socket.sock"
     = py.Returns (12, 34)
  /\ cursor.HyprlandCursor.query sessions.hyprland_ready "/tmp/hypr/abc/.socket.sock"
     = (12, 34, false).
Proof.
  destruct (_get_pos_accepts sessions.hyprland_ready "/tmp/hypr/abc/.socket.sock")
    as (A & Q & _).
  assert (R : cursor.HyprlandCursor._get_pos sessions.hyprland_ready
                "/tmp/hypr/abc/.socket.sock" = py.Returns (12, 34)).
  { apply A. exists "12"%string, "34"%string. repeat split; reflexivity. }
  split; [reflexivity | split; [exact R | exact (Q _ _ R)]].
Defined.

(** Neither the [gi] bindings nor the [gdbus] tool: the constructor raises
    what the tool raised. *)
Lemma gnome_init_transport_witness :
  cursor.gi_session_bus scenarios.hyprland_without_socket <> None
  /\ cursor.GnomeCursor._query_subprocess scenarios.hyprland_without_socket
     = py.Raises (py.OSError 2)
  /\ cursor.GnomeCursor.__init__ scenarios.hyprland_without_socket
     = py.Raises (py.OSError 2).
Proof.
  assert (G : cursor.gi_session_bus scenarios.hyprland_without_socket <> None)
    by discriminate.
  split; [exact G | split; [reflexivity |]].
  destruct (gnome_init_transport scenarios.hyprland_without_socket) as (_ & H & _).
  apply H. split; [left; exact G | reflexivity].
Defined.

Lemma Libm_Q_hypot_nonneg (a b : Q) : 0 <= @hypot Libm_Q a b.
Proof.
  unfold hypot, Libm_Q, Qsqrt, Qle. cbn [Qnum Qden].
  pose proof (Z.sqrt_nonneg (Qnum (Qred (a * a + b * b)))). lia.
Qed.

(** Pushed against the left edge, pulled back, then anchored by a fresh
    reply: the tracker stays on the display. *)
Lemma hybrid_stays_on_screen_witness :
  hybrid_spec.in_bounds examples.hybrid_at_left_edge
  /\ Forall (fun step => hybrid_inv.reply_on_screen examples.hybrid_at_left_edge (snd step))
            sessions.stale_then_fresh
  /\ hybrid_spec.in_bounds
       (@hybrid_spec.queries Libm_Q examples.hybrid_at_left_edge sessions.stale_then_fresh).
Proof.
  assert (Hb : hybrid_spec.in_bounds examples.hybrid_at_left_edge) by evaluate.
  assert (Hs : Forall (fun step => hybrid_inv.reply_on_screen examples.hybrid_at_left_edge
                                     (snd step))
                      sessions.stale_then_fresh)
    by (repeat constructor; vm_compute; discriminate).
  split; [exact Hb | split; [exact Hs |]].
  exact (proj1 (@hybrid_stays_on_screen Libm_Q sessions.stale_then_fresh
                  examples.hybrid_at_left_edge Hb Hs)).
Defined.

Lemma hybrid_sensitivity_positive_witness :
  (forall a b, 0 <= @hypot Libm_Q a b)
  /\ 0 < cursor.WaylandHybridCursor._sensitivity examples.hybrid_at_left_edge
  /\ 0 < cursor.WaylandHybridCursor._sensitivity
           (@hybrid_spec.queries Libm_Q examples.hybrid_at_left_edge
              sessions.stale_then_fresh).
Proof.
  assert (P : 0 < cursor.WaylandHybridCursor._sensitivity examples.hybrid_at_left_edge)
    by reflexivity.
  split; [exact Libm_Q_hypot_nonneg | split; [exact P |]].
  exact (proj1 (@hybrid_sensitivity_positive Libm_Q Libm_Q_hypot_nonneg
                  sessions.stale_then_fresh examples.hybrid_at_left_edge P)).
Defined.

(** A libX11 that is found but does not load: descriptor 7 stays open. *)
Lemma hybrid_init_descriptor_witness :
  cursor.load_library hosts.broken_libX11 = Some (py.OSError 8)
  /\ hybrid_handles.open_fds (fst (hybrid_handles.__init__ hosts.broken_libX11)) []
     = [7%Z].
Proof.
  split; [reflexivity |].
  destruct (hybrid_init_descriptor hosts.broken_libX11) as (_ & _ & H).
  exact (proj2 (H 7%Z "libX11.so.6"%string (py.OSError 8)
                  eq_refl eq_refl eq_refl eq_refl)).
Defined.

Lemma hybrid_close_releases_witness :
  (forall fd, cursor.mice_open hosts.hybrid_ready = py.Returns fd -> (0 <= fd)%Z)
  /\ hybrid_handles.open_fds
       (fst (hybrid_handles.__init__ hosts.hybrid_ready)
        ++ fst (hybrid_handles.close
                  (hybrid_handles.mkHandles (cursor.XOpenDisplay hosts.hybrid_ready) 7)))
       []
     = [].
Proof.
  assert (H : forall fd, cursor.mice_open hosts.hybrid_ready = py.Returns fd -> (0 <= fd)%Z).
  { intros fd E. injection E as <-. discriminate. }
  split; [exact H |].
  exact (proj1 (proj2 (hybrid_close_releases hosts.hybrid_ready _ _ H eq_refl))).
Defined.

(** The pet turns round without changing its animation: the sprite follows
    and the movie is not restarted. *)
Lemma animation_cache_transparent_witness :
  pet.current_gif sessions.turned
  = sprite._current_path
      (display._pet_sprite
         (fold_left display.update_animation [pet.__init__ scenarios.cfg 500 500]
                    (display.__init__ scenarios.cfg)))
  /\ sprite._flipped
       (display._pet_sprite
          (display.update_animation
             (fold_left display.update_animation [pet.__init__ scenarios.cfg 500 500]
                        (display.__init__ scenarios.cfg))
             sessions.turned))
     = true
  /\ sprite.movie_starts
       (display._pet_sprite
          (display.update_animation
             (fold_left display.update_animation [pet.__init__ scenarios.cfg 500 500]
                        (display.__init__ scenarios.cfg))
             sessions.turned))
     = 1%nat.
Proof.
  assert (E : pet.current_gif sessions.turned
              = sprite._current_path
                  (display._pet_sprite
                     (fold_left display.update_animation [pet.__init__ scenarios.cfg 500 500]
                                (display.__init__ scenarios.cfg))))
    by reflexivity.
  destruct (animation_cache_transparent scenarios.cfg [pet.__init__ scenarios.cfg 500 500]
              sessions.turned) as [[_ F] M].
  split; [exact E | split; [exact F |]].
  rewrite (M E). reflexivity.
Defined.
